(** * Waldur site agent, OpenStack Keystone plugin: a shallow embedding

    This development embeds the lifecycle and membership engine of the
    plugin ([utils.py], [keystone_client.py], [openstack_client.py],
    [backends.py]) and proves the properties stated about it.

    Conventions of the embedding.
    - A Python [str] is a [string]; a character is an [ascii], read as a
      code point below 256.  Code points above 255 are outside the classes
      [a-zA-Z0-9_.-] exactly like the bytes 128..255 modelled here.
    - Calls to [logger] have no result and touch no modelled state; they are
      left out, except where formatting the message can itself raise (the
      [project.id] of [OpenStackClient.create_project], the [project_name]
      of the membership handlers, the delay in the warning of the retry
      decorator).
    - An effectful method is a function from the world to an outcome and a
      new world; Python exceptions are the [Raise] outcome.  Only classes
      deriving from [Exception] occur.
    - A [set] argument that is only iterated is the list of its elements in
      iteration order; a [set] result is a [gset].
    - The numbers of the retry decorator are kept abstract: its policy is
      stated for every arithmetic ([Retry.Arith]), with the exceptions that
      [**], [*], the formatting of the delay and [time.sleep] can raise.
      Where the decorator is run, the numbers are Python ints; the delays
      slept are recorded as rationals.
    - The Keystone server and its client library are outside the
      repository: they are an explicit environment, a store with the
      behaviour of the v3 API and an oracle able to fail any call. *)

From Stdlib Require Import Ascii String NArith ZArith QArith.
From stdpp Require Import base strings list gmap pretty.

Local Open Scope string_scope.
Local Open Scope list_scope.

(** ** Part 1: [utils.sanitize_for_openstack] *)

Module Sanitize.

Definition code (c : ascii) : N := N_of_ascii c.

(** The class [[a-zA-Z0-9]] of the two regular expressions. *)
Definition is_alnum (c : ascii) : bool :=
  let n := code c in
  ((48 <=? n) && (n <=? 57) || (65 <=? n) && (n <=? 90)
   || (97 <=? n) && (n <=? 122))%N.

(** The class [[a-zA-Z0-9_\-\.]]. *)
Definition is_valid (c : ascii) : bool :=
  is_alnum c || Ascii.eqb c "_" || Ascii.eqb c "-" || Ascii.eqb c ".".

(** [str.isdigit] on one character: the ASCII digits and, below 256, the
    superscripts two, three and one (code points 178, 179, 185). *)
Definition char_isdigit (c : ascii) : bool :=
  let n := code c in
  ((48 <=? n) && (n <=? 57) || (n =? 178) || (n =? 179) || (n =? 185))%N.

Fixpoint all_chars (p : ascii -> bool) (s : string) : bool :=
  match s with
  | EmptyString => true
  | String c t => p c && all_chars p t
  end.

(** [s.isdigit()]: false on the empty string. *)
Definition isdigit (s : string) : bool :=
  match s with
  | EmptyString => false
  | String _ _ => all_chars char_isdigit s
  end.

(** [name.replace(" ", "_")]. *)
Fixpoint replace_spaces (s : string) : string :=
  match s with
  | EmptyString => EmptyString
  | String c t =>
      String (if Ascii.eqb c " " then "_"%char else c) (replace_spaces t)
  end.

(** [re.sub(r'[^a-zA-Z0-9_\-\.]', '', s)]: every match is one character,
    each is replaced by nothing. *)
Fixpoint remove_invalid (s : string) : string :=
  match s with
  | EmptyString => EmptyString
  | String c t =>
      if is_valid c then String c (remove_invalid t) else remove_invalid t
  end.

(** [re.sub(r'^[^a-zA-Z0-9]+', '', s)]: without MULTILINE the anchor only
    matches at offset 0, and the greedy [+] takes the whole leading run. *)
Fixpoint strip_leading (s : string) : string :=
  match s with
  | EmptyString => EmptyString
  | String c t => if is_alnum c then s else strip_leading t
  end.

Definition is_empty (s : string) : bool :=
  match s with EmptyString => true | String _ _ => false end.

Definition fallback_name : string := "sanitizer_default_name".

Definition sanitize_for_openstack (name : string) : string :=
  let sanitized := replace_spaces name in
  let sanitized := remove_invalid sanitized in
  let sanitized := strip_leading sanitized in
  let sanitized :=
    if isdigit sanitized then "project_" +:+ sanitized else sanitized in
  let sanitized :=
    if is_empty sanitized then fallback_name else sanitized in
  sanitized.

(** The rule as the interface section of the specification words it, over
    the list of characters: replace, keep the allowed characters, drop the
    leading non-alphanumeric ones, prefix, fall back. *)
Definition all_digits (l : list ascii) : bool :=
  match l with
  | [] => false
  | _ => forallb (fun c => (48 <=? code c) && (code c <=? 57))%N l
  end.

Fixpoint drop_leading (l : list ascii) : list ascii :=
  match l with
  | [] => []
  | c :: t => if is_alnum c then l else drop_leading t
  end.

Definition sanitize_rule (s : string) : string :=
  let l := map (fun c => if Ascii.eqb c " " then "_"%char else c)
               (list_ascii_of_string s) in
  let l := List.filter is_valid l in
  let l := drop_leading l in
  let l := if all_digits l then list_ascii_of_string "project_" ++ l else l in
  match l with
  | [] => "sanitizer_default_name"
  | _ => string_of_list_ascii l
  end.

(** The first character, when there is one, is alphanumeric. *)
Definition head_alnum (s : string) : bool :=
  match s with
  | EmptyString => true
  | String c _ => is_alnum c
  end.

End Sanitize.

(** ** Part 2: outcomes, exceptions and [utils.retry_on_exception] *)

Module Py.

(** The exception classes the modelled code raises or catches.  [Conflict]
    is [keystoneclient.exceptions.Conflict] (HTTP 409); [ServiceError]
    stands for every other exception coming out of the client library or
    the transport.  All of them derive from [Exception].  The [__cause__]
    set by [raise ... from e] is not modelled. *)
Inductive exn : Type :=
| Conflict (msg : string) (details : option string)
| ServiceError (msg : string) (http_status : option N)
    (details : option string)
| KeystoneClientError (msg : string)
| BackendError (msg : string)
| ValueError (msg : string)
| RuntimeError (msg : string)
| AttributeError (msg : string)
| UnboundLocalError (msg : string)
| OverflowError (msg : string).

Inductive outcome (A : Type) : Type :=
| Ok (a : A)
| Raise (e : exn).
Arguments Ok {A} a.
Arguments Raise {A} e.

Definition is_ok {A} (r : outcome A) : bool :=
  match r with Ok _ => true | Raise _ => false end.

(** [str(e)]. *)
Definition py_str (e : exn) : string :=
  match e with
  | Conflict m _ | ServiceError m _ _ | KeystoneClientError m
  | BackendError m | ValueError m | RuntimeError m | AttributeError m
  | UnboundLocalError m | OverflowError m => m
  end.

Definition http_status (e : exn) : option N :=
  match e with
  | Conflict _ _ => Some 409%N
  | ServiceError _ st _ => st
  | _ => None
  end.

Definition details (e : exn) : option string :=
  match e with
  | Conflict _ d | ServiceError _ _ d => d
  | _ => None
  end.

Definition nl : string := String (ascii_of_nat 10) EmptyString.

(** [utils.format_openstack_error]. *)
Definition format_openstack_error (exception : exn) : string :=
  let error_msg := py_str exception in
  let error_msg :=
    match http_status exception with
    | Some status_code => "[HTTP " +:+ pretty status_code +:+ "] " +:+ error_msg
    | None => error_msg
    end in
  match details exception with
  | Some d =>
      if Sanitize.is_empty d then error_msg
      else nl +:+ "ERROR MESSAGE" +:+ error_msg +:+ nl +:+ "DETAILS: " +:+ d
  | None => error_msg
  end.

(** [range(lo, hi)]. *)
Definition py_range (lo hi : Z) : list Z :=
  map (fun i => (lo + Z.of_nat i)%Z) (seq 0 (Z.to_nat (hi - lo))).

End Py.

Module Retry.
Import Py.

(** What Python does with the numbers handed to the decorator.  The
    annotations say [float], the language takes any number, and the
    handler computes with whatever it was given: [x ** n] and [x * y] may
    raise ([OverflowError] when a float power leaves the double range or an
    int is too large for a float), [x < y] is the comparison [min] asks,
    [format_error d] is what formatting [d] with [.1f] in the warning
    raises, if anything, and [sleep_error d] what [time.sleep(d)] raises
    instead of sleeping. *)
Record Arith (num : Type) : Type := {
  pow : num -> Z -> outcome num;
  mul : num -> num -> outcome num;
  lt : num -> num -> bool;
  format_error : num -> option exn;
  sleep_error : num -> option exn }.
Arguments pow {num} _ _ _.
Arguments mul {num} _ _ _.
Arguments lt {num} _ _ _.
Arguments format_error {num} _ _.
Arguments sleep_error {num} _ _.

(** [retry_on_exception(max_attempts, base_delay, max_delay,
    exponential_base, exceptions)(func)]: the [wrapper] closure.  The world
    [W] is whatever [func] acts on; [sleep] is the effect of a
    [time.sleep] that returns; [exceptions] is the [except] filter. *)
Section Wrapper.
Context {W A num : Type}.
Variable arith : Arith num.
Variable sleep : num -> W -> W.
Variable max_attempts : Z.
Variables base_delay max_delay exponential_base : num.
Variable exceptions : exn -> bool.
Variable func : W -> outcome A * W.

(** [min(a, b)]: [b] when [b < a], else [a]. *)
Definition py_min (a b : num) : num := if lt arith b a then b else a.

(** [min(base_delay * (exponential_base ** (attempt - 1)), max_delay)]. *)
Definition delay (attempt : Z) : outcome num :=
  match pow arith exponential_base (attempt - 1) with
  | Raise e => Raise e
  | Ok p =>
      match mul arith base_delay p with
      | Raise e => Raise e
      | Ok d => Ok (py_min d max_delay)
      end
  end.

(** The handler after the test for the last attempt: the delay, the
    warning that formats it, [time.sleep(delay)].  An exception raised by
    one of them leaves the handler, and the wrapper with it. *)
Definition back_off (attempt : Z) (w : W) : outcome unit * W :=
  match delay attempt with
  | Raise e => (Raise e, w)
  | Ok d =>
      match format_error arith d with
      | Some e => (Raise e, w)
      | None =>
          match sleep_error arith d with
          | Some e => (Raise e, w)
          | None => (Ok tt, sleep d w)
          end
      end
  end.

(** The [for attempt in ...] loop over the attempts still to run, and the
    two statements after it. *)
Fixpoint attempts_loop (attempts : list Z) (last_exception : option exn)
    (w : W) : outcome A * W :=
  match attempts with
  | [] =>
      match last_exception with
      | Some e => (Raise e, w)
      | None => (Raise (RuntimeError "Unexpected retry logic error"), w)
      end
  | attempt :: rest =>
      match func w with
      | (Ok v, w') => (Ok v, w')
      | (Raise e, w') =>
          if exceptions e then
            if (attempt =? max_attempts)%Z then (Raise e, w')
            else
              match back_off attempt w' with
              | (Ok _, w'') => attempts_loop rest (Some e) w''
              | (Raise e', w'') => (Raise e', w'')
              end
          else (Raise e, w')
      end
  end.

(** The loop as it stands when attempt [k] is about to run. *)
Definition loop_from (k : Z) (last_exception : option exn) (w : W) :
    outcome A * W :=
  attempts_loop (py_range k (max_attempts + 1)) last_exception w.

Definition wrapper (w : W) : outcome A * W := loop_from 1 None w.

(** A run in which attempt [k] and every later attempt fails and every
    sleep in between returns: [e] is the failure of the last attempt and
    [w'] the world it leaves. *)
Inductive all_fail : Z -> W -> exn -> W -> Prop :=
| all_fail_last w e w' :
    func w = (Raise e, w') -> all_fail max_attempts w e w'
| all_fail_step k w e w' w1 e' w'' :
    (k < max_attempts)%Z ->
    func w = (Raise e, w') -> exceptions e = true ->
    back_off k w' = (Ok tt, w1) ->
    all_fail (k + 1) w1 e' w'' ->
    all_fail k w e' w''.
End Wrapper.

(** [exceptions=(Exception,)], the default. *)
Definition any_exception (e : exn) : bool := true.

(** The arithmetic of Python [int]s, which is exact.  The exponent is
    [attempt - 1] and never negative, [attempt] running from 1.  Formatting
    with [.1f] converts to a float and raises [OverflowError] for an int
    that rounds to [2 ** 1024] or beyond; [time.sleep] raises
    [OverflowError] when the nanoseconds do not fit 64 bits and
    [ValueError] for a negative length. *)
Definition ints : Arith Z := {|
  pow x n := Ok (x ^ n)%Z;
  mul x y := Ok (x * y)%Z;
  lt := Z.ltb;
  format_error d :=
    if (2 ^ 1024 - 2 ^ 970 <=? Z.abs d)%Z
    then Some (OverflowError "int too large to convert to float")
    else None;
  sleep_error d :=
    if ((d <? -9223372036) || (9223372036 <? d))%Z
    then Some (OverflowError
                 "timestamp too large to convert to C _PyTime_t")
    else if (d <? 0)%Z
    then Some (ValueError "sleep length must be non-negative")
    else None |}.

(** A test double for the properties of the policy: the world is the number
    of calls made so far and the list of delays slept; the operation fails
    on its first [n] calls and then returns the call count. *)
Definition flaky_world : Type := nat * list Q.

Definition flaky_sleep (d : Z) (w : flaky_world) : flaky_world :=
  (w.1, w.2 ++ [inject_Z d]).

Definition flaky (n : nat) (w : flaky_world) : outcome nat * flaky_world :=
  if (w.1 <? n)%nat
  then (Raise (ServiceError "unavailable" (Some 503%N) None), (S w.1, w.2))
  else (Ok w.1, (S w.1, w.2)).

Definition total (l : list Q) : Q := fold_right Qplus 0%Q l.

End Retry.

(** ** Part 3: the identity service and the world of effects

    The Keystone server and [python-keystoneclient] are not part of the
    repository.  They are modelled as a store of domains, projects, users,
    roles and role assignments with the documented behaviour of the v3 API
    (names unique inside a domain, a 409 on a duplicate create, a 404 on a
    missing target), plus an [oracle] that may make any call fail with any
    exception: transport errors, time-outs, races with other actors. *)

Module Identity.
Import Py.

Record Domain := { domain_id : N; domain_name : string }.

Record Project := {
  project_id : N;
  project_name : string;
  project_domain_id : N;
  project_description : string;
  project_enabled : bool }.

(** [user_email = None]: the object has no [email] attribute. *)
Record User := {
  user_id : N;
  user_name : string;
  user_domain_id : N;
  user_email : option string;
  user_enabled : bool }.

Record Role := { role_id : N; role_name : string }.

(** One entry of [role_assignments.list]: [assignment.role["id"]],
    [assignment.user["id"]], [assignment.scope["project"]["id"]]. *)
Record Assignment := {
  assignment_role : N;
  assignment_user : N;
  assignment_project : N }.

Record Service := {
  domains : list Domain;
  projects : list Project;
  users : list User;
  roles : list Role;
  assignments : list Assignment;
  next_id : N;
  default_domain : N }.

(** The calls the plugin makes on [self.keystone], with the identifiers
    the client library puts on the wire. *)
Inductive KCall : Type :=
| CDomainsList (name : string)
| CDomainsCreate (name : string)
| CProjectsList (name : string) (domain : option N)
| CProjectsCreate (name : string) (domain : option N) (description : string)
| CProjectsDelete (project : N)
| CUsersList (name : string) (domain : option N)
| CUsersCreate (name : string) (email : option string) (domain : option N)
    (enabled : bool)
| CUsersUpdate (user : N) (email : string)
| CRolesList (name : string)
| CRolesCreate (name : string)
| CRolesGrant (role : option N) (user project : N)
| CRolesRevoke (role user project : N)
| CAssignmentsList (user project : N).

Definition conflict (what : string) : exn :=
  Conflict ("Conflict occurred attempting to store " +:+ what) None.

Definition not_found (what : string) : exn :=
  ServiceError ("Could not find " +:+ what) (Some 404%N) None.

Definition in_domain (domain : option N) (d : N) : bool :=
  match domain with Some i => (i =? d)%N | None => true end.

Definition domain_or_default (s : Service) (domain : option N) : N :=
  match domain with Some i => i | None => default_domain s end.

Definition same_assignment (r u p : N) (a : Assignment) : bool :=
  ((assignment_role a =? r) && (assignment_user a =? u)
   && (assignment_project a =? p))%N.

Definition domains_list_sem (name : string) (s : Service) :
    outcome (list Domain) * Service :=
  (Ok (List.filter (fun d => String.eqb (domain_name d) name) (domains s)), s).

Definition domains_create_sem (name : string) (s : Service) :
    outcome Domain * Service :=
  if existsb (fun d => String.eqb (domain_name d) name) (domains s)
  then (Raise (conflict "domain"), s)
  else
    let d := {| domain_id := next_id s; domain_name := name |} in
    (Ok d,
     {| domains := domains s ++ [d]; projects := projects s;
        users := users s; roles := roles s; assignments := assignments s;
        next_id := N.succ (next_id s); default_domain := default_domain s |}).

Definition project_matches (name : string) (domain : option N)
    (p : Project) : bool :=
  String.eqb (project_name p) name && in_domain domain (project_domain_id p).

Definition projects_list_sem (name : string) (domain : option N)
    (s : Service) : outcome (list Project) * Service :=
  (Ok (List.filter (project_matches name domain) (projects s)), s).

Definition projects_create_sem (name : string) (domain : option N)
    (description : string) (enabled : bool) (s : Service) :
    outcome Project * Service :=
  let d := domain_or_default s domain in
  if existsb (project_matches name (Some d)) (projects s)
  then (Raise (conflict "project"), s)
  else
    let p := {| project_id := next_id s; project_name := name;
                project_domain_id := d; project_description := description;
                project_enabled := enabled |} in
    (Ok p,
     {| domains := domains s; projects := projects s ++ [p];
        users := users s; roles := roles s; assignments := assignments s;
        next_id := N.succ (next_id s); default_domain := default_domain s |}).

Definition projects_delete_sem (project : N) (s : Service) :
    outcome unit * Service :=
  if existsb (fun p => (project_id p =? project)%N) (projects s)
  then
    (Ok tt,
     {| domains := domains s;
        projects :=
          List.filter (fun p => negb (project_id p =? project)%N) (projects s);
        users := users s; roles := roles s;
        assignments :=
          List.filter (fun a => negb (assignment_project a =? project)%N)
            (assignments s);
        next_id := next_id s; default_domain := default_domain s |})
  else (Raise (not_found "project"), s).

Definition user_matches (name : string) (domain : option N) (u : User) :
    bool :=
  String.eqb (user_name u) name && in_domain domain (user_domain_id u).

Definition users_list_sem (name : string) (domain : option N) (s : Service) :
    outcome (list User) * Service :=
  (Ok (List.filter (user_matches name domain) (users s)), s).

Definition users_create_sem (name : string) (email : option string)
    (domain : option N) (enabled : bool) (s : Service) :
    outcome User * Service :=
  let d := domain_or_default s domain in
  if existsb (user_matches name (Some d)) (users s)
  then (Raise (conflict "user"), s)
  else
    let u := {| user_id := next_id s; user_name := name;
                user_domain_id := d; user_email := email;
                user_enabled := enabled |} in
    (Ok u,
     {| domains := domains s; projects := projects s;
        users := users s ++ [u]; roles := roles s;
        assignments := assignments s;
        next_id := N.succ (next_id s); default_domain := default_domain s |}).

Definition set_email (user : N) (email : string) (u : User) : User :=
  if (user_id u =? user)%N
  then {| user_id := user_id u; user_name := user_name u;
          user_domain_id := user_domain_id u; user_email := Some email;
          user_enabled := user_enabled u |}
  else u.

Definition users_update_sem (user : N) (email : string) (s : Service) :
    outcome unit * Service :=
  if existsb (fun u => (user_id u =? user)%N) (users s)
  then
    (Ok tt,
     {| domains := domains s; projects := projects s;
        users := map (set_email user email) (users s); roles := roles s;
        assignments := assignments s;
        next_id := next_id s; default_domain := default_domain s |})
  else (Raise (not_found "user"), s).

Definition roles_list_sem (name : string) (s : Service) :
    outcome (list Role) * Service :=
  (Ok (List.filter (fun r => String.eqb (role_name r) name) (roles s)), s).

Definition roles_create_sem (name : string) (s : Service) :
    outcome Role * Service :=
  if existsb (fun r => String.eqb (role_name r) name) (roles s)
  then (Raise (conflict "role"), s)
  else
    let r := {| role_id := next_id s; role_name := name |} in
    (Ok r,
     {| domains := domains s; projects := projects s; users := users s;
        roles := roles s ++ [r]; assignments := assignments s;
        next_id := N.succ (next_id s); default_domain := default_domain s |}).

(** A grant is a PUT: granting twice leaves one assignment. *)
Definition roles_grant_sem (role : option N) (user project : N)
    (s : Service) : outcome unit * Service :=
  match role with
  | None => (Raise (not_found "role"), s)
  | Some r =>
      if existsb (same_assignment r user project) (assignments s)
      then (Ok tt, s)
      else
        (Ok tt,
         {| domains := domains s; projects := projects s; users := users s;
            roles := roles s;
            assignments :=
              assignments s ++
                [{| assignment_role := r; assignment_user := user;
                    assignment_project := project |}];
            next_id := next_id s; default_domain := default_domain s |})
  end.

Definition roles_revoke_sem (role user project : N) (s : Service) :
    outcome unit * Service :=
  if existsb (same_assignment role user project) (assignments s)
  then
    (Ok tt,
     {| domains := domains s; projects := projects s; users := users s;
        roles := roles s;
        assignments :=
          List.filter (fun a => negb (same_assignment role user project a))
            (assignments s);
        next_id := next_id s; default_domain := default_domain s |})
  else (Raise (not_found "role assignment"), s).

Definition assignments_list_sem (user project : N) (s : Service) :
    outcome (list Assignment) * Service :=
  (Ok (List.filter
         (fun a => ((assignment_user a =? user)
                    && (assignment_project a =? project))%N)
         (assignments s)), s).

End Identity.

Module Effects.
Import Py Identity.

(** The world: the service, the calls made on it so far with their success
    flag, and the delays slept. *)
Record World := {
  service : Service;
  trace : list (KCall * bool);
  slept : list Q }.

Definition M (A : Type) : Type := World -> outcome A * World.

Definition ret {A} (a : A) : M A := fun w => (Ok a, w).

Definition raise {A} (e : exn) : M A := fun w => (Raise e, w).

Definition bind {A B} (m : M A) (k : A -> M B) : M B :=
  fun w =>
    match m w with
    | (Ok a, w') => k a w'
    | (Raise e, w') => (Raise e, w')
    end.

(** [try: m  except Exception as e: h e]. *)
Definition try_except {A} (m : M A) (h : exn -> M A) : M A :=
  fun w =>
    match m w with
    | (Ok a, w') => (Ok a, w')
    | (Raise e, w') => h e w'
    end.

(** A [time.sleep] that returns. *)
Definition time_sleep (d : Q) (w : World) : World :=
  {| service := service w; trace := trace w; slept := slept w ++ [d] |}.

(** One call on the service: the oracle, asked with the number of calls made
    before, may fail it; otherwise the service answers. *)
Definition call {A} (oracle : nat -> KCall -> option exn) (c : KCall)
    (sem : Service -> outcome A * Service) : M A :=
  fun w =>
    match oracle (length (trace w)) c with
    | Some e =>
        (Raise e,
         {| service := service w; trace := trace w ++ [(c, false)];
            slept := slept w |})
    | None =>
        let r := sem (service w) in
        (r.1,
         {| service := r.2; trace := trace w ++ [(c, is_ok r.1)];
            slept := slept w |})
    end.

(** The decorator with the arguments every use in [keystone_client.py]
    gives it: [@retry_on_exception(max_attempts=3, base_delay=1.0)], with
    the defaults [max_delay=60.0] and [exponential_base=2.0].  These doubles
    are whole numbers, and so are [2.0 ** 0], [2.0 ** 1] and the two
    products the three attempts need: on them float arithmetic is exact and
    is the arithmetic of [Retry.ints]. *)
Definition retry_on_exception {A} (max_attempts : Z) (base_delay : Z)
    (func : M A) : M A :=
  Retry.wrapper Retry.ints (fun d => time_sleep (inject_Z d)) max_attempts
    base_delay 60%Z 2%Z Retry.any_exception func.

End Effects.

Notation "'let*' x ':=' m 'in' k" := (Effects.bind m (fun x => k))
  (at level 10, x name, m at level 100, k at level 200).

(** ** Part 4: [keystone_client.KeystoneClient]

    [cfg] is [self.config]; [self.keystone] is the initialised client,
    whose calls are the [call]s below. *)

Module Config.
Record OpenStackConfig := {
  domain_name : string;
  default_role : string;
  create_users_if_not_exist : bool;
  sync_user_emails : bool;
  user_enabled_by_default : bool }.

(** The defaults of the dataclass. *)
Definition default : OpenStackConfig :=
  {| domain_name := "Default"; default_role := "_member_";
     create_users_if_not_exist := true; sync_user_emails := true;
     user_enabled_by_default := true |}.
End Config.

Module KeystoneClient.
Import Py Identity Effects.

Section Methods.
Variable oracle : nat -> KCall -> option exn.
Variable cfg : Config.OpenStackConfig.

(** *** The calls on [self.keystone] *)

Definition domains_list (name : string) : M (list Domain) :=
  call oracle (CDomainsList name) (domains_list_sem name).

Definition domains_create (name : string) : M Domain :=
  call oracle (CDomainsCreate name) (domains_create_sem name).

Definition projects_list (name : string) (domain : option Domain) :
    M (list Project) :=
  let d := domain_id <$> domain in
  call oracle (CProjectsList name d) (projects_list_sem name d).

Definition projects_create (name : string) (domain : option Domain)
    (description : string) (enabled : bool) : M Project :=
  let d := domain_id <$> domain in
  call oracle (CProjectsCreate name d description)
    (projects_create_sem name d description enabled).

Definition projects_delete (project : Project) : M unit :=
  call oracle (CProjectsDelete (project_id project))
    (projects_delete_sem (project_id project)).

Definition users_list (name : string) (domain : option Domain) :
    M (list User) :=
  let d := domain_id <$> domain in
  call oracle (CUsersList name d) (users_list_sem name d).

Definition users_create (name : string) (email : option string)
    (domain : option Domain) (enabled : bool) : M User :=
  let d := domain_id <$> domain in
  call oracle (CUsersCreate name email d enabled)
    (users_create_sem name email d enabled).

Definition users_update (user : User) (email : string) : M unit :=
  call oracle (CUsersUpdate (user_id user) email)
    (users_update_sem (user_id user) email).

Definition roles_list (name : string) : M (list Role) :=
  call oracle (CRolesList name) (roles_list_sem name).

Definition roles_create (name : string) : M Role :=
  call oracle (CRolesCreate name) (roles_create_sem name).

(** [roles.grant(role=, user=, project=)]: the library refuses a missing
    user or project before it sends anything. *)
Definition roles_grant (role : option Role) (user : option User)
    (project : option Project) : M unit :=
  match user, project with
  | Some u, Some p =>
      call oracle (CRolesGrant (role_id <$> role) (user_id u) (project_id p))
        (roles_grant_sem (role_id <$> role) (user_id u) (project_id p))
  | _, _ =>
      raise (ServiceError "Must specify either a user or group" None None)
  end.

Definition roles_revoke (role : N) (user : User) (project : Project) :
    M unit :=
  call oracle (CRolesRevoke role (user_id user) (project_id project))
    (roles_revoke_sem role (user_id user) (project_id project)).

Definition role_assignments_list (user : User) (project : Project) :
    M (list Assignment) :=
  call oracle (CAssignmentsList (user_id user) (project_id project))
    (assignments_list_sem (user_id user) (project_id project)).

(** *** Domain operations *)

Definition get_domain (domain_name : string) : M (option Domain) :=
  try_except
    (let* domains := domains_list domain_name in
     ret (head domains))
    (fun e => ret None).

Definition ensure_domain (domain_name : string) : M (option Domain) :=
  let* domain := get_domain domain_name in
  match domain with
  | Some d => ret (Some d)
  | None =>
      try_except
        (let* domain := domains_create domain_name in
         ret (Some domain))
        (fun e =>
           match e with
           | Conflict _ _ => get_domain domain_name
           | _ =>
               raise (KeystoneClientError
                        ("Failed to create domain: " +:+ py_str e))
           end)
  end.

(** *** Project operations *)

(** [if domain is None: domain = self.get_domain(self.config.domain_name)],
    the first statement of [get_project] and of [get_user]. *)
Definition configured_domain (domain : option Domain) : M (option Domain) :=
  match domain with
  | None => get_domain (Config.domain_name cfg)
  | Some _ => ret domain
  end.

Definition get_project (project_name : string) (domain : option Domain) :
    M (option Project) :=
  try_except
    (let* domain := configured_domain domain in
     let* projects := projects_list project_name domain in
     ret (head projects))
    (fun e => ret None).

(** The two [except] clauses of [create_project]; [domain] is the local
    variable as it stands when the exception arrives. *)
Definition create_project_except (project_name : string)
    (domain : option Domain) (e : exn) : M (option Project) :=
  match e with
  | Conflict _ _ => get_project project_name domain
  | _ =>
      raise (KeystoneClientError
               ("Failed to create project in create_project func "
                +:+ project_name +:+ ": " +:+ format_openstack_error e))
  end.

(** The body under the decorator.  The result is [None] when the
    conflict branch looks the project up and does not get it. *)
Definition create_project_func (project_name : string)
    (domain : option Domain) (description : string) : M (option Project) :=
  fun w =>
    match
      match domain with
      | None => ensure_domain (Config.domain_name cfg) w
      | Some _ => (Ok domain, w)
      end
    with
    | (Raise e, w1) => create_project_except project_name domain e w1
    | (Ok domain, w1) =>
        match
          projects_create project_name domain
            (if Sanitize.is_empty description
             then "Project " +:+ project_name else description)
            true w1
        with
        | (Raise e, w2) => create_project_except project_name domain e w2
        | (Ok project, w2) => (Ok (Some project), w2)
        end
    end.

Definition create_project (project_name : string)
    (domain : option Domain) (description : string) : M (option Project) :=
  retry_on_exception 3 1 (create_project_func project_name domain description).

Definition delete_project (project_name : string)
    (domain : option Domain) : M bool :=
  try_except
    (let* project := get_project project_name domain in
     match project with
     | None => ret false
     | Some p => let* _ := projects_delete p in ret true
     end)
    (fun e => ret false).

(** *** User operations *)

Definition get_user (username : string) (domain : option Domain) :
    M (option User) :=
  try_except
    (let* domain := configured_domain domain in
     let* users := users_list username domain in
     ret (head users))
    (fun e => ret None).

(** [email and self.config.sync_user_emails and hasattr(user, "email")
    and user.email != email], giving the address to store. *)
Definition email_to_sync (user : User) (email : option string) :
    option string :=
  match email with
  | Some e =>
      if negb (Sanitize.is_empty e) && Config.sync_user_emails cfg then
        match user_email user with
        | Some old => if String.eqb old e then None else Some e
        | None => None
        end
      else None
  | None => None
  end.

Definition ensure_user_except (username : string) (domain : option Domain)
    (e : exn) : M (option User) :=
  match e with
  | Conflict _ _ => get_user username domain
  | _ =>
      raise (KeystoneClientError
               ("Failed to create user " +:+ username +:+ ": "
                +:+ format_openstack_error e))
  end.

Definition ensure_user_func (username : string) (email : option string)
    (domain : option Domain) (enabled : option bool) : M (option User) :=
  let* user := get_user username domain in
  match user with
  | Some u =>
      let* _ :=
        match email_to_sync u email with
        | Some e => try_except (users_update u e) (fun _ => ret tt)
        | None => ret tt
        end in
      ret (Some u)
  | None =>
      if negb (Config.create_users_if_not_exist cfg) then
        raise (KeystoneClientError
                 ("User " +:+ username
                  +:+ " not found and auto-creation disabled"))
      else
        fun w =>
          match
            match domain with
            | None => ensure_domain (Config.domain_name cfg) w
            | Some _ => (Ok domain, w)
            end
          with
          | (Raise e, w1) => ensure_user_except username domain e w1
          | (Ok domain, w1) =>
              let enabled :=
                match enabled with
                | None => Config.user_enabled_by_default cfg
                | Some b => b
                end in
              match users_create username email domain enabled w1 with
              | (Raise e, w2) => ensure_user_except username domain e w2
              | (Ok user, w2) => (Ok (Some user), w2)
              end
          end
  end.

Definition ensure_user (username : string) (email : option string)
    (domain : option Domain) (enabled : option bool) : M (option User) :=
  retry_on_exception 3 1 (ensure_user_func username email domain enabled).

(** *** Role operations *)

Definition get_role (role_name : string) : M (option Role) :=
  try_except
    (let* roles := roles_list role_name in
     ret (head roles))
    (fun e => ret None).

Definition ensure_role (role_name : string) : M (option Role) :=
  let* role := get_role role_name in
  match role with
  | Some r => ret (Some r)
  | None =>
      try_except
        (let* role := roles_create role_name in
         ret (Some role))
        (fun e =>
           match e with
           | Conflict _ _ => get_role role_name
           | _ =>
               raise (KeystoneClientError
                        ("Failed to create role: " +:+ py_str e))
           end)
  end.

Definition assign_role_func (user : option User) (project : option Project)
    (role_name : string) : M bool :=
  try_except
    (let* role := ensure_role role_name in
     let* _ := roles_grant role user project in
     ret true)
    (fun e =>
       match e with
       | Conflict _ _ => ret true
       | _ => ret false
       end).

Definition assign_role (user : option User) (project : option Project)
    (role_name : string) : M bool :=
  retry_on_exception 3 1 (assign_role_func user project role_name).

(** The [for assignment in assignments] loop of
    [revoke_all_project_roles], carrying [success]. *)
Fixpoint revoke_each (user : User) (project : Project)
    (assignments : list Assignment) (success : bool) : M bool :=
  match assignments with
  | [] => ret success
  | assignment :: rest =>
      let* success :=
        try_except
          (let role_id := assignment_role assignment in
           let* _ := roles_revoke role_id user project in
           ret success)
          (fun e => ret false) in
      revoke_each user project rest success
  end.

Definition revoke_all_project_roles (user : User) (project : Project) :
    M bool :=
  try_except
    (let* assignments := role_assignments_list user project in
     match assignments with
     | [] => ret true
     | _ => revoke_each user project assignments true
     end)
    (fun e => ret false).
End Methods.

End KeystoneClient.

(** ** Part 5: [openstack_client.OpenStackClient] *)

Module OpenStackClient.
Import Py Identity Effects.

(** [waldur_site_agent.backend.clients.ClientResource], a plain data
    object (always truthy). *)
Record ClientResource := {
  name : string;
  description : string;
  organization : string }.

Section Methods.
Variable oracle : nat -> KCall -> option exn.
Variable cfg : Config.OpenStackConfig.

Definition get_domain (domain_name : string) : M (option Domain) :=
  try_except (KeystoneClient.get_domain oracle domain_name)
    (fun e => ret None).

Definition get_role (role_name : string) : M (option Role) :=
  try_except (KeystoneClient.get_role oracle role_name)
    (fun e => ret None).

Definition get_resource (resource_id : string) : M (option ClientResource) :=
  try_except
    (let* project := KeystoneClient.get_project oracle cfg resource_id None in
     match project with
     | None => ret None
     | Some p =>
         let* domain :=
           KeystoneClient.get_domain oracle (Config.domain_name cfg) in
         ret (Some {| name := project_name p;
                      description := project_description p;
                      organization :=
                        match domain with
                        | Some d => domain_name d
                        | None => ""
                        end |})
     end)
    (fun e => ret None).

Definition delete_resource (name : string) : M string :=
  try_except
    (let* success := KeystoneClient.delete_project oracle cfg name None in
     if success
     then ret ("Successfully deleted project '" +:+ name +:+ "'")
     else ret ("Project '" +:+ name +:+ "' not found"))
    (fun e =>
       raise (KeystoneClientError
                ("Failed to delete resource '" +:+ name +:+ "': "
                 +:+ py_str e))).

Definition get_project (project_name : string) : M (option Project) :=
  try_except (KeystoneClient.get_project oracle cfg project_name None)
    (fun e => ret None).

(** The log line after the call reads [project.id]: a [None] coming back
    from the conflict branch raises [AttributeError] inside the [try]. *)
Definition create_project (project_name description : string) : M Project :=
  try_except
    (let* project :=
       KeystoneClient.create_project oracle cfg project_name None
         description in
     match project with
     | Some p => ret p
     | None =>
         raise (AttributeError "'NoneType' object has no attribute 'id'")
     end)
    (fun e =>
       raise (KeystoneClientError
                ("Failed to create project '" +:+ project_name +:+ "': "
                 +:+ py_str e))).

Definition create_association (username resource_id : string) : M string :=
  try_except
    (let* project :=
       KeystoneClient.get_project oracle cfg resource_id None in
     let* project :=
       match project with
       | Some _ => ret project
       | None => KeystoneClient.create_project oracle cfg resource_id None ""
       end in
     let* user := KeystoneClient.ensure_user oracle cfg username None None
                    None in
     let role_name := Config.default_role cfg in
     let* success := KeystoneClient.assign_role oracle user project
                       role_name in
     if success
     then ret ("Successfully assigned role '" +:+ role_name
               +:+ "' to user '" +:+ username +:+ "' in project '"
               +:+ resource_id +:+ "'")
     else raise (KeystoneClientError
                   ("Failed to assign role to user '" +:+ username
                    +:+ "' in project '" +:+ resource_id +:+ "'")))
    (fun e =>
       raise (KeystoneClientError
                ("Failed to create association for user '" +:+ username
                 +:+ "' in project '" +:+ resource_id +:+ "': "
                 +:+ py_str e))).

Definition delete_association (username resource_id : string) : M string :=
  try_except
    (let* project :=
       KeystoneClient.get_project oracle cfg resource_id None in
     match project with
     | None => ret ("Project '" +:+ resource_id +:+ "' not found")
     | Some project =>
         let* user := KeystoneClient.get_user oracle cfg username None in
         match user with
         | None => ret ("User '" +:+ username +:+ "' not found")
         | Some user =>
             let* success :=
               KeystoneClient.revoke_all_project_roles oracle user project in
             if success
             then ret ("Successfully revoked all roles from user '"
                       +:+ username +:+ "' in project '" +:+ resource_id
                       +:+ "'")
             else raise (KeystoneClientError
                           ("Failed to revoke roles from user '"
                            +:+ username +:+ "' in project '"
                            +:+ resource_id +:+ "'"))
         end
     end)
    (fun e =>
       raise (KeystoneClientError
                ("Failed to delete association for user '" +:+ username
                 +:+ "' from project '" +:+ resource_id +:+ "': "
                 +:+ py_str e))).
End Methods.

End OpenStackClient.

(** ** Part 6: [utils.validate_backend_id] and [backends.OpenStackBackend] *)

Module Backend.
Import Py Identity Effects.

(** [validate_backend_id(backend_id, resource_type)]; the argument is a
    [str], so the [isinstance] test passes. *)
Definition validate_backend_id (backend_id resource_type : string) :
    outcome bool :=
  if Sanitize.is_empty backend_id then
    Raise (ValueError ("Backend ID validation ressource: " +:+ resource_type
                       +:+ " backend_id cannot be empty"))
  else if (255 <? String.length backend_id)%nat then
    Raise (ValueError (resource_type
                       +:+ " backend_id is too long (max 255 characters)"))
  else Ok true.

(** [str.isspace] on one character below 256. *)
Definition char_isspace (c : ascii) : bool :=
  let n := Sanitize.code c in
  ((9 <=? n) && (n <=? 13) || (28 <=? n) && (n <=? 32) || (n =? 133)
   || (n =? 160))%N.

(** [not s or not s.strip()]. *)
Definition blank (s : string) : bool := Sanitize.all_chars char_isspace s.

(** The attributes of the resource object the backend reads; [None] is a
    missing attribute. *)
Record WaldurResource := {
  backend_id : option string;
  uuid : option string;
  name : option string;
  description : option string }.

(** [hasattr(r, a) and r.a]: the value when present and truthy. *)
Definition attr (o : option string) : option string :=
  match o with
  | Some s => if Sanitize.is_empty s then None else Some s
  | None => None
  end.

Definition lift {A} (r : outcome A) : M A := fun w => (r, w).

Definition _extract_backend_id (waldur_resource : WaldurResource) : string :=
  match attr (backend_id waldur_resource) with
  | Some backend_id => backend_id
  | None =>
      match attr (uuid waldur_resource) with
      | Some u => u
      | None => ""
      end
  end.

(** The [error_msg] of [add_users_to_resource] for a missing project. *)
Definition project_not_found (project_name : string) : string :=
  "Project " +:+ project_name +:+ " not found in OpenStack! "
  +:+ "Projects should be created via _pre_create_resource(), not here. "
  +:+ "Skipping user sync.".

Section Methods.
Variable oracle : nat -> KCall -> option exn.
Variable cfg : Config.OpenStackConfig.

Definition _create_resource_in_backend (waldur_resource : WaldurResource) :
    M string :=
  try_except
    (match attr (uuid waldur_resource) with
     | None =>
         raise (BackendError
                  ("Cannot create resource: waldur_resource.uuid is missing. "
                   +:+ "UUID is required as the stable backend_id for "
                   +:+ "OpenStack project naming."))
     | Some backend_id =>
         let* _ := lift (validate_backend_id backend_id
                           "waldur_managed_project") in
         let project_name := Sanitize.sanitize_for_openstack backend_id in
         let* existing_project :=
           OpenStackClient.get_project oracle cfg project_name in
         match existing_project with
         | Some _ => ret backend_id
         | None =>
             let description :=
               match attr (name waldur_resource) with
               | Some n => "Waldur: " +:+ n
               | None =>
                   match attr (description waldur_resource) with
                   | Some d => d
                   | None => "Waldur managed project"
                   end
               end in
             let* project :=
               OpenStackClient.create_project oracle cfg project_name
                 description in
             ret backend_id
         end
     end)
    (fun e =>
       match e with
       | BackendError _ => raise e
       | _ =>
           raise (BackendError
                    ("Failed to create OpenStack project: " +:+ py_str e))
       end).

Definition delete_resource (waldur_resource : WaldurResource) : M unit :=
  try_except
    (let resource_backend_id := _extract_backend_id waldur_resource in
     if blank resource_backend_id then ret tt
     else
       let* _ := lift (validate_backend_id resource_backend_id
                         "waldur_managed_project") in
       let project_name :=
         Sanitize.sanitize_for_openstack resource_backend_id in
       let* result := OpenStackClient.delete_resource oracle cfg
                        project_name in
       ret tt)
    (fun e =>
       raise (BackendError ("Error deleting project: " +:+ py_str e))).

(** The handlers of the two membership methods format the local
    [project_name]; reading it before its assignment raises
    [UnboundLocalError] out of the handler. *)
Definition unbound_project_name : exn :=
  UnboundLocalError
    ("cannot access local variable 'project_name' where it is not "
     +:+ "associated with a value").

(** The [for user_id in user_ids] loop; [user_ids] is the set in the
    order the iteration visits it. *)
Fixpoint add_each (project_name : string) (user_ids : list string)
    (added_users : gset string) : M (gset string) :=
  match user_ids with
  | [] => ret added_users
  | user_id :: rest =>
      let* added_users :=
        try_except
          (let* result :=
             OpenStackClient.create_association oracle cfg user_id
               project_name in
           ret ({[user_id]} ∪ added_users))
          (fun e => ret added_users) in
      add_each project_name rest added_users
  end.

Definition add_users_except (project_name : option string) (e : exn) :
    M (gset string) :=
  match project_name with
  | None => raise unbound_project_name
  | Some project_name =>
      raise (BackendError
               ("Error adding users to project [" +:+ project_name +:+ "]: "
                +:+ py_str e))
  end.

Definition add_users_to_resource (resource_backend_id : string)
    (user_ids : list string) : M (gset string) :=
  if blank resource_backend_id then ret ∅
  else
    match validate_backend_id resource_backend_id "waldur_managed_project"
    with
    | Raise e => add_users_except None e
    | Ok _ =>
        let project_name :=
          Sanitize.sanitize_for_openstack resource_backend_id in
        try_except
          (let* existing_resource :=
             OpenStackClient.get_resource oracle cfg project_name in
           match existing_resource with
           | None => raise (BackendError (project_not_found project_name))
           | Some _ => add_each project_name user_ids ∅
           end)
          (add_users_except (Some project_name))
    end.

Fixpoint remove_each (project_name : string) (usernames : list string)
    (removed_users : list string) : M (list string) :=
  match usernames with
  | [] => ret removed_users
  | username :: rest =>
      let* removed_users :=
        try_except
          (let* result :=
             OpenStackClient.delete_association oracle cfg username
               project_name in
           ret (removed_users ++ [username]))
          (fun e => ret removed_users) in
      remove_each project_name rest removed_users
  end.

Definition remove_users_except (project_name : option string) (e : exn) :
    M (list string) :=
  match project_name with
  | None => raise unbound_project_name
  | Some project_name =>
      raise (BackendError
               ("Error removing users from project [" +:+ project_name
                +:+ "]: " +:+ py_str e))
  end.

Definition remove_users_from_resource (resource_backend_id : string)
    (usernames : list string) : M (list string) :=
  if blank resource_backend_id then ret []
  else
    match validate_backend_id resource_backend_id "waldur_managed_project"
    with
    | Raise e => remove_users_except None e
    | Ok _ =>
        let project_name :=
          Sanitize.sanitize_for_openstack resource_backend_id in
        try_except
          (let* existing_resource :=
             OpenStackClient.get_resource oracle cfg project_name in
           match existing_resource with
           | None => ret []
           | Some _ => remove_each project_name usernames []
           end)
          (remove_users_except (Some project_name))
    end.
End Methods.

End Backend.

(** ** Part 7: concrete services and oracles used to run the code *)

Module Scenario.
Import Py Identity Effects.

(** The oracle of a service that answers every call. *)
Definition quiet : nat -> KCall -> option exn := fun _ _ => None.

(** The oracle of an unreachable service. *)
Definition unreachable : nat -> KCall -> option exn :=
  fun _ _ => Some (ServiceError "connection refused" None None).

(** Every grant to the given user fails. *)
Definition grant_fails_for (user : N) : nat -> KCall -> option exn :=
  fun _ c =>
    match c with
    | CRolesGrant _ u _ =>
        if (u =? user)%N
        then Some (ServiceError "forbidden" (Some 403%N) None)
        else None
    | _ => None
    end.

(** Only the very first call fails. *)
Definition first_call_fails : nat -> KCall -> option exn :=
  fun n _ =>
    match n with
    | O => Some (ServiceError "timed out" None None)
    | S _ => None
    end.

(** Every revocation of the given role fails. *)
Definition revoke_fails_for (role : N) : nat -> KCall -> option exn :=
  fun _ c =>
    match c with
    | CRolesRevoke r _ _ =>
        if (r =? role)%N
        then Some (ServiceError "forbidden" (Some 403%N) None)
        else None
    | _ => None
    end.

Definition world_of (s : Service) : World :=
  {| service := s; trace := []; slept := [] |}.

Definition default_dom : Domain := {| domain_id := 1; domain_name := "Default" |}.
Definition other_dom : Domain := {| domain_id := 2; domain_name := "Other" |}.
Definition member : Role := {| role_id := 3; role_name := "_member_" |}.
Definition admin : Role := {| role_id := 4; role_name := "admin" |}.

Definition mk_user (i : N) (n : string) : User :=
  {| user_id := i; user_name := n; user_domain_id := 1; user_email := None;
     user_enabled := true |}.

Definition mk_project (i : N) (n : string) (d : N) : Project :=
  {| project_id := i; project_name := n; project_domain_id := d;
     project_description := "Waldur managed project";
     project_enabled := true |}.

(** A service holding the configured domain and nothing else. *)
Definition fresh : Service :=
  {| domains := [default_dom]; projects := []; users := []; roles := [];
     assignments := []; next_id := 100; default_domain := 1 |}.

(** The project [abc-123] with three users, the default role and the
    admin role; [alice] holds both roles in the project. *)
Definition populated : Service :=
  {| domains := [default_dom];
     projects := [mk_project 10 "abc-123" 1];
     users := [mk_user 20 "alice"; mk_user 21 "bob"; mk_user 22 "carol"];
     roles := [member; admin];
     assignments :=
       [{| assignment_role := 3; assignment_user := 20;
           assignment_project := 10 |};
        {| assignment_role := 4; assignment_user := 20;
           assignment_project := 10 |}];
     next_id := 100; default_domain := 1 |}.

(** The project [abc-123] lives in another domain than the configured one. *)
Definition elsewhere : Service :=
  {| domains := [default_dom; other_dom];
     projects := [mk_project 10 "abc-123" 2];
     users := [mk_user 20 "alice"]; roles := [member];
     assignments := []; next_id := 100; default_domain := 1 |}.

Fixpoint repeat_char (n : nat) (c : ascii) : string :=
  match n with
  | O => EmptyString
  | S k => String c (repeat_char k c)
  end.

(** A backend identifier of 256 characters. *)
Definition long_id : string := repeat_char 256 "a".

Definition resource_of (u : string) : Backend.WaldurResource :=
  {| Backend.backend_id := None; Backend.uuid := Some u;
     Backend.name := Some "demo"; Backend.description := None |}.

Definition stored_resource (b : string) : Backend.WaldurResource :=
  {| Backend.backend_id := Some b; Backend.uuid := None;
     Backend.name := Some "demo"; Backend.description := None |}.

End Scenario.

(** ** Part 8: vocabulary for what a run did *)

Module Logic.
Import Py Identity Effects.

(** The calls that only read. *)
Definition is_lookup (c : KCall) : bool :=
  match c with
  | CDomainsList _ | CProjectsList _ _ | CUsersList _ _ | CRolesList _
  | CAssignmentsList _ _ => true
  | _ => false
  end.

Definition is_revoke (c : KCall) : bool :=
  match c with CRolesRevoke _ _ _ => true | _ => false end.

Definition is_grant (c : KCall) : bool :=
  match c with CRolesGrant _ _ _ => true | _ => false end.

Definition is_project_create (c : KCall) : bool :=
  match c with CProjectsCreate _ _ _ => true | _ => false end.

Definition lookup_or_revoke (c : KCall) : bool := is_lookup c || is_revoke c.

(** [w'] continues [w]: calls were appended to the trace, each of them
    [allowed], and the service went from a state to an [inv]-related one. *)
Definition extends (allowed : KCall -> bool)
    (inv : Service -> Service -> Prop) (w w' : World) : Prop :=
  exists t,
    trace w' = trace w ++ t
    /\ Forall (fun x => allowed x.1 = true) t
    /\ inv (service w) (service w').

(** Every run of [m] continues the world it starts from in that way. *)
Definition respects {A} (allowed : KCall -> bool)
    (inv : Service -> Service -> Prop) (m : M A) : Prop :=
  forall w, extends allowed inv w (m w).2.

(** Only role assignments may differ. *)
Definition same_directory (s s' : Service) : Prop :=
  domains s' = domains s /\ projects s' = projects s
  /\ users s' = users s /\ roles s' = roles s.

(** No project of the service carries the name. *)
Definition no_project_named (name : string) (s : Service) : Prop :=
  forall p, In p (projects s) -> project_name p <> name.

(** No user of the service carries the name. *)
Definition no_user_named (name : string) (s : Service) : Prop :=
  forall u, In u (users s) -> user_name u <> name.

(** The projects carrying the name in the domain. *)
Definition projects_named (name : string) (domain : N) (s : Service) :
    list Project :=
  List.filter (project_matches name (Some domain)) (projects s).

(** The domain that [get_domain] finds for the configured name. *)
Definition configured (cfg : Config.OpenStackConfig) (s : Service) :
    option Domain :=
  head (List.filter
          (fun d => String.eqb (domain_name d) (Config.domain_name cfg))
          (domains s)).

(** The projects that the existence check of a creation lists: those of
    the name in the configured domain, and those of the name in any domain
    as long as the configured domain does not exist. *)
Definition listed (cfg : Config.OpenStackConfig) (name : string)
    (s : Service) : list Project :=
  List.filter (project_matches name (domain_id <$> configured cfg s))
    (projects s).

(** The service after the project [p] was created in it. *)
Definition add_project (p : Project) (s : Service) : Service :=
  {| domains := domains s; projects := projects s ++ [p];
     users := users s; roles := roles s; assignments := assignments s;
     next_id := N.succ (next_id s); default_domain := default_domain s |}.

(** The project creations that succeeded among the calls of a trace. *)
Definition creations (t : list (KCall * bool)) : nat :=
  length (List.filter (fun x => is_project_create x.1 && x.2) t).

(** The call that revokes one listed assignment. *)
Definition revoke_call (user : User) (project : Project) (a : Assignment) :
    KCall :=
  CRolesRevoke (assignment_role a) (user_id user) (project_id project).

End Logic.

(** ** Part 9: a harness that counts the calls a retried operation gets *)

Module RetryLog.
Import Py.

(** The world of the harness: the state of the operation, the number of
    calls it received and the delays slept. *)
Definition counted (St num : Type) : Type := St * (nat * list num).

Definition counted_sleep {St num} (d : num) (w : counted St num) :
    counted St num :=
  (w.1, (w.2.1, w.2.2 ++ [d])).

Definition counted_func {St num A} (func : St -> outcome A * St)
    (w : counted St num) : outcome A * counted St num :=
  ((func w.1).1, ((func w.1).2, (S w.2.1, w.2.2))).

(** The delay [d] was computed after attempt [k], and the warning and
    [time.sleep] accepted it. *)
Definition slept_after {num} (arith : Retry.Arith num)
    (base_delay max_delay exponential_base : num) (d : num) (k : Z) : Prop :=
  Retry.delay arith base_delay max_delay exponential_base k = Ok d
  /\ Retry.format_error arith d = None
  /\ Retry.sleep_error arith d = None.

(** An operation whose failure the [except] filter does not catch. *)
Definition fatal (w : Retry.flaky_world) : outcome nat * Retry.flaky_world :=
  (Raise (ValueError "bad argument"), (S w.1, w.2)).

Definition only_service_errors (e : exn) : bool :=
  match e with ServiceError _ _ _ => true | _ => false end.

End RetryLog.

(** ** Part 10: [backends.OpenStackUsernameManagementBackend.generate_username] *)

Module Username.
Import Py.

(** The two attributes of the offering user the method reads; [uuid] is
    the text [str] gives for it. *)
Record OfferingUser := {
  user_email : option string;
  uuid : string }.

(** [s.split("@")[0]]: the text before the first [@]. *)
Fixpoint before_at (s : string) : string :=
  match s with
  | EmptyString => EmptyString
  | String c t => if Ascii.eqb c "@" then EmptyString else String c (before_at t)
  end.

(** The handler logs and re-raises with a bare [raise]: the outcome is the
    one of the [try] block. *)
Definition generate_username (offering_user : OfferingUser) : outcome string :=
  match Backend.attr (user_email offering_user) with
  | None =>
      Raise (ValueError ("No email address provided for user "
                         +:+ uuid offering_user))
  | Some email =>
      let email_local_part := before_at email in
      let username := Sanitize.sanitize_for_openstack email_local_part in
      if Sanitize.is_empty username then
        Raise (ValueError ("Email " +:+ email
                           +:+ " cannot be converted to valid username"))
      else Ok username
  end.

(** The ASCII digits. *)
Definition is_ascii_digit (c : ascii) : bool :=
  ((48 <=? Sanitize.code c) && (Sanitize.code c <=? 57))%N.

End Username.

(** ** Part 11: vocabulary for the exceptions a method lets out *)

Module Outcomes.
Import Py Identity Effects.

Definition is_keystone_client_error (e : exn) : bool :=
  match e with KeystoneClientError _ => true | _ => false end.

Definition is_backend_error (e : exn) : bool :=
  match e with BackendError _ => true | _ => false end.

(** Every exception that leaves [m] satisfies [P]. *)
Definition raises_only {A} (P : exn -> bool) (m : M A) : Prop :=
  forall w e w', m w = (Raise e, w') -> P e = true.

(** [m] returns in every world. *)
Definition never_raises {A} (m : M A) : Prop :=
  forall w, exists a w', m w = (Ok a, w').

Definition not_grant (c : KCall) : bool := negb (Logic.is_grant c).

Definition anything (s s' : Service) : Prop := True.

End Outcomes.

(** ** Part 12: the remaining methods of the client and of the backend *)

Module ClientExtra.
Import Py Identity Effects.

(** The values of the metadata dictionary. *)
Inductive MetaValue : Type :=
| MId (n : N)
| MStr (s : string)
| MBool (b : bool).

(** The dictionary literal of [get_project_metadata]. *)
Definition project_metadata (project : Project) : gmap string MetaValue :=
  list_to_map
    [("project_id", MId (project_id project));
     ("project_name", MStr (project_name project));
     ("domain", MId (project_domain_id project));
     ("enabled", MBool (project_enabled project));
     ("description", MStr (project_description project))].

(** [waldur_site_agent.backend.clients.Association]. *)
Record Association := {
  account : string;
  user : string;
  value : nat }.

Section Methods.
Variable oracle : nat -> KCall -> option exn.
Variable cfg : Config.OpenStackConfig.

(** [OpenStackClient.get_project_metadata]. *)
Definition get_project_metadata (project_name : string) :
    M (gmap string MetaValue) :=
  try_except
    (let* project :=
       KeystoneClient.get_project oracle cfg project_name None in
     match project with
     | None => ret ∅
     | Some p => ret (project_metadata p)
     end)
    (fun e => ret ∅).

(** [OpenStackBackend.get_resource_metadata]. *)
Definition get_resource_metadata (resource_backend_id : string) :
    M (gmap string MetaValue) :=
  let project_name := Sanitize.sanitize_for_openstack resource_backend_id in
  get_project_metadata project_name.

(** [OpenStackClient.get_association]. *)
Definition get_association (user resource_id : string) :
    M (option Association) :=
  try_except
    (let* project :=
       KeystoneClient.get_project oracle cfg resource_id None in
     match project with
     | None => ret None
     | Some project =>
         let* user_obj := KeystoneClient.get_user oracle cfg user None in
         match user_obj with
         | None => ret None
         | Some user_obj =>
             let* assignments :=
               KeystoneClient.role_assignments_list oracle user_obj project in
             match assignments with
             | [] => ret None
             | _ =>
                 ret (Some {| account := resource_id; user := user;
                              value := length assignments |})
             end
         end
     end)
    (fun e => ret None).
End Methods.

(** The entry [_get_usage_report] stores for every identifier. *)
Definition empty_usage : gmap string (gmap string Z) :=
  list_to_map [("users", ∅); ("total", ∅); ("components", ∅)].

(** [OpenStackBackend._get_usage_report]: the loop filling [report]. *)
Fixpoint fill_usage_report (resource_backend_ids : list string)
    (report : gmap string (gmap string (gmap string Z))) :
    gmap string (gmap string (gmap string Z)) :=
  match resource_backend_ids with
  | [] => report
  | backend_id :: rest =>
      fill_usage_report rest (<[backend_id := empty_usage]> report)
  end.

Definition _get_usage_report (resource_backend_ids : list string) :
    gmap string (gmap string (gmap string Z)) :=
  fill_usage_report resource_backend_ids ∅.

End ClientExtra.

(** ** Part 13: more services and oracles to run the code on *)

Module ScenarioExtra.
Import Py Identity Effects Scenario.

(** Auto-creation of users switched off. *)
Definition no_auto_create : Config.OpenStackConfig :=
  {| Config.domain_name := "Default"; Config.default_role := "_member_";
     Config.create_users_if_not_exist := false;
     Config.sync_user_emails := true;
     Config.user_enabled_by_default := true |}.

(** Every update of a user fails. *)
Definition update_fails : nat -> KCall -> option exn :=
  fun _ c =>
    match c with
    | CUsersUpdate _ _ => Some (ServiceError "forbidden" (Some 403%N) None)
    | _ => None
    end.

(** Every deletion of a project fails. *)
Definition delete_fails : nat -> KCall -> option exn :=
  fun _ c =>
    match c with
    | CProjectsDelete _ => Some (ServiceError "forbidden" (Some 403%N) None)
    | _ => None
    end.

(** A service without any domain yet. *)
Definition bare : Service :=
  {| domains := []; projects := []; users := []; roles := [];
     assignments := []; next_id := 100; default_domain := 1 |}.

(** The project of the 256-character identifier exists. *)
Definition long_named : Service :=
  {| domains := [default_dom];
     projects := [mk_project 10 (Sanitize.sanitize_for_openstack long_id) 1];
     users := []; roles := []; assignments := [];
     next_id := 100; default_domain := 1 |}.

Definition erin : User :=
  {| user_id := 30; user_name := "erin"; user_domain_id := 1;
     user_email := Some "erin@old.example"; user_enabled := true |}.

(** One user with a stored address. *)
Definition mailing : Service :=
  {| domains := [default_dom]; projects := [mk_project 10 "abc-123" 1];
     users := [erin]; roles := [member]; assignments := [];
     next_id := 100; default_domain := 1 |}.

End ScenarioExtra.

(** ** Part 14: vocabulary for memberships *)

Module Membership.
Import Py Identity Effects.

(** The users carrying the name in the domain, the roles carrying the
    name. *)
Definition users_named (name : string) (domain : N) (s : Service) :
    list User :=
  List.filter (user_matches name (Some domain)) (users s).

Definition roles_named (name : string) (s : Service) : list Role :=
  List.filter (fun r => String.eqb (role_name r) name) (roles s).

(** The service only gained users, roles and assignments, and no
    assignment a second time. *)
Definition grows (s s' : Service) : Prop :=
  domains s' = domains s /\ projects s' = projects s
  /\ (exists us, users s' = users s ++ us)
  /\ (exists rs, roles s' = roles s ++ rs)
  /\ (exists l, assignments s' = assignments s ++ l)
  /\ (List.NoDup (assignments s) -> List.NoDup (assignments s')).

(** The user that the lookups find for [username] holds, in the project
    that the lookups find for [project_name], the role that the lookups
    find for the default role. *)
Definition settled (cfg : Config.OpenStackConfig)
    (username project_name : string) (d : Domain) (s : Service) : Prop :=
  exists p u r,
    head (Logic.projects_named project_name (domain_id d) s) = Some p
    /\ head (users_named username (domain_id d) s) = Some u
    /\ head (roles_named (Config.default_role cfg) s) = Some r
    /\ existsb (same_assignment (role_id r) (user_id u) (project_id p))
         (assignments s) = true.

(** From [w] to [w'] the plugin made [n] grant calls. *)
Definition grant_calls (n : nat) (w w' : World) : Prop :=
  exists t,
    trace w' = trace w ++ t
    /\ length (List.filter (fun x : KCall * bool => Logic.is_grant x.1) t)
       = n.

(** From [w] to [w'] the service grew and [n] grant calls were made. *)
Definition advances (n : nat) (w w' : World) : Prop :=
  grows (service w) (service w') /\ grant_calls n w w'.

(** The grant for [username] is one the service refuses: the user that the
    lookup finds for the name is one of the [bad] ones. *)
Definition grant_refused (bad : N -> bool) (username : string) (d : Domain)
    (s : Service) : bool :=
  match head (users_named username (domain_id d) s) with
  | Some u => bad (user_id u)
  | None => false
  end.

(** The service only lost assignments. *)
Definition shrinks (s s' : Service) : Prop :=
  domains s' = domains s /\ projects s' = projects s
  /\ users s' = users s /\ roles s' = roles s
  /\ (exists f, assignments s' = List.filter f (assignments s)).

(** The assignments that [role_assignments.list] returns for the user and
    the project. *)
Definition assignments_of (u p : N) (s : Service) : list Assignment :=
  List.filter
    (fun a => ((assignment_user a =? u) && (assignment_project a =? p))%N)
    (assignments s).

End Membership.

(** ** Theorems *)

Module SanitizeProofs.
Import Sanitize.

Lemma all_chars_impl (p q : ascii -> bool) s :
  (forall c, p c = true -> q c = true) ->
  all_chars p s = true -> all_chars q s = true.
Proof.
  intros Hpq. induction s as [|c t IH]; simpl; [done|].
  intros [Hc Ht]%andb_true_iff. rewrite (Hpq _ Hc), (IH Ht). done.
Qed.

Lemma remove_invalid_valid s : all_chars is_valid (remove_invalid s) = true.
Proof.
  induction s as [|c t IH]; simpl; [done|].
  destruct (is_valid c) eqn:E; simpl; [rewrite E|]; done.
Qed.

Lemma strip_leading_valid s :
  all_chars is_valid s = true -> all_chars is_valid (strip_leading s) = true.
Proof.
  induction s as [|c t IH]; simpl; [done|].
  intros [Hc Ht]%andb_true_iff.
  destruct (is_alnum c); simpl; [rewrite Hc, Ht|]; auto.
Qed.

Lemma strip_leading_head s : head_alnum (strip_leading s) = true.
Proof.
  induction s as [|c t IH]; simpl; [done|].
  destruct (is_alnum c) eqn:E; simpl; done.
Qed.

Lemma replace_spaces_id s :
  all_chars is_valid s = true -> replace_spaces s = s.
Proof.
  induction s as [|c t IH]; simpl; [done|].
  intros [Hc Ht]%andb_true_iff. rewrite (IH Ht).
  destruct (Ascii.eqb_spec c " ") as [->|]; [|done].
  vm_compute in Hc. discriminate.
Qed.

Lemma remove_invalid_id s :
  all_chars is_valid s = true -> remove_invalid s = s.
Proof.
  induction s as [|c t IH]; simpl; [done|].
  intros [Hc Ht]%andb_true_iff. rewrite Hc, (IH Ht). done.
Qed.

Lemma strip_leading_id s : head_alnum s = true -> strip_leading s = s.
Proof. destruct s as [|c t]; simpl; [done|]. intros ->. done. Qed.

Lemma alnum_valid c : is_alnum c = true -> is_valid c = true.
Proof. unfold is_valid. intros ->. done. Qed.

(** On allowed characters, [str.isdigit] sees ASCII digits only. *)
Lemma valid_digit c :
  is_valid c = true ->
  char_isdigit c = ((48 <=? code c) && (code c <=? 57))%N.
Proof.
  destruct c as [[] [] [] [] [] [] [] []]; vm_compute; congruence.
Qed.

Lemma digit_alnum c : char_isdigit c = true -> is_valid c = true ->
  is_alnum c = true.
Proof.
  destruct c as [[] [] [] [] [] [] [] []]; vm_compute; congruence.
Qed.

Lemma sanitize_fix r :
  all_chars is_valid r = true -> head_alnum r = true ->
  isdigit r = false -> is_empty r = false ->
  sanitize_for_openstack r = r.
Proof.
  intros Hv Hh Hd He. unfold sanitize_for_openstack.
  rewrite (replace_spaces_id _ Hv), (remove_invalid_id _ Hv),
    (strip_leading_id _ Hh), Hd, He. done.
Qed.

Lemma steps_valid s :
  let t := strip_leading (remove_invalid (replace_spaces s)) in
  all_chars is_valid t = true /\ head_alnum t = true.
Proof.
  split; [apply strip_leading_valid, remove_invalid_valid
         | apply strip_leading_head].
Qed.

Lemma all_chars_app p s t :
  all_chars p (s +:+ t) = all_chars p s && all_chars p t.
Proof.
  induction s as [|c s IH]; simpl; [done|]. rewrite IH, andb_assoc. done.
Qed.

(** The shape of every result: it is one of the three branch values. *)
Lemma sanitize_cases s :
  let t := strip_leading (remove_invalid (replace_spaces s)) in
  (isdigit t = true /\ sanitize_for_openstack s = "project_" +:+ t) \/
  (t = "" /\ sanitize_for_openstack s = fallback_name) \/
  (isdigit t = false /\ is_empty t = false /\ sanitize_for_openstack s = t).
Proof.
  intros t. unfold sanitize_for_openstack. fold t.
  destruct (isdigit t) eqn:Ed; [left; done|right].
  destruct t as [|c u] eqn:Et; [left; done|right; done].
Qed.

Lemma sanitize_invariant s :
  let r := sanitize_for_openstack s in
  all_chars is_valid r = true /\ head_alnum r = true /\
  isdigit r = false /\ is_empty r = false.
Proof.
  intros r. subst r. pose proof (steps_valid s) as [Hv Hh].
  destruct (sanitize_cases s) as [[Hd ->]|[[Ht ->]|(Hd & He & ->)]];
    [|done|done].
  split_and!; [|done|done|done].
  rewrite all_chars_app, Hv. done.
Qed.

Lemma list_replace_spaces s :
  list_ascii_of_string (replace_spaces s) =
  map (fun c => if Ascii.eqb c " " then "_"%char else c)
      (list_ascii_of_string s).
Proof. induction s as [|c t IH]; simpl; [done|]. by rewrite IH. Qed.

Lemma list_remove_invalid s :
  list_ascii_of_string (remove_invalid s) =
  List.filter is_valid (list_ascii_of_string s).
Proof.
  induction s as [|c t IH]; simpl; [done|].
  destruct (is_valid c); simpl; by rewrite IH.
Qed.

Lemma list_strip_leading s :
  list_ascii_of_string (strip_leading s) =
  drop_leading (list_ascii_of_string s).
Proof.
  induction s as [|c t IH]; simpl; [done|]. destruct (is_alnum c); done.
Qed.

Lemma list_app s t :
  list_ascii_of_string (s +:+ t) =
  list_ascii_of_string s ++ list_ascii_of_string t.
Proof. induction s as [|c s IH]; simpl; [done|]. by rewrite IH. Qed.

Lemma all_chars_digit_list t :
  all_chars is_valid t = true ->
  all_chars char_isdigit t =
  forallb (fun c => (48 <=? code c) && (code c <=? 57))%N
          (list_ascii_of_string t).
Proof.
  induction t as [|c t IH]; simpl; [done|].
  intros [Hc Ht]%andb_true_iff. rewrite (valid_digit _ Hc), (IH Ht). done.
Qed.

Lemma isdigit_all_digits t :
  all_chars is_valid t = true ->
  isdigit t = all_digits (list_ascii_of_string t).
Proof.
  intros Hv. destruct t as [|c u]; [done|].
  apply (all_chars_digit_list _ Hv).
Qed.

Lemma sanitize_refines s : sanitize_for_openstack s = sanitize_rule s.
Proof.
  unfold sanitize_for_openstack, sanitize_rule.
  pose proof (steps_valid s) as [Hv _]. cbv zeta in Hv.
  rewrite <- list_replace_spaces, <- list_remove_invalid,
    <- list_strip_leading.
  set (t := strip_leading _) in *.
  rewrite <- (isdigit_all_digits t Hv).
  destruct (isdigit t) eqn:Ed.
  - rewrite <- list_app. rewrite string_of_list_ascii_of_string. done.
  - destruct t as [|c u]; [done|].
    rewrite string_of_list_ascii_of_string. done.
Qed.

(** C2. [sanitize_for_openstack] is a total function that is idempotent;
    its result is never empty, starts with an alphanumeric character and is
    never purely numeric; and it computes exactly the rule of the interface
    section: spaces to underscores, characters outside [[A-Za-z0-9_.-]]
    removed, leading non-alphanumerics removed, [project_] put before an
    all-digit result, the fallback literal for an empty one. *)
Theorem sanitize_idempotent_total (s : string) :
  sanitize_for_openstack (sanitize_for_openstack s) = sanitize_for_openstack s
  /\ sanitize_for_openstack s <> ""
  /\ (exists c t, sanitize_for_openstack s = String c t /\ is_alnum c = true)
  /\ isdigit (sanitize_for_openstack s) = false
  /\ all_digits (list_ascii_of_string (sanitize_for_openstack s)) = false
  /\ sanitize_for_openstack s = sanitize_rule s.
Proof.
  destruct (sanitize_invariant s) as (Hv & Hh & Hd & He).
  split_and!.
  - by apply sanitize_fix.
  - intros E. rewrite E in He. done.
  - destruct (sanitize_for_openstack s) as [|c t]; [done|]. eauto.
  - done.
  - by rewrite <- isdigit_all_digits.
  - apply sanitize_refines.
Qed.

End SanitizeProofs.

Module RetryProofs.
Import Py Retry.

Lemma py_range_cons k hi :
  (k < hi)%Z -> py_range k hi = k :: py_range (k + 1) hi.
Proof.
  intros Hlt. unfold py_range.
  replace (Z.to_nat (hi - k)) with (S (Z.to_nat (hi - (k + 1)))) by lia.
  cbn [seq map]. f_equal; [lia|].
  rewrite <- seq_shift, map_map. apply map_ext. intros i. lia.
Qed.

Section Policy.
Context {W A num : Type}.
Variable arith : Arith num.
Variable sleep : num -> W -> W.
Variable max_attempts : Z.
Variables base_delay max_delay exponential_base : num.
Variable exceptions : exn -> bool.
Variable func : W -> outcome A * W.

Abbreviation loop :=
  (loop_from arith sleep max_attempts base_delay max_delay exponential_base
     exceptions func).
Abbreviation delay_of := (delay arith base_delay max_delay exponential_base).
Abbreviation pause :=
  (back_off arith sleep base_delay max_delay exponential_base).

Lemma back_off_sleeps k w d :
  delay_of k = Ok d -> format_error arith d = None ->
  sleep_error arith d = None ->
  pause k w = (Ok tt, sleep d w).
Proof. intros Hd Hf Hs. unfold back_off. by rewrite Hd, Hf, Hs. Qed.

Lemma back_off_raises k w e :
  delay_of k = Raise e
  \/ (exists d, delay_of k = Ok d
                /\ (format_error arith d = Some e
                    \/ (format_error arith d = None
                        /\ sleep_error arith d = Some e))) ->
  pause k w = (Raise e, w).
Proof.
  unfold back_off. intros [->|(d & -> & [->|[-> ->]])]; reflexivity.
Qed.

Lemma back_off_inv k w r w1 :
  pause k w = (r, w1) ->
  match r with
  | Ok _ =>
      exists d, delay_of k = Ok d /\ format_error arith d = None
                /\ sleep_error arith d = None /\ w1 = sleep d w
  | Raise _ => w1 = w
  end.
Proof.
  unfold back_off. destruct (delay_of k) as [d|e]; [|by intros [= <- <-]].
  destruct (format_error arith d) eqn:Ef; [by intros [= <- <-]|].
  destruct (sleep_error arith d) eqn:Es; [by intros [= <- <-]|].
  intros [= <- <-]. by exists d.
Qed.

Lemma loop_success k last w v w' :
  (k <= max_attempts)%Z -> func w = (Ok v, w') ->
  loop k last w = (Ok v, w').
Proof.
  intros Hk Hf. unfold loop_from.
  rewrite py_range_cons by lia. cbn [attempts_loop]. by rewrite Hf.
Qed.

Lemma loop_retry k last w e w' w1 :
  (k < max_attempts)%Z -> func w = (Raise e, w') -> exceptions e = true ->
  pause k w' = (Ok tt, w1) ->
  loop k last w = loop (k + 1) (Some e) w1.
Proof.
  intros Hk Hf He Hp. unfold loop_from.
  rewrite (py_range_cons k) by lia. cbn [attempts_loop].
  rewrite Hf, He, Hp. destruct (Z.eqb_spec k max_attempts); [lia|done].
Qed.

Lemma loop_abort k last w e w' e' w1 :
  (k < max_attempts)%Z -> func w = (Raise e, w') -> exceptions e = true ->
  pause k w' = (Raise e', w1) ->
  loop k last w = (Raise e', w1).
Proof.
  intros Hk Hf He Hp. unfold loop_from.
  rewrite (py_range_cons k) by lia. cbn [attempts_loop].
  rewrite Hf, He, Hp. destruct (Z.eqb_spec k max_attempts); [lia|done].
Qed.

Lemma loop_last last w e w' :
  func w = (Raise e, w') -> loop max_attempts last w = (Raise e, w').
Proof.
  intros Hf. unfold loop_from.
  rewrite py_range_cons by lia. cbn [attempts_loop]. rewrite Hf.
  rewrite Z.eqb_refl. by destruct (exceptions e).
Qed.

Lemma loop_all_fail k last w e w' :
  all_fail arith sleep max_attempts base_delay max_delay exponential_base
    exceptions func k w e w' ->
  loop k last w = (Raise e, w').
Proof.
  intros Hrun. revert last.
  induction Hrun as [w e w' Hf|k w e w' w1 e' w'' Hk Hf He Hp _ IH];
    intros last.
  - by apply loop_last.
  - rewrite (loop_retry k last w e w' w1) by done. apply IH.
Qed.
End Policy.

Lemma ints_delay b m e k :
  (1 <= k)%Z -> delay ints b m e k = Ok (Z.min (b * e ^ (k - 1)) m).
Proof.
  intros Hk. unfold delay, py_min. cbn [pow mul lt ints]. f_equal.
  destruct (Z.ltb_spec m (b * e ^ (k - 1))); lia.
Qed.

(** C3, the total delay without the cap does not hold:
    with [base_delay = 40], [exponential_base = 2] and the default
    [max_delay = 60], an operation failing twice and then succeeding under
    [max_attempts = 3] returns its result after sleeping 40 and then 60
    seconds, 100 in all and not [40 + 40 * 2]. *)
Lemma retry_total_delay_capped :
  let r := wrapper ints flaky_sleep 3 40%Z 60%Z 2%Z any_exception (flaky 2)
             (0%nat, []) in
  r.1 = Ok 2%nat /\ r.2.2 = [40%Q; 60%Q] /\
  ~ (total r.2.2 == 40 + 40 * 2)%Q.
Proof.
  split_and!; [reflexivity|reflexivity|].
  vm_compute. discriminate.
Qed.

(** C3 (amended).  For every wrapped operation, every arithmetic of the
    numbers and [max_attempts >= 1].  The delay after attempt [k - 1] is
    [min(base_delay * exponential_base ** (k - 2), max_delay)] as Python
    evaluates it.  When attempt [k - 1] fails with a caught exception and
    [k] is at most [max_attempts], the wrapper sleeps that delay and goes on
    with attempt [k], provided the evaluation, the warning and
    [time.sleep] return; when one of them raises, that exception leaves
    the wrapper and no further attempt is made.  With [max_attempts = 3], an
    operation failing on attempts 1 and 2 and succeeding on attempt 3 yields
    that result after the two sleeps, which are [min(base_delay, max_delay)]
    and [min(base_delay * exponential_base, max_delay)] where [x ** 0] is
    one, one is neutral and [x ** 1] is [x]; for ints these are
    [base_delay] and [base_delay * exponential_base], the total of the
    claim, when neither exceeds [max_delay].  When every attempt fails and
    every sleep returns, the failure of the last attempt is what the
    wrapper raises, in the world that attempt left. *)
Theorem retry_backoff_policy {W A num : Type} (arith : Arith num)
    (sleep : num -> W -> W) (max_attempts : Z)
    (base_delay max_delay exponential_base : num)
    (exceptions : exn -> bool) (func : W -> outcome A * W) :
  (1 <= max_attempts)%Z ->
  let loop := loop_from arith sleep max_attempts base_delay max_delay
                exponential_base exceptions func in
  let run := wrapper arith sleep max_attempts base_delay max_delay
               exponential_base exceptions func in
  let delay := delay arith base_delay max_delay exponential_base in
  let returns d :=
    format_error arith d = None /\ sleep_error arith d = None in
  (forall k p m,
      pow arith exponential_base (k - 2) = Ok p ->
      mul arith base_delay p = Ok m ->
      delay (k - 1)%Z = Ok (if lt arith max_delay m then max_delay else m))
  /\ (forall k last w e w' d,
        (2 <= k <= max_attempts)%Z ->
        func w = (Raise e, w') -> exceptions e = true ->
        delay (k - 1)%Z = Ok d -> returns d ->
        loop (k - 1)%Z last w = loop k (Some e) (sleep d w'))
  /\ (forall k last w e w' e',
        (2 <= k <= max_attempts)%Z ->
        func w = (Raise e, w') -> exceptions e = true ->
        delay (k - 1)%Z = Raise e'
        \/ (exists d, delay (k - 1)%Z = Ok d
                      /\ (format_error arith d = Some e'
                          \/ (format_error arith d = None
                              /\ sleep_error arith d = Some e'))) ->
        loop (k - 1)%Z last w = (Raise e', w'))
  /\ (max_attempts = 3%Z ->
      forall w0 e1 w1 d1 e2 w2 d2 v w3,
        func w0 = (Raise e1, w1) -> exceptions e1 = true ->
        delay 1%Z = Ok d1 -> returns d1 ->
        func (sleep d1 w1) = (Raise e2, w2) -> exceptions e2 = true ->
        delay 2%Z = Ok d2 -> returns d2 ->
        func (sleep d2 w2) = (Ok v, w3) ->
        run w0 = (Ok v, w3))
  /\ (forall one m,
        pow arith exponential_base 0 = Ok one ->
        mul arith base_delay one = Ok base_delay ->
        pow arith exponential_base 1 = Ok exponential_base ->
        mul arith base_delay exponential_base = Ok m ->
        delay 1%Z = Ok (py_min arith base_delay max_delay)
        /\ delay 2%Z = Ok (py_min arith m max_delay))
  /\ (forall b m e : Z,
        (forall k, (1 <= k)%Z ->
                   Retry.delay ints b m e k
                   = Ok (Z.min (b * e ^ (k - 1)) m))
        /\ ((b <= m)%Z -> (b * e <= m)%Z ->
            Retry.delay ints b m e 1 = Ok b
            /\ Retry.delay ints b m e 2 = Ok (b * e)%Z))
  /\ (forall w e w',
      all_fail arith sleep max_attempts base_delay max_delay
        exponential_base exceptions func 1 w e w' ->
      run w = (Raise e, w')).
Proof.
  intros Hmax loop run delay returns. split_and!.
  - intros k p m Hp Hm. subst delay. unfold Retry.delay, py_min.
    replace (k - 1 - 1)%Z with (k - 2)%Z by lia. by rewrite Hp, Hm.
  - intros k last w e w' d Hk Hf He Hd [Hfmt Hsl]. subst loop.
    rewrite (loop_retry _ _ _ _ _ _ _ _ (k - 1)%Z last w e w' (sleep d w'))
      by (done || lia || by apply back_off_sleeps).
    by replace (k - 1 + 1)%Z with k by lia.
  - intros k last w e w' e' Hk Hf He Hbad. subst loop.
    apply (loop_abort _ _ _ _ _ _ _ _ (k - 1)%Z last w e w' e' w');
      [lia|done|done|]. by apply back_off_raises.
  - intros -> w0 e1 w1 d1 e2 w2 d2 v w3 Hf1 He1 Hd1 [Hfm1 Hs1] Hf2 He2 Hd2
      [Hfm2 Hs2] Hf3. subst run. unfold wrapper.
    rewrite (loop_retry _ _ _ _ _ _ _ _ 1%Z None w0 e1 w1 (sleep d1 w1))
      by (done || by apply back_off_sleeps).
    rewrite (loop_retry _ _ _ _ _ _ _ _ 2%Z _ _ e2 w2 (sleep d2 w2))
      by (done || by apply back_off_sleeps).
    by apply loop_success.
  - intros one m H0 Hone H1 Hm. subst delay. unfold Retry.delay.
    change (1 - 1)%Z with 0%Z. change (2 - 1)%Z with 1%Z.
    by rewrite H0, Hone, H1, Hm.
  - intros b m e. split; [intros k Hk; by apply ints_delay|].
    intros Hb Hbe. rewrite !ints_delay by lia.
    change (1 - 1)%Z with 0%Z. change (2 - 1)%Z with 1%Z.
    rewrite Z.pow_0_r, Z.pow_1_r, Z.mul_1_r. split; f_equal; lia.
  - intros w e w' Hrun. by apply loop_all_fail.
Qed.

Lemma retry_backoff_policy_witness :
  wrapper ints flaky_sleep 3 1%Z 60%Z 2%Z any_exception (flaky 2)
    (0%nat, [])
    = (Ok 2%nat, (3%nat, [1%Q; 2%Q]))
  /\ wrapper ints flaky_sleep 3 1%Z 60%Z 2%Z any_exception (flaky 7)
      (0%nat, [])
    = (Raise (ServiceError "unavailable" (Some 503%N) None),
       (3%nat, [1%Q; 2%Q])).
Proof.
  pose proof (retry_backoff_policy ints flaky_sleep 3 1%Z 60%Z 2%Z
                any_exception (flaky 2) ltac:(discriminate))
    as (_ & _ & _ & H3 & _).
  pose proof (retry_backoff_policy ints flaky_sleep 3 1%Z 60%Z 2%Z
                any_exception (flaky 7) ltac:(discriminate))
    as (_ & _ & _ & _ & _ & _ & Hall).
  split.
  - apply (H3 eq_refl (0%nat, [])
             (ServiceError "unavailable" (Some 503%N) None) (1%nat, []) 1%Z
             (ServiceError "unavailable" (Some 503%N) None) (2%nat, [1%Q])
             2%Z);
      (reflexivity || (split; reflexivity)).
  - apply Hall.
    eapply all_fail_step; [done|reflexivity|reflexivity|reflexivity|].
    eapply all_fail_step; [done|reflexivity|reflexivity|reflexivity|].
    apply all_fail_last. reflexivity.
Defined.

End RetryProofs.

Module LogicProofs.
Import Py Identity Effects Logic.

Section Frame.
Context {allowed : KCall -> bool} {inv : Service -> Service -> Prop}.
Context `{!Reflexive inv} `{!Transitive inv}.

Lemma extends_refl w : extends allowed inv w w.
Proof. exists []. rewrite app_nil_r. split_and!; [done|constructor|done]. Qed.

Lemma extends_trans w1 w2 w3 :
  extends allowed inv w1 w2 -> extends allowed inv w2 w3 ->
  extends allowed inv w1 w3.
Proof.
  intros (t1 & E1 & F1 & I1) (t2 & E2 & F2 & I2). exists (t1 ++ t2).
  split_and!.
  - by rewrite E2, E1, app_assoc.
  - by apply Forall_app.
  - by transitivity (service w2).
Qed.

Lemma respects_ret {A} (a : A) : respects allowed inv (ret a).
Proof. intros w. apply extends_refl. Qed.

Lemma respects_raise {A} e : respects allowed inv (@raise A e).
Proof. intros w. apply extends_refl. Qed.

Lemma respects_bind {A B} (m : M A) (k : A -> M B) :
  respects allowed inv m -> (forall a, respects allowed inv (k a)) ->
  respects allowed inv (bind m k).
Proof.
  intros Hm Hk w. unfold bind. specialize (Hm w).
  destruct (m w) as [[a|e] w1]; simpl in *; [|done].
  eapply extends_trans; [done|apply Hk].
Qed.

Lemma respects_try {A} (m : M A) (h : exn -> M A) :
  respects allowed inv m -> (forall e, respects allowed inv (h e)) ->
  respects allowed inv (try_except m h).
Proof.
  intros Hm Hh w. unfold try_except. specialize (Hm w).
  destruct (m w) as [[a|e] w1]; simpl in *; [done|].
  eapply extends_trans; [done|apply Hh].
Qed.

Lemma respects_call {A} oracle c (sem : Service -> outcome A * Service) :
  allowed c = true -> (forall s, inv s (sem s).2) ->
  respects allowed inv (call oracle c sem).
Proof.
  intros Hc Hs w. unfold call.
  destruct (oracle _ _); simpl; eexists [_]; simpl;
    (split_and!; [done|by repeat constructor|done]).
Qed.

Lemma extends_sleep d w : extends allowed inv w (time_sleep d w).
Proof. exists []. simpl. rewrite app_nil_r. split_and!; [done|constructor|done]. Qed.

Lemma respects_retry {A} n d (func : M A) :
  respects allowed inv func ->
  respects allowed inv (retry_on_exception n d func).
Proof.
  intros Hf w. unfold retry_on_exception, Retry.wrapper, Retry.loop_from.
  generalize (py_range 1 (n + 1)) (@None exn). intros l. revert w.
  induction l as [|k l IH]; intros w last; simpl.
  - destruct last; apply extends_refl.
  - specialize (Hf w). destruct (func w) as [[v|e] w1]; simpl in *; [done|].
    destruct (k =? n)%Z; [done|].
    destruct (Retry.back_off _ _ _ _ _ k w1) as [[[]|e'] w2] eqn:Eb.
    + apply RetryProofs.back_off_inv in Eb as (d0 & _ & _ & _ & ->).
      eapply extends_trans; [done|].
      eapply extends_trans; [apply extends_sleep|apply IH].
    + apply RetryProofs.back_off_inv in Eb as ->. done.
Qed.
End Frame.

Lemma respects_weaken {A} (P P' : KCall -> bool)
    (I I' : Service -> Service -> Prop) (m : M A) :
  (forall c, P c = true -> P' c = true) -> (forall s s', I s s' -> I' s s') ->
  respects P I m -> respects P' I' m.
Proof.
  intros HP HI Hm w. destruct (Hm w) as (t & E & F & Hi).
  exists t. split_and!; [done| |by apply HI].
  eapply Forall_impl; [done|]. intros x. apply HP.
Qed.

#[export] Instance same_directory_refl : Reflexive same_directory.
Proof. by intros s. Qed.

#[export] Instance same_directory_trans : Transitive same_directory.
Proof.
  intros a b c (?&?&?&?) (?&?&?&?). unfold same_directory.
  split_and!; congruence.
Qed.

(** An attempt that succeeds at once is the whole run of the decorator. *)
Lemma retry_first_try {A} (func : M A) w v w' :
  func w = (Ok v, w') -> retry_on_exception 3 1 func w = (Ok v, w').
Proof.
  intros Hf. unfold retry_on_exception, Retry.wrapper.
  by apply RetryProofs.loop_success.
Qed.

End LogicProofs.

Module GatewayProofs.
Import Py Identity Effects Logic LogicProofs KeystoneClient.

Create HintDb frame.

#[export] Hint Resolve respects_ret respects_raise : frame.

Ltac frame_step :=
  first
    [ apply respects_ret
    | apply respects_raise
    | apply respects_bind
    | apply respects_try
    | apply respects_retry
    | apply respects_call; [reflexivity|intros ?; simpl; try done]
    | match goal with
      | |- respects _ _ (match ?x with _ => _ end) => destruct x
      | |- respects _ _ (if ?x then _ else _) => destruct x
      | |- forall _, _ => intros ?
      end
    | solve [eauto with frame] ].

Ltac frame := repeat frame_step.

Section Lookups.
Variable oracle : nat -> KCall -> option exn.
Variable cfg : Config.OpenStackConfig.

Lemma get_domain_lookup name :
  respects is_lookup eq (get_domain oracle name).
Proof. unfold get_domain, domains_list. frame. Qed.

Lemma configured_domain_lookup domain :
  respects is_lookup eq (configured_domain oracle cfg domain).
Proof. unfold configured_domain. destruct domain; [frame|apply get_domain_lookup]. Qed.

Lemma get_project_lookup name domain :
  respects is_lookup eq (get_project oracle cfg name domain).
Proof.
  unfold get_project, projects_list.
  apply respects_try; [|frame]. apply respects_bind; [|frame].
  apply configured_domain_lookup.
Qed.

Lemma get_user_lookup name domain :
  respects is_lookup eq (get_user oracle cfg name domain).
Proof.
  unfold get_user, users_list.
  apply respects_try; [|frame]. apply respects_bind; [|frame].
  apply configured_domain_lookup.
Qed.

Lemma get_role_lookup name : respects is_lookup eq (get_role oracle name).
Proof. unfold get_role, roles_list. frame. Qed.

(** A listing never fails on the service side: only the oracle fails it. *)
Lemma get_domain_total name w :
  exists r w', get_domain oracle name w = (Ok r, w').
Proof.
  unfold get_domain, try_except, bind, domains_list, call.
  destruct (oracle _ _); simpl; eauto.
Qed.

Lemma configured_domain_total domain w :
  exists r w', configured_domain oracle cfg domain w = (Ok r, w').
Proof.
  unfold configured_domain. destruct domain; [by eexists _, _|].
  apply get_domain_total.
Qed.

Lemma get_project_total name domain w :
  exists r w', get_project oracle cfg name domain w = (Ok r, w').
Proof.
  unfold get_project, try_except, bind.
  destruct (configured_domain_total domain w) as (d & w1 & ->).
  unfold projects_list, call. destruct (oracle _ _); simpl; eauto.
Qed.

Lemma get_user_total name domain w :
  exists r w', get_user oracle cfg name domain w = (Ok r, w').
Proof.
  unfold get_user, try_except, bind.
  destruct (configured_domain_total domain w) as (d & w1 & ->).
  unfold users_list, call. destruct (oracle _ _); simpl; eauto.
Qed.

Lemma get_role_total name w :
  exists r w', get_role oracle name w = (Ok r, w').
Proof.
  unfold get_role, try_except, bind, roles_list, call.
  destruct (oracle _ _); simpl; eauto.
Qed.
End Lookups.

#[export] Hint Resolve get_domain_lookup configured_domain_lookup
  get_project_lookup get_user_lookup get_role_lookup : frame.



End GatewayProofs.

Module RevokeProofs.
Import Py Identity Effects Logic LogicProofs KeystoneClient.

Lemma revoke_each_attempts oracle user project assignments :
  forall success w,
  exists outcomes w',
    revoke_each oracle user project assignments success w
      = (Ok (success && forallb id outcomes), w')
    /\ length outcomes = length assignments
    /\ trace w' =
       trace w ++ zip (map (revoke_call user project) assignments) outcomes.
Proof.
  induction assignments as [|a rest IH]; intros success w.
  - exists [], w. simpl. rewrite andb_true_r, app_nil_r. done.
  - cbn [revoke_each]. unfold bind at 1, try_except, bind, roles_revoke, call.
    destruct (oracle _ _) as [e|]; simpl.
    + edestruct IH as (outs & w' & -> & Hlen & Htr).
      exists (false :: outs), w'. simpl in *.
      rewrite andb_false_r. split_and!; [done|by rewrite Hlen|].
      rewrite Htr, <- app_assoc. done.
    + destruct (roles_revoke_sem _ _ _ _) as [[[]|e] s'] eqn:Es; simpl.
      * edestruct IH as (outs & w' & -> & Hlen & Htr).
        exists (true :: outs), w'. simpl in *.
        split_and!; [done|by rewrite Hlen|].
        rewrite Htr, <- app_assoc. done.
      * edestruct IH as (outs & w' & -> & Hlen & Htr).
        exists (false :: outs), w'. simpl in *.
        rewrite andb_false_r. split_and!; [done|by rewrite Hlen|].
        rewrite Htr, <- app_assoc. done.
Qed.

(** C8. Once the assignments of the (user, project) pair are listed,
    [revoke_all_project_roles] makes exactly one revoke call per listed
    assignment, in order, whatever the outcome of the calls before it; it
    returns [True] exactly when every one of these calls succeeded, hence
    [True] when nothing was listed. *)
Theorem revoke_all_independent (oracle : nat -> KCall -> option exn)
    (user : User) (project : Project) (w : World)
    (assignments : list Assignment) (w1 : World) :
  role_assignments_list oracle user project w = (Ok assignments, w1) ->
  exists outcomes w',
    revoke_all_project_roles oracle user project w
      = (Ok (forallb id outcomes), w')
    /\ length outcomes = length assignments
    /\ trace w' =
       trace w1 ++ zip (map (revoke_call user project) assignments) outcomes.
Proof.
  intros Hlist. unfold revoke_all_project_roles, try_except, bind.
  rewrite Hlist.
  destruct (revoke_each_attempts oracle user project assignments true w1)
    as (outs & w' & Hrun & Hlen & Htr).
  destruct assignments as [|a rest].
  - exists [], w1. simpl. rewrite app_nil_r. done.
  - rewrite Hrun. exists outs, w'. done.
Qed.

Lemma revoke_all_independent_witness :
  let alice := Scenario.mk_user 20 "alice" in
  let project := Scenario.mk_project 10 "abc-123" 1 in
  exists outcomes w',
    revoke_all_project_roles (Scenario.revoke_fails_for 3) alice project
      (Scenario.world_of Scenario.populated)
      = (Ok (forallb id outcomes), w')
    /\ length outcomes = 2%nat
    /\ trace w' =
       [(CAssignmentsList 20 10, true)]
       ++ zip [CRolesRevoke 3 20 10; CRolesRevoke 4 20 10] outcomes.
Proof.
  intros alice project.
  edestruct (revoke_all_independent (Scenario.revoke_fails_for 3) alice
               project (Scenario.world_of Scenario.populated))
    as (outcomes & w' & Hrun & Hlen & Htrace); [reflexivity|].
  exists outcomes, w'. split_and!; [exact Hrun|exact Hlen|exact Htrace].
Defined.

End RevokeProofs.

Module MembershipProofs.
Import Py Identity Effects Logic LogicProofs GatewayProofs.
Import Sanitize Backend.

Lemma extends_service_eq P w w' : extends P eq w w' -> service w' = service w.
Proof. by intros (_ & _ & _ & ->). Qed.

Lemma lookup_weaken {A} (m : M A) :
  respects is_lookup eq m -> respects lookup_or_revoke same_directory m.
Proof.
  apply respects_weaken.
  - intros c Hc. unfold lookup_or_revoke. by rewrite Hc.
  - by intros s s' ->.
Qed.

Lemma filter_none {A} (f : A -> bool) (l : list A) :
  (forall x, In x l -> f x = false) -> List.filter f l = [].
Proof.
  induction l as [|x l IH]; simpl; [done|]. intros H.
  rewrite (H x) by auto. apply IH. auto.
Qed.

Section Absent.
Variable oracle : nat -> KCall -> option exn.
Variable cfg : Config.OpenStackConfig.

Lemma get_project_absent name domain w :
  no_project_named name (service w) ->
  exists w', KeystoneClient.get_project oracle cfg name domain w
             = (Ok None, w')
             /\ extends is_lookup eq w w'.
Proof.
  intros Hno.
  pose proof (get_project_lookup oracle cfg name domain w) as Hext.
  revert Hext. unfold KeystoneClient.get_project, try_except, bind.
  pose proof (configured_domain_lookup oracle cfg domain w) as Hd.
  destruct (configured_domain_total oracle cfg domain w) as (d & w1 & E).
  rewrite E in Hd |- *. simpl in Hd. apply extends_service_eq in Hd.
  unfold KeystoneClient.projects_list, call.
  destruct (oracle _ _); simpl; [eauto|].
  rewrite Hd, filter_none; [eauto|].
  intros p Hp. unfold project_matches.
  destruct (String.eqb_spec (project_name p) name) as [Hn|]; [|done].
  by destruct (Hno p Hp).
Qed.

Lemma get_user_absent name domain w :
  no_user_named name (service w) ->
  exists w', KeystoneClient.get_user oracle cfg name domain w
             = (Ok None, w')
             /\ extends is_lookup eq w w'.
Proof.
  intros Hno.
  pose proof (get_user_lookup oracle cfg name domain w) as Hext.
  revert Hext. unfold KeystoneClient.get_user, try_except, bind.
  pose proof (configured_domain_lookup oracle cfg domain w) as Hd.
  destruct (configured_domain_total oracle cfg domain w) as (d & w1 & E).
  rewrite E in Hd |- *. simpl in Hd. apply extends_service_eq in Hd.
  unfold KeystoneClient.users_list, call.
  destruct (oracle _ _); simpl; [eauto|].
  rewrite Hd, filter_none; [eauto|].
  intros u Hu. unfold user_matches.
  destruct (String.eqb_spec (user_name u) name) as [Hn|]; [|done].
  by destruct (Hno u Hu).
Qed.

Lemma get_resource_lookup name :
  respects is_lookup eq (OpenStackClient.get_resource oracle cfg name).
Proof. unfold OpenStackClient.get_resource. frame. Qed.

Lemma get_resource_total name w :
  exists r w', OpenStackClient.get_resource oracle cfg name w = (Ok r, w').
Proof.
  unfold OpenStackClient.get_resource, try_except, bind.
  destruct (get_project_total oracle cfg name None w) as ([p|] & w1 & ->);
    [|by eexists _, _].
  destruct (get_domain_total oracle (Config.domain_name cfg) w1)
    as (d & w2 & ->).
  by eexists _, _.
Qed.

Lemma get_resource_absent name w :
  no_project_named name (service w) ->
  exists w', OpenStackClient.get_resource oracle cfg name w = (Ok None, w')
             /\ extends is_lookup eq w w'.
Proof.
  intros Hno. unfold OpenStackClient.get_resource, try_except, bind.
  destruct (get_project_absent name None w Hno) as (w' & -> & Hext).
  eauto.
Qed.
End Absent.

#[export] Hint Resolve get_resource_lookup : frame.

Lemma validate_ok id rt :
  is_empty id = false -> (String.length id <= 255)%nat ->
  validate_backend_id id rt = Ok true.
Proof.
  intros He Hl. unfold validate_backend_id. rewrite He.
  destruct (Nat.ltb_spec 255 (String.length id)); [lia|done].
Qed.

Lemma validate_long id rt :
  (255 < String.length id)%nat ->
  validate_backend_id id rt
  = Raise (ValueError (rt +:+ " backend_id is too long (max 255 characters)")).
Proof.
  intros Hl. unfold validate_backend_id.
  destruct id as [|c id]; [simpl in Hl; lia|]. simpl is_empty. cbv iota.
  destruct (Nat.ltb_spec 255 (String.length (String c id))); [done|lia].
Qed.

Lemma not_blank_not_empty id : blank id = false -> is_empty id = false.
Proof. by destruct id. Qed.

Lemma lookups_only (t : list (KCall * bool)) :
  Forall (fun x => is_lookup x.1 = true) t ->
  Forall (fun x => is_grant x.1 = false /\ is_project_create x.1 = false
                   /\ is_revoke x.1 = false) t.
Proof.
  intros H. eapply Forall_impl; [exact H|].
  intros [c b]. simpl. by destruct c.
Qed.

(** C4, as stated, fails on a blank identifier: [" "] is not empty, no
    project carries its sanitized name, and [add_users_to_resource] returns
    the empty set without any error. *)
Lemma add_users_blank_id_returns_empty :
  let w := Scenario.world_of Scenario.fresh in
  " " <> ""
  /\ no_project_named (sanitize_for_openstack " ") (service w)
  /\ add_users_to_resource Scenario.quiet Config.default " " ["alice"] w
     = (Ok ∅, w).
Proof. split_and!; [done|by intros p []|reflexivity]. Qed.

(** C4 (amended). For a backend identifier that is not blank and has at most
    255 characters, when no project of the service carries its sanitized
    name, [add_users_to_resource] raises a [BackendError] whose message is
    the not-found message; the service is left as it was and the only calls
    made are lookups: no grant and no project creation. *)
Theorem add_users_missing_project (oracle : nat -> KCall -> option exn)
    (cfg : Config.OpenStackConfig) (id : string) (user_ids : list string)
    (w : World) :
  blank id = false -> (String.length id <= 255)%nat ->
  no_project_named (sanitize_for_openstack id) (service w) ->
  exists w' t,
    add_users_to_resource oracle cfg id user_ids w
    = (Raise (BackendError
                ("Error adding users to project ["
                 +:+ sanitize_for_openstack id +:+ "]: "
                 +:+ project_not_found (sanitize_for_openstack id))), w')
    /\ service w' = service w
    /\ trace w' = trace w ++ t
    /\ Forall (fun x => is_grant x.1 = false /\ is_project_create x.1 = false
                        /\ is_revoke x.1 = false) t.
Proof.
  intros Hb Hl Hno. unfold add_users_to_resource. rewrite Hb.
  rewrite validate_ok by auto using not_blank_not_empty.
  unfold try_except, bind.
  destruct (get_resource_absent oracle cfg _ w Hno) as (w' & -> & Hext).
  destruct Hext as (t & Ht & Hall & Hs). exists w', t.
  split_and!; [done|done|done|by apply lookups_only].
Qed.

Lemma add_users_missing_project_witness :
  exists w' t,
    add_users_to_resource Scenario.quiet Config.default "abc-123"
      ["alice"; "bob"] (Scenario.world_of Scenario.fresh)
    = (Raise (BackendError
                ("Error adding users to project [abc-123]: "
                 +:+ project_not_found "abc-123")), w')
    /\ service w' = Scenario.fresh
    /\ trace w' = [] ++ t
    /\ Forall (fun x => is_grant x.1 = false /\ is_project_create x.1 = false
                        /\ is_revoke x.1 = false) t.
Proof.
  apply (add_users_missing_project Scenario.quiet Config.default "abc-123"
           ["alice"; "bob"] (Scenario.world_of Scenario.fresh)).
  - reflexivity.
  - simpl. lia.
  - intros p [].
Defined.

(** C6, as stated, fails on an identifier longer than 255 characters: no
    project carries the sanitized name of [long_id], and
    [remove_users_from_resource] raises instead of returning the empty
    list. *)
Lemma remove_users_long_id_raises :
  let w := Scenario.world_of Scenario.fresh in
  no_project_named (sanitize_for_openstack Scenario.long_id) (service w)
  /\ remove_users_from_resource Scenario.quiet Config.default
       Scenario.long_id ["alice"] w
     = (Raise unbound_project_name, w).
Proof. split; [by intros p []|reflexivity]. Qed.

(** C6 (amended). When the backend identifier is blank (empty included), or
    has at most 255 characters and no project of the service carries its
    sanitized name, [remove_users_from_resource] returns the empty list
    without raising; the service is left as it was and the only calls made
    are lookups: no revocation. *)
Theorem remove_users_nothing_to_remove (oracle : nat -> KCall -> option exn)
    (cfg : Config.OpenStackConfig) (id : string) (usernames : list string)
    (w : World) :
  blank id = true
  \/ ((String.length id <= 255)%nat
      /\ no_project_named (sanitize_for_openstack id) (service w)) ->
  exists w' t,
    remove_users_from_resource oracle cfg id usernames w = (Ok [], w')
    /\ service w' = service w
    /\ trace w' = trace w ++ t
    /\ Forall (fun x => is_grant x.1 = false /\ is_project_create x.1 = false
                        /\ is_revoke x.1 = false) t.
Proof.
  intros H. unfold remove_users_from_resource.
  destruct (blank id) eqn:Hb.
  { exists w, []. rewrite app_nil_r. split_and!; [done|done|done|constructor]. }
  destruct H as [?|[Hl Hno]]; [done|].
  rewrite validate_ok by auto using not_blank_not_empty.
  unfold try_except, bind.
  destruct (get_resource_absent oracle cfg _ w Hno) as (w' & -> & Hext).
  destruct Hext as (t & Ht & Hall & Hs). exists w', t.
  split_and!; [done|done|done|by apply lookups_only].
Qed.

Lemma remove_users_nothing_to_remove_witness :
  (exists w' t,
     remove_users_from_resource Scenario.quiet Config.default ""
       ["alice"] (Scenario.world_of Scenario.populated) = (Ok [], w')
     /\ service w' = Scenario.populated
     /\ trace w' = [] ++ t
     /\ Forall (fun x => is_grant x.1 = false
                         /\ is_project_create x.1 = false
                         /\ is_revoke x.1 = false) t)
  /\ (exists w' t,
     remove_users_from_resource Scenario.unreachable Config.default "xyz-789"
       ["alice"] (Scenario.world_of Scenario.populated) = (Ok [], w')
     /\ service w' = Scenario.populated
     /\ trace w' = [] ++ t
     /\ Forall (fun x => is_grant x.1 = false
                         /\ is_project_create x.1 = false
                         /\ is_revoke x.1 = false) t).
Proof.
  split.
  - apply (remove_users_nothing_to_remove Scenario.quiet Config.default ""
             ["alice"] (Scenario.world_of Scenario.populated)).
    left. reflexivity.
  - apply (remove_users_nothing_to_remove Scenario.unreachable Config.default
             "xyz-789" ["alice"] (Scenario.world_of Scenario.populated)).
    right. split; [simpl; lia|].
    intros p [<-|[]]. discriminate.
Defined.

(** Identifiers longer than 255 characters, in general: the two membership
    methods leave through the unbound [project_name] of their handler. *)
Lemma long_id_membership oracle cfg id users w :
  blank id = false -> (255 < String.length id)%nat ->
  add_users_to_resource oracle cfg id users w = (Raise unbound_project_name, w)
  /\ remove_users_from_resource oracle cfg id users w
     = (Raise unbound_project_name, w).
Proof.
  intros Hb Hl. unfold add_users_to_resource, remove_users_from_resource.
  rewrite Hb, validate_long by done. done.
Qed.

(** C9, evaluated at a 256-character identifier.  [validate_backend_id]
    raises [ValueError]; [delete_resource] wraps it in a [BackendError];
    [add_users_to_resource] and [remove_users_from_resource] do not: their
    handler reads [project_name] before it is bound and what reaches the
    caller is an [UnboundLocalError]. *)
Theorem long_backend_id_outcomes :
  let w := Scenario.world_of Scenario.populated in
  String.length Scenario.long_id = 256%nat
  /\ validate_backend_id Scenario.long_id "waldur_managed_project"
     = Raise (ValueError
                "waldur_managed_project backend_id is too long (max 255 characters)")
  /\ delete_resource Scenario.quiet Config.default
       (Scenario.stored_resource Scenario.long_id) w
     = (Raise (BackendError
                 "Error deleting project: waldur_managed_project backend_id is too long (max 255 characters)"),
        w)
  /\ add_users_to_resource Scenario.quiet Config.default Scenario.long_id
       ["alice"] w
     = (Raise (UnboundLocalError
                 "cannot access local variable 'project_name' where it is not associated with a value"),
        w)
  /\ remove_users_from_resource Scenario.quiet Config.default
       Scenario.long_id ["alice"] w
     = (Raise (UnboundLocalError
                 "cannot access local variable 'project_name' where it is not associated with a value"),
        w).
Proof. split_and!; reflexivity. Qed.

(** A run in which membership synchronisation does create a project: the
    project [abc-123] lives in another domain, the first domain lookup
    fails, so the existence check lists across domains and finds it, after
    which [create_association] looks it up in the configured domain, misses
    it and creates it there. *)
Example add_users_can_create_project :
  let w := Scenario.world_of Scenario.elsewhere in
  let run := add_users_to_resource Scenario.first_call_fails Config.default
               "abc-123" ["alice"] w in
  run.1 = Ok {["alice"]}
  /\ length (projects (service w)) = 1%nat
  /\ length (projects (service run.2)) = 2%nat
  /\ creations (trace run.2) = 1%nat.
Proof. split_and!; vm_compute; reflexivity. Qed.

End MembershipProofs.

Module RemovalProofs.
Import Py Identity Effects Logic LogicProofs GatewayProofs MembershipProofs.
Import Sanitize Backend.

Section Removal.
Variable oracle : nat -> KCall -> option exn.
Variable cfg : Config.OpenStackConfig.

Lemma roles_revoke_respects r user project :
  respects lookup_or_revoke same_directory
    (KeystoneClient.roles_revoke oracle r user project).
Proof.
  unfold KeystoneClient.roles_revoke. apply respects_call; [reflexivity|].
  intros s. unfold roles_revoke_sem. by destruct (existsb _ _).
Qed.

Lemma revoke_each_respects user project assignments :
  forall success,
    respects lookup_or_revoke same_directory
      (KeystoneClient.revoke_each oracle user project assignments success).
Proof.
  induction assignments as [|a rest IH]; intros success; simpl.
  - apply respects_ret.
  - apply respects_bind; [|intros; apply IH].
    apply respects_try; [|intros; apply respects_ret].
    apply respects_bind; [apply roles_revoke_respects|].
    intros; apply respects_ret.
Qed.

Lemma revoke_all_respects user project :
  respects lookup_or_revoke same_directory
    (KeystoneClient.revoke_all_project_roles oracle user project).
Proof.
  unfold KeystoneClient.revoke_all_project_roles.
  apply respects_try; [|intros; apply respects_ret].
  apply respects_bind.
  - apply lookup_weaken. unfold KeystoneClient.role_assignments_list.
    by apply respects_call.
  - intros [|a l]; [apply respects_ret|apply revoke_each_respects].
Qed.

Lemma delete_association_respects u pn :
  respects lookup_or_revoke same_directory
    (OpenStackClient.delete_association oracle cfg u pn).
Proof.
  unfold OpenStackClient.delete_association.
  apply respects_try; [|intros; apply respects_raise].
  apply respects_bind; [apply lookup_weaken, get_project_lookup|].
  intros [p|]; [|apply respects_ret].
  apply respects_bind; [apply lookup_weaken, get_user_lookup|].
  intros [x|]; [|apply respects_ret].
  apply respects_bind; [apply revoke_all_respects|].
  intros []; [apply respects_ret|apply respects_raise].
Qed.

(** With no user of that name, [delete_association] comes back with a
    message whatever the oracle does, after lookups only. *)
Lemma delete_association_absent_user u pn w :
  no_user_named u (service w) ->
  exists msg w',
    OpenStackClient.delete_association oracle cfg u pn w = (Ok msg, w')
    /\ extends is_lookup eq w w'
    /\ (forall p w1,
          KeystoneClient.get_project oracle cfg pn None w
          = (Ok (Some p), w1) ->
          msg = "User '" +:+ u +:+ "' not found").
Proof.
  intros Hno. unfold OpenStackClient.delete_association, try_except, bind.
  pose proof (get_project_lookup oracle cfg pn None w) as Hp.
  destruct (get_project_total oracle cfg pn None w) as ([p|] & w1 & E);
    rewrite E in Hp |- *; simpl in Hp.
  - assert (Hno1 : no_user_named u (service w1)).
    { by rewrite (extends_service_eq _ _ _ Hp). }
    destruct (get_user_absent oracle cfg u None w1 Hno1) as (w2 & -> & Hu).
    eexists _, w2. split_and!; [done| |by intros].
    eapply extends_trans; done.
  - eexists _, w1. split_and!; [done|done|]. intros; congruence.
Qed.

Lemma no_user_named_same u s s' :
  same_directory s s' -> no_user_named u s -> no_user_named u s'.
Proof. intros (_ & _ & Hu & _). unfold no_user_named. by rewrite Hu. Qed.

Lemma remove_each_reports pn usernames :
  forall removed w,
  exists more w',
    remove_each oracle cfg pn usernames removed w
    = (Ok (removed ++ more), w')
    /\ extends lookup_or_revoke same_directory w w'
    /\ (forall u, In u usernames -> no_user_named u (service w) ->
                  In u more).
Proof.
  induction usernames as [|u rest IH]; intros removed w.
  - exists [], w. simpl. rewrite app_nil_r.
    split_and!; [done|apply extends_refl|by intros].
  - cbn [remove_each]. unfold bind at 1, try_except, bind.
    pose proof (delete_association_respects u pn w) as Hd.
    destruct (OpenStackClient.delete_association oracle cfg u pn w)
      as [[msg|e] w1] eqn:E; simpl in Hd; cbv beta iota; unfold ret.
    + destruct (IH (removed ++ [u]) w1) as (more & w' & -> & Hext & Hin).
      exists (u :: more), w'. rewrite <- app_assoc.
      split_and!; [done|by eapply extends_trans|].
      intros x [<-|Hx] Hno; [by left|right].
      apply Hin; [done|]. destruct Hd as (_ & _ & _ & Hs).
      by eapply no_user_named_same.
    + destruct (IH removed w1) as (more & w' & -> & Hext & Hin).
      exists more, w'. split_and!; [done|by eapply extends_trans|].
      intros x [<-|Hx] Hno.
      * destruct (delete_association_absent_user u pn w Hno)
          as (? & ? & E' & _). congruence.
      * apply Hin; [done|]. destruct Hd as (_ & _ & _ & Hs).
        by eapply no_user_named_same.
Qed.

Lemma remove_each_all_absent pn usernames :
  forall removed w,
    (forall u, In u usernames -> no_user_named u (service w)) ->
    exists w',
      remove_each oracle cfg pn usernames removed w
      = (Ok (removed ++ usernames), w')
      /\ extends is_lookup eq w w'.
Proof.
  induction usernames as [|u rest IH]; intros removed w Hall.
  - exists w. simpl. rewrite app_nil_r. split; [done|apply extends_refl].
  - cbn [remove_each]. unfold bind at 1, try_except, bind.
    destruct (delete_association_absent_user u pn w)
      as (msg & w1 & -> & Hext & _); [apply Hall; by left|].
    cbv beta iota; unfold ret.
    destruct (IH (removed ++ [u]) w1) as (w' & -> & Hext').
    { intros x Hx. rewrite (extends_service_eq _ _ _ Hext).
      apply Hall. by right. }
    exists w'. rewrite <- app_assoc. split; [done|].
    by eapply extends_trans.
Qed.
End Removal.

(** C10. When the project is found but no user of the service carries a
    requested name, [delete_association] returns the message
    [User '...' not found] after lookups only, and
    [remove_users_from_resource] puts that name in the list it returns;
    when none of the requested names exists the list returned is the whole
    request although the service is unchanged and no revocation call was
    made. *)
Theorem remove_reports_absent_users (oracle : nat -> KCall -> option exn)
    (cfg : Config.OpenStackConfig) :
  (forall u pn w p w1,
      KeystoneClient.get_project oracle cfg pn None w = (Ok (Some p), w1) ->
      no_user_named u (service w) ->
      exists w2 t,
        OpenStackClient.delete_association oracle cfg u pn w
        = (Ok ("User '" +:+ u +:+ "' not found"), w2)
        /\ service w2 = service w
        /\ trace w2 = trace w ++ t
        /\ Forall (fun x => is_revoke x.1 = false) t)
  /\ (forall id usernames w r w1,
        blank id = false -> (String.length id <= 255)%nat ->
        OpenStackClient.get_resource oracle cfg (sanitize_for_openstack id) w
        = (Ok (Some r), w1) ->
        exists removed w',
          remove_users_from_resource oracle cfg id usernames w
          = (Ok removed, w')
          /\ (forall u, In u usernames -> no_user_named u (service w) ->
                        In u removed)
          /\ ((forall u, In u usernames -> no_user_named u (service w)) ->
              removed = usernames /\ service w' = service w
              /\ exists t, trace w' = trace w ++ t
                           /\ Forall (fun x => is_revoke x.1 = false) t)).
Proof.
  split.
  - intros u pn w p w1 Hp Hno.
    destruct (delete_association_absent_user oracle cfg u pn w Hno)
      as (msg & w2 & Hrun & (t & Ht & Hall & Hs) & Hmsg).
    exists w2, t. rewrite <- (Hmsg p w1 Hp).
    split_and!; [done|done|done|].
    eapply Forall_impl; [apply (lookups_only _ Hall)|]. by intros x (_ & _ & ?).
  - intros id usernames w r w1 Hb Hl Hres.
    unfold remove_users_from_resource. rewrite Hb.
    rewrite validate_ok by auto using not_blank_not_empty.
    unfold try_except, bind. rewrite Hres.
    pose proof (get_resource_lookup oracle cfg (sanitize_for_openstack id) w)
      as Hext. rewrite Hres in Hext. simpl in Hext.
    pose proof (extends_service_eq _ _ _ Hext) as Hs.
    destruct (remove_each_reports oracle cfg (sanitize_for_openstack id)
                usernames [] w1) as (more & w' & Hrun & _ & Hin).
    rewrite Hrun. exists more, w'. split_and!; [done| |].
    + intros u Hu Hno. apply Hin; [done|]. by rewrite Hs.
    + intros Hall.
      destruct (remove_each_all_absent oracle cfg (sanitize_for_openstack id)
                  usernames [] w1) as (w'' & Hrun' & Hext').
      { intros u Hu. rewrite Hs. by apply Hall. }
      rewrite Hrun' in Hrun. injection Hrun as -> ->.
      split_and!; [done|by rewrite (extends_service_eq _ _ _ Hext')|].
      destruct (extends_trans _ _ _ Hext Hext') as (t & Ht & Hal & _).
      exists t. split; [done|].
      eapply Forall_impl; [apply (lookups_only _ Hal)|]. by intros x (_ & _ & ?).
Qed.

Lemma populated_no_dave : no_user_named "dave" Scenario.populated.
Proof. intros u [<-|[<-|[<-|[]]]]; discriminate. Defined.

Lemma populated_no_erin : no_user_named "erin" Scenario.populated.
Proof. intros u [<-|[<-|[<-|[]]]]; discriminate. Defined.

Lemma remove_reports_absent_users_witness :
  let w := Scenario.world_of Scenario.populated in
  (exists w2 t,
     OpenStackClient.delete_association Scenario.quiet Config.default "dave"
       "abc-123" w
     = (Ok "User 'dave' not found", w2)
     /\ service w2 = Scenario.populated
     /\ trace w2 = [] ++ t
     /\ Forall (fun x => is_revoke x.1 = false) t)
  /\ (exists removed w',
        remove_users_from_resource Scenario.quiet Config.default "abc-123"
          ["alice"; "dave"] w = (Ok removed, w')
        /\ In "dave" removed)
  /\ (exists removed w',
        remove_users_from_resource Scenario.quiet Config.default "abc-123"
          ["dave"; "erin"] w = (Ok removed, w')
        /\ removed = ["dave"; "erin"] /\ service w' = Scenario.populated).
Proof.
  intros w.
  pose proof (remove_reports_absent_users Scenario.quiet Config.default)
    as [H1 H2].
  split_and!.
  - eapply (H1 "dave" "abc-123" w); [reflexivity|apply populated_no_dave].
  - edestruct (H2 "abc-123" ["alice"; "dave"] w)
      as (removed & w' & Hrun & Hin & _);
      [reflexivity|simpl; lia|reflexivity|].
    exists removed, w'. split; [exact Hrun|].
    apply Hin; [simpl; auto|apply populated_no_dave].
  - edestruct (H2 "abc-123" ["dave"; "erin"] w)
      as (removed & w' & Hrun & _ & Hall);
      [reflexivity|simpl; lia|reflexivity|].
    destruct Hall as (Hr & Hs & _).
    { intros u [<-|[<-|[]]];
        [apply populated_no_dave|apply populated_no_erin]. }
    exists removed, w'. split_and!; [exact Hrun|exact Hr|exact Hs].
Defined.

End RemovalProofs.

Module AdditionProofs.
Import Py Identity Effects Logic LogicProofs GatewayProofs MembershipProofs.
Import Sanitize Backend.

Section Addition.
Variable oracle : nat -> KCall -> option exn.
Variable cfg : Config.OpenStackConfig.

Lemma add_each_step pn u rest added w :
  add_each oracle cfg pn (u :: rest) added w
  = add_each oracle cfg pn rest
      (if is_ok (OpenStackClient.create_association oracle cfg u pn w).1
       then {[u]} ∪ added else added)
      (OpenStackClient.create_association oracle cfg u pn w).2.
Proof.
  cbn [add_each]. unfold bind at 1, try_except, bind.
  by destruct (OpenStackClient.create_association oracle cfg u pn w)
    as [[msg|e] w1].
Qed.

Lemma add_each_total pn user_ids :
  forall added w,
  exists result w',
    add_each oracle cfg pn user_ids added w = (Ok result, w')
    /\ added ⊆ result /\ result ⊆ added ∪ list_to_set user_ids.
Proof.
  induction user_ids as [|u rest IH]; intros added w.
  - exists added, w. split_and!; [done|done|apply union_subseteq_l].
  - rewrite add_each_step.
    edestruct IH as (result & w' & -> & Hsub & Hsup).
    exists result, w'. split; [done|].
    rewrite list_to_set_cons.
    destruct (is_ok _); split; intros x Hx;
      [apply Hsub, elem_of_union; by right
      |apply Hsup in Hx; rewrite !elem_of_union in *; tauto
      |by apply Hsub
      |apply Hsup in Hx; rewrite !elem_of_union in *; tauto].
Qed.
(** A grant that fails with anything but a conflict makes [assign_role]
    return [False] and [create_association] raise. *)
Lemma assign_role_grant_fails user project role_name w role w1 e w2 :
  KeystoneClient.ensure_role oracle role_name w = (Ok role, w1) ->
  KeystoneClient.roles_grant oracle role user project w1 = (Raise e, w2) ->
  (forall m d, e <> Conflict m d) ->
  KeystoneClient.assign_role oracle user project role_name w = (Ok false, w2).
Proof.
  intros Hrole Hgrant Hne. unfold KeystoneClient.assign_role.
  apply retry_first_try.
  unfold KeystoneClient.assign_role_func, try_except, bind.
  rewrite Hrole, Hgrant. destruct e as [m d| | | | | | | |]; try done.
  by destruct (Hne m d).
Qed.

Lemma create_association_grant_fails u pn w p w1 user w2 role w3 e w4 :
  KeystoneClient.get_project oracle cfg pn None w = (Ok (Some p), w1) ->
  KeystoneClient.ensure_user oracle cfg u None None None w1 = (Ok user, w2) ->
  KeystoneClient.ensure_role oracle (Config.default_role cfg) w2
  = (Ok role, w3) ->
  KeystoneClient.roles_grant oracle role user (Some p) w3 = (Raise e, w4) ->
  (forall m d, e <> Conflict m d) ->
  exists msg,
    OpenStackClient.create_association oracle cfg u pn w
    = (Raise (KeystoneClientError msg), w4).
Proof.
  intros Hp Hu Hrole Hgrant Hne.
  unfold OpenStackClient.create_association, try_except, bind.
  rewrite Hp. unfold ret. rewrite Hu.
  rewrite (assign_role_grant_fails _ _ _ _ _ _ _ _ Hrole Hgrant Hne).
  by eexists.
Qed.
End Addition.

End AdditionProofs.

Module CreationProofs.
Import Py Identity Effects Logic LogicProofs GatewayProofs MembershipProofs.
Import Sanitize Backend.

Lemma attr_some o x : attr o = Some x -> is_empty x = false.
Proof.
  unfold attr. destruct o as [s|]; [|done].
  destruct (is_empty s) eqn:E; [done|]. by intros [= <-].
Qed.

Lemma client_get_project_lookup oracle cfg name :
  respects is_lookup eq (OpenStackClient.get_project oracle cfg name).
Proof. unfold OpenStackClient.get_project. frame. Qed.

(** The idempotent branch, whatever the oracle does elsewhere. *)
Lemma create_existing oracle cfg r x w p w1 :
  attr (uuid r) = Some x -> (String.length x <= 255)%nat ->
  OpenStackClient.get_project oracle cfg (sanitize_for_openstack x) w
  = (Ok (Some p), w1) ->
  _create_resource_in_backend oracle cfg r w = (Ok x, w1)
  /\ extends is_lookup eq w w1.
Proof.
  intros Hu Hl Hp. split.
  - unfold _create_resource_in_backend, try_except, bind, lift.
    rewrite Hu, validate_ok by eauto using attr_some. by rewrite Hp.
  - pose proof (client_get_project_lookup oracle cfg
                  (sanitize_for_openstack x) w) as H.
    by rewrite Hp in H.
Qed.

Lemma filter_nil_existsb {A} (f : A -> bool) l :
  List.filter f l = [] -> existsb f l = false.
Proof.
  induction l as [|a l IH]; simpl; [done|].
  destruct (f a); [done|]. exact IH.
Qed.

Section Quiet.
Variable oracle : nat -> KCall -> option exn.
Variable cfg : Config.OpenStackConfig.
Hypothesis quiet : forall n c, oracle n c = None.

Lemma call_quiet {A} c (sem : Service -> outcome A * Service) w :
  call oracle c sem w
  = ((sem (service w)).1,
     {| service := (sem (service w)).2;
        trace := trace w ++ [(c, is_ok (sem (service w)).1)];
        slept := slept w |}).
Proof. unfold call. by rewrite quiet. Qed.

Lemma get_domain_quiet name w :
  KeystoneClient.get_domain oracle name w
  = (Ok (head (List.filter (fun d => String.eqb (domain_name d) name)
                 (domains (service w)))),
     {| service := service w;
        trace := trace w ++ [(CDomainsList name, true)];
        slept := slept w |}).
Proof.
  unfold KeystoneClient.get_domain, try_except, bind,
    KeystoneClient.domains_list.
  by rewrite call_quiet.
Qed.

Lemma get_project_quiet name w d :
  configured cfg (service w) = Some d ->
  KeystoneClient.get_project oracle cfg name None w
  = (Ok (head (projects_named name (domain_id d) (service w))),
     {| service := service w;
        trace := trace w ++
                 [(CDomainsList (Config.domain_name cfg), true);
                  (CProjectsList name (Some (domain_id d)), true)];
        slept := slept w |}).
Proof.
  intros Hd. unfold configured in Hd.
  unfold KeystoneClient.get_project, try_except, bind,
    KeystoneClient.configured_domain, KeystoneClient.projects_list.
  rewrite get_domain_quiet, Hd, call_quiet. simpl.
  by rewrite <- app_assoc.
Qed.

Lemma client_get_project_quiet name w d :
  configured cfg (service w) = Some d ->
  OpenStackClient.get_project oracle cfg name w
  = (Ok (head (projects_named name (domain_id d) (service w))),
     {| service := service w;
        trace := trace w ++
                 [(CDomainsList (Config.domain_name cfg), true);
                  (CProjectsList name (Some (domain_id d)), true)];
        slept := slept w |}).
Proof.
  intros Hd. unfold OpenStackClient.get_project, try_except.
  by rewrite (get_project_quiet name w d Hd).
Qed.

Lemma create_project_quiet name description w d :
  configured cfg (service w) = Some d ->
  projects_named name (domain_id d) (service w) = [] ->
  let desc := if is_empty description then "Project " +:+ name
              else description in
  let p := {| project_id := next_id (service w); project_name := name;
              project_domain_id := domain_id d;
              project_description := desc; project_enabled := true |} in
  KeystoneClient.create_project oracle cfg name None description w
  = (Ok (Some p),
     {| service := add_project p (service w);
        trace := trace w ++
                 [(CDomainsList (Config.domain_name cfg), true);
                  (CProjectsCreate name (Some (domain_id d)) desc, true)];
        slept := slept w |}).
Proof.
  intros Hd Hnone desc p. unfold KeystoneClient.create_project.
  apply retry_first_try.
  unfold KeystoneClient.create_project_func, KeystoneClient.ensure_domain,
    bind.
  rewrite get_domain_quiet. unfold configured in Hd. rewrite Hd.
  unfold ret, KeystoneClient.projects_create. rewrite call_quiet.
  cbn [fmap option_fmap option_map service trace slept].
  unfold projects_create_sem. cbn [domain_or_default].
  unfold projects_named in Hnone.
  rewrite (filter_nil_existsb _ _ Hnone). cbn [fst snd is_ok].
  by rewrite <- app_assoc.
Qed.

Lemma create_fresh r x w d :
  attr (uuid r) = Some x -> (String.length x <= 255)%nat ->
  configured cfg (service w) = Some d ->
  projects_named (sanitize_for_openstack x) (domain_id d) (service w) = [] ->
  exists p t,
    project_name p = sanitize_for_openstack x
    /\ project_domain_id p = domain_id d
    /\ creations t = 1%nat
    /\ _create_resource_in_backend oracle cfg r w
       = (Ok x,
          {| service := add_project p (service w);
             trace := trace w ++ t; slept := slept w |}).
Proof.
  intros Hu Hl Hd Hnone.
  unfold _create_resource_in_backend, try_except, bind, lift.
  rewrite Hu, validate_ok by eauto using attr_some.
  rewrite (client_get_project_quiet _ w d Hd), Hnone. cbn [head].
  unfold OpenStackClient.create_project, try_except, bind.
  erewrite create_project_quiet; [|exact Hd|exact Hnone].
  unfold ret. cbv beta iota. cbn [service trace slept].
  rewrite <- app_assoc.
  eexists _, _. split_and!; [| | |reflexivity]; done.
Qed.

Lemma create_found r x w d p l :
  attr (uuid r) = Some x -> (String.length x <= 255)%nat ->
  configured cfg (service w) = Some d ->
  projects_named (sanitize_for_openstack x) (domain_id d) (service w)
  = p :: l ->
  exists t,
    creations t = 0%nat
    /\ _create_resource_in_backend oracle cfg r w
       = (Ok x,
          {| service := service w; trace := trace w ++ t;
             slept := slept w |}).
Proof.
  intros Hu Hl Hd Hsome. eexists. split; [|].
  2:{ eapply create_existing; [exact Hu|exact Hl|].
      rewrite (client_get_project_quiet _ w d Hd), Hsome. done. }
  done.
Qed.
End Quiet.

Lemma projects_named_added name d p s :
  project_name p = name -> project_domain_id p = d ->
  projects_named name d (add_project p s) = projects_named name d s ++ [p].
Proof.
  intros Hn Hd. unfold projects_named, add_project. simpl.
  rewrite List.filter_app. simpl. unfold project_matches at 2.
  rewrite Hn, Hd, String.eqb_refl. simpl. by rewrite N.eqb_refl.
Qed.

Lemma creations_app t1 t2 : creations (t1 ++ t2) = (creations t1 + creations t2)%nat.
Proof. unfold creations. by rewrite List.filter_app, length_app. Qed.

Lemma lookups_no_creation t :
  Forall (fun x => is_lookup x.1 = true) t -> creations t = 0%nat.
Proof.
  unfold creations. induction 1 as [|[c b] t Hc _ IH]; simpl; [done|].
  simpl in Hc. destruct c; try discriminate; exact IH.
Qed.

Lemma no_match_any_domain name i l :
  List.filter (project_matches name None) l = [] ->
  existsb (project_matches name (Some i)) l = false.
Proof.
  induction l as [|q l IH]; simpl; [done|].
  destruct (project_matches name None q) eqn:E; [done|]. intros H.
  rewrite (IH H), orb_false_r. unfold project_matches in *. simpl in E.
  rewrite andb_true_r in E. by rewrite E.
Qed.

Lemma filter_none_any_domain name i l :
  List.filter (project_matches name None) l = [] ->
  List.filter (project_matches name (Some i)) l = [].
Proof.
  induction l as [|q l IH]; simpl; [done|].
  destruct (project_matches name None q) eqn:E; [done|]. intros H.
  rewrite (IH H). unfold project_matches in *. simpl in E.
  rewrite andb_true_r in E. by rewrite E.
Qed.

Section Listed.
Variable oracle : nat -> KCall -> option exn.
Variable cfg : Config.OpenStackConfig.
Hypothesis quiet : forall n c, oracle n c = None.

Lemma listed_configured name s d :
  configured cfg s = Some d -> listed cfg name s = projects_named name (domain_id d) s.
Proof. intros Hd. unfold listed. by rewrite Hd. Qed.

Lemma client_get_project_listed name w :
  exists t,
    OpenStackClient.get_project oracle cfg name w
    = (Ok (head (listed cfg name (service w))),
       {| service := service w; trace := trace w ++ t; slept := slept w |})
    /\ creations t = 0%nat.
Proof.
  unfold OpenStackClient.get_project, KeystoneClient.get_project, try_except,
    bind, KeystoneClient.configured_domain, KeystoneClient.projects_list.
  rewrite get_domain_quiet, call_quiet by done. cbn [service trace slept].
  unfold projects_list_sem. cbn [fst snd is_ok]. unfold ret.
  rewrite <- app_assoc. eexists. split; [reflexivity|]. reflexivity.
Qed.

Lemma create_listed r x w p l :
  attr (uuid r) = Some x -> (String.length x <= 255)%nat ->
  listed cfg (sanitize_for_openstack x) (service w) = p :: l ->
  exists t,
    creations t = 0%nat
    /\ _create_resource_in_backend oracle cfg r w
       = (Ok x,
          {| service := service w; trace := trace w ++ t;
             slept := slept w |}).
Proof.
  intros Hu Hl Hsome.
  destruct (client_get_project_listed (sanitize_for_openstack x) w)
    as (t & Hget & Hc).
  exists t. split; [done|].
  eapply create_existing; [exact Hu|exact Hl|]. by rewrite Hget, Hsome.
Qed.

(** The first creation on a service that does not hold the configured
    domain yet: the domain is created, then the project in it. *)
Lemma create_fresh_unconfigured r x w :
  attr (uuid r) = Some x -> (String.length x <= 255)%nat ->
  configured cfg (service w) = None ->
  listed cfg (sanitize_for_openstack x) (service w) = [] ->
  exists d p w1 t,
    _create_resource_in_backend oracle cfg r w = (Ok x, w1)
    /\ trace w1 = trace w ++ t /\ creations t = 1%nat
    /\ configured cfg (service w1) = Some d
    /\ projects_named (sanitize_for_openstack x) (domain_id d) (service w1)
       = [p]
    /\ assignments (service w1) = assignments (service w).
Proof.
  intros Hu Hl Hd Hnone.
  destruct (client_get_project_listed (sanitize_for_openstack x) w)
    as (t0 & Hget & Hc0).
  assert (Hdoms : List.filter
                    (fun d => String.eqb (domain_name d)
                                (Config.domain_name cfg))
                    (domains (service w)) = []).
  { unfold configured in Hd. by destruct (List.filter _ _). }
  assert (Hall : List.filter
                   (project_matches (sanitize_for_openstack x) None)
                   (projects (service w)) = []).
  { unfold listed in Hnone. by rewrite Hd in Hnone. }
  unfold _create_resource_in_backend, try_except, bind, lift.
  rewrite Hu, validate_ok by eauto using attr_some.
  rewrite Hget, Hnone. cbn [head].
  unfold OpenStackClient.create_project, try_except, bind.
  unfold KeystoneClient.create_project.
  erewrite retry_first_try.
  2:{ unfold KeystoneClient.create_project_func, KeystoneClient.ensure_domain,
        bind, try_except.
      rewrite get_domain_quiet by done. cbn [service]. rewrite Hdoms.
      cbn [head].
      unfold KeystoneClient.domains_create. rewrite call_quiet by done.
      cbn [service trace slept]. unfold domains_create_sem.
      rewrite (filter_nil_existsb _ _ Hdoms). cbn [fst snd is_ok]. unfold ret.
      unfold KeystoneClient.projects_create. rewrite call_quiet by done.
      cbn [fmap option_fmap option_map service trace slept domain_id].
      unfold projects_create_sem.
      cbn [domain_or_default projects domain_id].
      rewrite (no_match_any_domain _ _ _ Hall). cbn [fst snd is_ok].
      reflexivity. }
  unfold ret. cbv beta iota.
  eexists _, _, _, _. split_and!; [reflexivity| | | | |].
  - cbn [trace]. rewrite <- !app_assoc. reflexivity.
  - rewrite creations_app, Hc0. reflexivity.
  - cbn [service]. unfold configured. cbn [domains].
    rewrite List.filter_app, Hdoms. cbn [List.filter app domain_name].
    by rewrite String.eqb_refl.
  - cbn [service]. unfold projects_named. cbn [projects].
    rewrite List.filter_app.
    rewrite (filter_none_any_domain _ _ _ Hall).
    cbn [List.filter app]. unfold project_matches. cbn.
    by rewrite String.eqb_refl, N.eqb_refl.
  - reflexivity.
Qed.
End Listed.

Lemma validate_ok_inv id rt :
  validate_backend_id id rt = Ok true -> (String.length id <= 255)%nat.
Proof.
  unfold validate_backend_id. destruct (is_empty id); [done|].
  destruct (Nat.ltb_spec 255 (String.length id)); [done|]. intros _. lia.
Qed.

(** A call that returned a backend identifier had a truthy [uuid] of at
    most 255 characters and returned it. *)
Lemma create_returned oracle cfg r w b w1 :
  _create_resource_in_backend oracle cfg r w = (Ok b, w1) ->
  attr (uuid r) = Some b /\ (String.length b <= 255)%nat.
Proof.
  unfold _create_resource_in_backend, try_except, bind, lift.
  destruct (attr (uuid r)) as [x|]; [|done].
  destruct (validate_backend_id x _) as [v|e] eqn:Ev; [|by destruct e].
  assert (Hl : (String.length x <= 255)%nat).
  { unfold validate_backend_id in Ev. destruct (is_empty x); [done|].
    destruct (Nat.ltb_spec 255 (String.length x)); [done|lia]. }
  destruct (OpenStackClient.get_project _ _ _ _) as [[[p|]|e] w'].
  - by intros [= <- <-].
  - destruct (OpenStackClient.create_project _ _ _ _ _) as [[q|e] w''].
    + by intros [= <- <-].
    + by destruct e.
  - by destruct e.
Qed.

(** C1, as stated, fails at an identifier of 256 characters: the project
    of its sanitized name exists and the service answers every call, yet the
    length guard makes the call raise [BackendError] instead of returning
    the identifier. *)
Lemma create_rejects_long_identifier :
  let r := Scenario.resource_of Scenario.long_id in
  let w := Scenario.world_of ScenarioExtra.long_named in
  listed Config.default (sanitize_for_openstack Scenario.long_id) (service w)
  <> []
  /\ _create_resource_in_backend Scenario.quiet Config.default r w
     = (Raise (BackendError
                 ("Failed to create OpenStack project: "
                  +:+ "waldur_managed_project backend_id is too long "
                  +:+ "(max 255 characters)")), w).
Proof. split; [vm_compute; discriminate|vm_compute; reflexivity]. Qed.

(** C1 (amended).  After a call that returned a backend identifier, a
    further call whose existence check finds the project returns the same
    identifier, leaves the service as it is and makes no creation call,
    whatever else the oracle does.  On a service that answers every call,
    for a non-empty identifier of at most 255 characters: when the existence
    check lists a project of the sanitized name, the call creates nothing,
    leaves the service unchanged and returns the identifier; when it lists
    at most one, two calls in a row both return the identifier, the second
    leaves the service unchanged, the two together create at most one
    project and exactly one project is listed afterwards; this includes the
    first use on a service without the configured domain, which the first
    call then creates. *)
Theorem create_resource_idempotent (oracle : nat -> KCall -> option exn)
    (cfg : Config.OpenStackConfig) (r : WaldurResource) (w : World) :
  (forall b w1 p w2,
      _create_resource_in_backend oracle cfg r w = (Ok b, w1) ->
      OpenStackClient.get_project oracle cfg (sanitize_for_openstack b) w1
      = (Ok (Some p), w2) ->
      _create_resource_in_backend oracle cfg r w1 = (Ok b, w2)
      /\ service w2 = service w1
      /\ exists t, trace w2 = trace w1 ++ t /\ creations t = 0%nat)
  /\ (forall x,
        (forall n c, oracle n c = None) ->
        attr (uuid r) = Some x -> (String.length x <= 255)%nat ->
        let name := sanitize_for_openstack x in
        (listed cfg name (service w) <> [] ->
         exists w1 t,
           _create_resource_in_backend oracle cfg r w = (Ok x, w1)
           /\ service w1 = service w
           /\ trace w1 = trace w ++ t /\ creations t = 0%nat)
        /\ ((length (listed cfg name (service w)) <= 1)%nat ->
            exists w1 w2 t,
              _create_resource_in_backend oracle cfg r w = (Ok x, w1)
              /\ _create_resource_in_backend oracle cfg r w1 = (Ok x, w2)
              /\ service w2 = service w1
              /\ length (listed cfg name (service w2)) = 1%nat
              /\ (listed cfg name (service w) = [] ->
                  configured cfg (service w2) <> None)
              /\ trace w2 = trace w ++ t
              /\ (creations t <= 1)%nat)).
Proof.
  split.
  - intros b w1 p w2 Hfirst Hp.
    destruct (create_returned _ _ _ _ _ _ Hfirst) as [Hu Hl].
    destruct (create_existing oracle cfg r b w1 p w2 Hu Hl Hp)
      as [Hrun (t & Ht & Hall & Hs)].
    split_and!; [done|done|]. exists t. split; [done|].
    by apply lookups_no_creation.
  - intros x Hq Hu Hl name. subst name. split.
    + intros Hsome.
      destruct (listed cfg (sanitize_for_openstack x) (service w)) as [|p l] eqn:Hlisted; [done|].
      destruct (create_listed oracle cfg Hq r x w p l Hu Hl Hlisted)
        as (t & Hc & Hrun).
      by eexists _, t.
    + intros Hone.
      assert (Hfresh : listed cfg (sanitize_for_openstack x) (service w) = [] ->
                exists w1 p t,
                  _create_resource_in_backend oracle cfg r w = (Ok x, w1)
                  /\ trace w1 = trace w ++ t /\ creations t = 1%nat
                  /\ configured cfg (service w1) <> None
                  /\ listed cfg (sanitize_for_openstack x) (service w1) = [p]).
      { intros Hnone.
        destruct (configured cfg (service w)) as [d|] eqn:Hd.
        - rewrite (listed_configured cfg _ _ d Hd) in Hnone.
          destruct (create_fresh oracle cfg Hq r x w d Hu Hl Hd Hnone)
            as (p & t & Hn & Hdom & Hc & Hrun).
          eexists _, p, t. split_and!; [exact Hrun|done|done| |].
          + cbn [service]. unfold configured, add_project. cbn [domains].
            unfold configured in Hd. by rewrite Hd.
          + assert (Hd1 : configured cfg (add_project p (service w))
                          = Some d) by exact Hd.
            cbn [service].
            rewrite (listed_configured cfg _ _ d Hd1).
            by rewrite (projects_named_added _ _ _ _ Hn Hdom), Hnone.
        - destruct (create_fresh_unconfigured oracle cfg Hq r x w Hu Hl Hd
                      Hnone) as (d & p & w1 & t & Hrun & Ht & Hc & Hd1 & Hp & _).
          exists w1, p, t. split_and!; [done|done|done|by rewrite Hd1|].
          by rewrite (listed_configured cfg _ _ d Hd1). }
      destruct (listed cfg (sanitize_for_openstack x) (service w)) as [|p [|q l]] eqn:Hlisted.
      * destruct (Hfresh eq_refl) as (w1 & p & t1 & Hrun1 & Ht1 & Hc1 & Hd1 & Hp1).
        destruct (create_listed oracle cfg Hq r x w1 p [] Hu Hl Hp1)
          as (t2 & Hc2 & Hrun2).
        eexists w1, _, (t1 ++ t2).
        split_and!; [done|exact Hrun2|done| |done| |].
        -- cbn [service]. by rewrite Hp1.
        -- cbn [trace]. by rewrite Ht1, app_assoc.
        -- rewrite creations_app. lia.
      * destruct (create_listed oracle cfg Hq r x w p [] Hu Hl Hlisted)
          as (t1 & Hc1 & Hrun1).
        set (w1 := {| service := service w; trace := trace w ++ t1;
                      slept := slept w |}) in *.
        destruct (create_listed oracle cfg Hq r x w1 p [] Hu Hl Hlisted)
          as (t2 & Hc2 & Hrun2).
        eexists w1, _, (t1 ++ t2).
        split_and!; [done|exact Hrun2|done| |done| |].
        -- subst w1. cbn [service]. by rewrite Hlisted.
        -- subst w1. cbn [trace]. by rewrite app_assoc.
        -- rewrite creations_app. lia.
      * simpl in Hone. lia.
Qed.

Lemma create_resource_idempotent_witness :
  let r := Scenario.resource_of "abc 123" in
  let w := Scenario.world_of Scenario.fresh in
  let w0 := Scenario.world_of ScenarioExtra.bare in
  let w1 := (_create_resource_in_backend Scenario.quiet Config.default r w).2 in
  (exists w2,
     _create_resource_in_backend Scenario.quiet Config.default r w1
     = (Ok "abc 123", w2)
     /\ service w2 = service w1)
  /\ (exists w1 w2 t,
        _create_resource_in_backend Scenario.quiet Config.default r w
        = (Ok "abc 123", w1)
        /\ _create_resource_in_backend Scenario.quiet Config.default r w1
           = (Ok "abc 123", w2)
        /\ service w2 = service w1
        /\ length (listed Config.default "abc_123" (service w2)) = 1%nat
        /\ (listed Config.default "abc_123" (service w) = [] ->
            configured Config.default (service w2) <> None)
        /\ trace w2 = [] ++ t
        /\ (creations t <= 1)%nat)
  /\ (exists w1 w2 t,
        _create_resource_in_backend Scenario.quiet Config.default r w0
        = (Ok "abc 123", w1)
        /\ _create_resource_in_backend Scenario.quiet Config.default r w1
           = (Ok "abc 123", w2)
        /\ service w2 = service w1
        /\ length (listed Config.default "abc_123" (service w2)) = 1%nat
        /\ (listed Config.default "abc_123" (service w0) = [] ->
            configured Config.default (service w2) <> None)
        /\ trace w2 = [] ++ t
        /\ (creations t <= 1)%nat).
Proof.
  intros r w w0 w1.
  pose proof (create_resource_idempotent Scenario.quiet Config.default r w)
    as [Hagain Htwice].
  pose proof (create_resource_idempotent Scenario.quiet Config.default r w0)
    as [_ Hbare].
  split_and!.
  - edestruct (Hagain "abc 123" w1) as (Hrun & Hs & _);
      [vm_compute; reflexivity|vm_compute; reflexivity|].
    eexists. split; [exact Hrun|exact Hs].
  - apply (Htwice "abc 123"); [reflexivity|reflexivity|simpl; lia|].
    vm_compute. lia.
  - apply (Hbare "abc 123"); [reflexivity|reflexivity|simpl; lia|].
    vm_compute. lia.
Defined.

End CreationProofs.

(** ** Further properties of the retry decorator *)

Module RetryExtra.
Import Py Retry RetryLog RetryProofs.

Lemma py_range_empty lo hi : (hi <= lo)%Z -> py_range lo hi = [].
Proof.
  intros H. unfold py_range.
  replace (Z.to_nat (hi - lo)) with 0%nat by lia. done.
Qed.

Lemma py_range_length lo hi : length (py_range lo hi) = Z.to_nat (hi - lo).
Proof. unfold py_range. by rewrite length_map, length_seq. Qed.

Section Loop.
Context {W A num : Type}.
Variable arith : Arith num.
Variable sleep : num -> W -> W.
Variable max_attempts : Z.
Variables base_delay max_delay exponential_base : num.
Variable exceptions : exn -> bool.
Variable func : W -> outcome A * W.

Lemma loop_uncaught k last w e w' :
  (k <= max_attempts)%Z -> func w = (Raise e, w') -> exceptions e = false ->
  loop_from arith sleep max_attempts base_delay max_delay exponential_base
    exceptions func k last w = (Raise e, w').
Proof.
  intros Hk Hf He. unfold loop_from.
  rewrite py_range_cons by lia. cbn [attempts_loop]. by rewrite Hf, He.
Qed.

Lemma delay_capped k d :
  (forall x, lt arith x x = false) ->
  delay arith base_delay max_delay exponential_base k = Ok d ->
  lt arith max_delay d = false.
Proof.
  intros Hirr. unfold delay, py_min.
  destruct (pow arith exponential_base (k - 1)) as [p|]; [|done].
  destruct (mul arith base_delay p) as [m|]; [|done].
  destruct (lt arith max_delay m) eqn:E; intros [= <-]; [apply Hirr|done].
Qed.
End Loop.

(** X1. With [max_attempts <= 0] the decorated function never calls the
    operation: the loop body does not run and the wrapper raises
    [RuntimeError("Unexpected retry logic error")] in the world it was
    given. *)
Theorem retry_without_attempts {W A num : Type} (arith : Arith num)
    (sleep : num -> W -> W)
    (max_attempts : Z) (base_delay max_delay exponential_base : num)
    (exceptions : exn -> bool) (func : W -> outcome A * W) (w : W) :
  (max_attempts <= 0)%Z ->
  wrapper arith sleep max_attempts base_delay max_delay exponential_base
    exceptions func w
  = (Raise (RuntimeError "Unexpected retry logic error"), w).
Proof.
  intros H. unfold wrapper, loop_from. by rewrite py_range_empty by lia.
Qed.

Lemma retry_without_attempts_witness :
  wrapper ints flaky_sleep 0 1%Z 60%Z 2%Z any_exception (flaky 0)
    (0%nat, [])
  = (Raise (RuntimeError "Unexpected retry logic error"), (0%nat, [])).
Proof.
  apply (retry_without_attempts ints flaky_sleep 0 1%Z 60%Z 2%Z
           any_exception (flaky 0)).
  lia.
Defined.

(** X2. A failure that the [except] filter does not catch leaves the
    wrapper at once: it is raised unchanged after the first call, without
    any sleep and without a second attempt. *)
Theorem retry_uncaught_is_immediate {W A num : Type} (arith : Arith num)
    (sleep : num -> W -> W)
    (max_attempts : Z) (base_delay max_delay exponential_base : num)
    (exceptions : exn -> bool) (func : W -> outcome A * W) (w : W)
    (e : exn) (w' : W) :
  (1 <= max_attempts)%Z ->
  func w = (Raise e, w') -> exceptions e = false ->
  wrapper arith sleep max_attempts base_delay max_delay exponential_base
    exceptions func w = (Raise e, w').
Proof. intros Hm Hf He. by apply loop_uncaught. Qed.

Lemma retry_uncaught_is_immediate_witness :
  wrapper ints flaky_sleep 3 1%Z 60%Z 2%Z only_service_errors fatal
    (0%nat, [])
  = (Raise (ValueError "bad argument"), (1%nat, [])).
Proof.
  apply (retry_uncaught_is_immediate ints flaky_sleep 3 1%Z 60%Z 2%Z
           only_service_errors fatal (0%nat, [])); [lia|done|done].
Defined.

Section Counting.
Context {St A num : Type}.
Variable arith : Arith num.
Variable max_attempts : Z.
Variables base_delay max_delay exponential_base : num.
Variable exceptions : exn -> bool.
Variable func : St -> outcome A * St.

Abbreviation counted_loop :=
  (loop_from arith counted_sleep max_attempts base_delay max_delay
     exponential_base exceptions (counted_func func)).
Abbreviation delay_at :=
  (delay arith base_delay max_delay exponential_base).

Abbreviation slept_after :=
  (RetryLog.slept_after arith base_delay max_delay exponential_base).

Lemma counted_loop_bounds n :
  forall k, Z.to_nat (max_attempts - k) = n -> (k <= max_attempts)%Z ->
  forall last s c ds,
  exists r s' j ds',
    (1 <= j)%nat /\ (k + Z.of_nat j - 1 <= max_attempts)%Z
    /\ counted_loop k last (s, (c, ds))
       = (r, (s', ((c + j)%nat, ds ++ ds')))
    /\ Forall2 slept_after ds' (py_range k (k + Z.of_nat j - 1)).
Proof.
  induction n as [|n IH]; intros k Hn Hk last s c ds.
  - assert (k = max_attempts) as -> by lia.
    destruct (func s) as [[v|e] s1] eqn:Ef.
    + exists (Ok v), s1, 1%nat, []. split_and!; [lia|lia| |].
      * rewrite (loop_success _ _ _ _ _ _ _ _ _ _ _ v (s1, (S c, ds)))
          by (done || unfold counted_func; simpl; by rewrite Ef).
        by rewrite app_nil_r, Nat.add_1_r.
      * rewrite py_range_empty by lia. constructor.
    + exists (Raise e), s1, 1%nat, []. split_and!; [lia|lia| |].
      * rewrite (loop_last _ _ _ _ _ _ _ _ _ _ e (s1, (S c, ds)))
          by (unfold counted_func; simpl; by rewrite Ef).
        by rewrite app_nil_r, Nat.add_1_r.
      * rewrite py_range_empty by lia. constructor.
  - destruct (func s) as [[v|e] s1] eqn:Ef.
    + exists (Ok v), s1, 1%nat, []. split_and!; [lia|lia| |].
      * rewrite (loop_success _ _ _ _ _ _ _ _ _ _ _ v (s1, (S c, ds)))
          by (done || unfold counted_func; simpl; by rewrite Ef).
        by rewrite app_nil_r, Nat.add_1_r.
      * rewrite py_range_empty by lia. constructor.
    + destruct (exceptions e) eqn:Ee.
      * destruct (back_off arith counted_sleep base_delay max_delay
                    exponential_base k (s1, (S c, ds)))
          as [[[]|e'] w1] eqn:Eb.
        -- pose proof (back_off_inv _ _ _ _ _ _ _ _ _ Eb)
             as (d & Hd & Hfm & Hsl & ->).
           destruct (IH (k + 1)%Z ltac:(lia) ltac:(lia) (Some e) s1 (S c)
                       (ds ++ [d])) as (r & s' & j & ds' & Hj & Hle & Hrun & Hall).
           exists r, s', (S j), (d :: ds'). split_and!; [lia|lia| |].
           ++ rewrite (loop_retry _ _ _ _ _ _ _ _ _ _ _ e (s1, (S c, ds))
                         (counted_sleep d (s1, (S c, ds))))
                by (lia || done || unfold counted_func; simpl; by rewrite Ef).
              etransitivity; [exact Hrun|].
              rewrite <- app_assoc. cbn [app].
              by replace (c + S j)%nat with (S c + j)%nat by lia.
           ++ rewrite (py_range_cons k) by lia.
              replace (k + Z.of_nat (S j) - 1)%Z
                with (k + 1 + Z.of_nat j - 1)%Z by lia.
              by constructor.
        -- pose proof (back_off_inv _ _ _ _ _ _ _ _ _ Eb) as ->.
           exists (Raise e'), s1, 1%nat, []. split_and!; [lia|lia| |].
           ++ rewrite (loop_abort _ _ _ _ _ _ _ _ _ _ _ e (s1, (S c, ds)) e'
                         (s1, (S c, ds)))
                by (lia || done || unfold counted_func; simpl; by rewrite Ef).
              by rewrite app_nil_r, Nat.add_1_r.
           ++ rewrite py_range_empty by lia. constructor.
      * exists (Raise e), s1, 1%nat, []. split_and!; [lia|lia| |].
        -- rewrite (loop_uncaught _ _ _ _ _ _ _ _ _ _ _ e (s1, (S c, ds)))
             by (done || unfold counted_func; simpl; by rewrite Ef).
           by rewrite app_nil_r, Nat.add_1_r.
        -- rewrite py_range_empty by lia. constructor.
Qed.
End Counting.

(** X3. For [max_attempts >= 1] and every arithmetic of the numbers the
    wrapper calls the operation at least once and at most [max_attempts]
    times; when it made [c] calls it slept [c - 1] times, the delays
    computed after the attempts [1 .. c - 1], in this order, each one
    accepted by the warning and by [time.sleep]; where [<] is irreflexive,
    [max_delay] is less than none of them. *)
Theorem retry_calls_and_sleeps_bounded {St A num : Type} (arith : Arith num)
    (max_attempts : Z) (base_delay max_delay exponential_base : num)
    (exceptions : exn -> bool) (func : St -> outcome A * St) (s : St) :
  (1 <= max_attempts)%Z ->
  (forall x, lt arith x x = false) ->
  exists r s' c ds,
    wrapper arith counted_sleep max_attempts base_delay max_delay
      exponential_base exceptions (counted_func func) (s, (0%nat, []))
    = (r, (s', (c, ds)))
    /\ (1 <= c)%nat /\ (Z.of_nat c <= max_attempts)%Z
    /\ length ds = (c - 1)%nat
    /\ Forall2 (slept_after arith base_delay max_delay exponential_base)
         ds (py_range 1 (Z.of_nat c))
    /\ Forall (fun d => lt arith max_delay d = false) ds.
Proof.
  intros Hm Hirr.
  destruct (counted_loop_bounds arith max_attempts base_delay max_delay
              exponential_base exceptions func
              (Z.to_nat (max_attempts - 1)) 1 eq_refl Hm None s 0%nat [])
    as (r & s' & j & ds & Hj & Hle & Hrun & Hall).
  replace (1 + Z.of_nat j - 1)%Z with (Z.of_nat j) in * by lia.
  exists r, s', j, ds. unfold wrapper. rewrite Hrun. cbn [app Nat.add].
  split_and!; [done|done|lia| |exact Hall|].
  - rewrite (Forall2_length _ _ _ Hall), py_range_length. lia.
  - clear Hrun. induction Hall as [|d k ds ks (Hd & _) _ IH];
      constructor; [|exact IH].
    by eapply delay_capped.
Qed.

Lemma retry_calls_and_sleeps_bounded_witness :
  exists r s' c ds,
    wrapper ints counted_sleep 3 1%Z 60%Z 2%Z any_exception
      (counted_func (fun n : nat =>
                       if (n <? 1)%nat
                       then (Raise (ServiceError "busy" None None), S n)
                       else (Ok n, S n)))
      (0%nat, (0%nat, []))
    = (r, (s', (c, ds)))
    /\ (1 <= c)%nat /\ (Z.of_nat c <= 3)%Z
    /\ length ds = (c - 1)%nat
    /\ Forall2 (slept_after ints 1%Z 60%Z 2%Z) ds (py_range 1 (Z.of_nat c))
    /\ Forall (fun d => lt ints 60%Z d = false) ds.
Proof.
  apply (retry_calls_and_sleeps_bounded ints 3 1%Z 60%Z 2%Z any_exception);
    [lia|apply Z.ltb_irrefl].
Defined.

End RetryExtra.

(** ** Further properties of the sanitizer and of the generated user names *)

Module SanitizeExtra.
Import Py Sanitize SanitizeProofs.

(** X5. The names [sanitize_for_openstack] leaves untouched are exactly the
    non-empty strings over [[A-Za-z0-9_.-]] that start with an alphanumeric
    character and are not made of digits only. *)
Theorem sanitize_fixed_points (s : string) :
  sanitize_for_openstack s = s
  <-> all_chars is_valid s = true /\ head_alnum s = true
      /\ isdigit s = false /\ is_empty s = false.
Proof.
  split.
  - intros E. pose proof (sanitize_invariant s) as H. cbv zeta in H.
    by rewrite E in H.
  - intros (Hv & Hh & Hd & He). by apply sanitize_fix.
Qed.

Lemma sanitize_fixed_points_witness :
  sanitize_for_openstack "abc-123" = "abc-123".
Proof.
  apply (sanitize_fixed_points "abc-123"). vm_compute. auto.
Defined.

Lemma length_replace_spaces s :
  String.length (replace_spaces s) = String.length s.
Proof. induction s as [|c t IH]; simpl; [done|]. by rewrite IH. Qed.

Lemma length_remove_invalid s :
  (String.length (remove_invalid s) <= String.length s)%nat.
Proof.
  induction s as [|c t IH]; simpl; [done|].
  destruct (is_valid c); simpl; lia.
Qed.

Lemma length_strip_leading s :
  (String.length (strip_leading s) <= String.length s)%nat.
Proof.
  induction s as [|c t IH]; simpl; [done|].
  destruct (is_alnum c); simpl; lia.
Qed.

Lemma length_app s t :
  String.length (s +:+ t) = (String.length s + String.length t)%nat.
Proof. induction s as [|c s IH]; simpl; [done|]. by rewrite IH. Qed.

Lemma ascii_digit_facts c :
  Username.is_ascii_digit c = true ->
  Ascii.eqb c " " = false /\ is_valid c = true /\ is_alnum c = true
  /\ char_isdigit c = true.
Proof.
  unfold Username.is_ascii_digit.
  destruct c as [[] [] [] [] [] [] [] []]; vm_compute; try discriminate; done.
Qed.

Lemma digits_steps s :
  all_chars Username.is_ascii_digit s = true ->
  strip_leading (remove_invalid (replace_spaces s)) = s
  /\ all_chars char_isdigit s = true.
Proof.
  induction s as [|c t IH]; simpl; [done|].
  intros [Hc Ht]%andb_true_iff.
  destruct (ascii_digit_facts c Hc) as (Hsp & Hv & Ha & Hd).
  destruct (IH Ht) as [Hsteps Hall].
  rewrite Hsp, Hv. simpl. rewrite Ha, Hd, Hall. split; [|done].
  f_equal. clear -Ht. induction t as [|c t IH]; simpl; [done|].
  simpl in Ht. apply andb_true_iff in Ht as [Hc Ht].
  destruct (ascii_digit_facts c Hc) as (Hsp & Hv & _ & _).
  by rewrite Hsp, Hv, IH.
Qed.

(** X6. A sanitized name is at most 8 characters longer than the input, or
    is the 22-character fallback; the bound is reached by every non-empty
    string of ASCII digits, which becomes [project_] followed by the
    input. *)
Theorem sanitize_length_bound (s : string) :
  (String.length (sanitize_for_openstack s)
   <= Nat.max (String.length s + 8) 22)%nat
  /\ (is_empty s = false -> all_chars Username.is_ascii_digit s = true ->
      sanitize_for_openstack s = "project_" +:+ s
      /\ String.length (sanitize_for_openstack s) = (String.length s + 8)%nat).
Proof.
  split.
  - pose proof (length_strip_leading (remove_invalid (replace_spaces s))).
    pose proof (length_remove_invalid (replace_spaces s)).
    pose proof (length_replace_spaces s).
    destruct (sanitize_cases s) as [[_ ->]|[[_ ->]|(_ & _ & ->)]].
    + rewrite length_app. simpl String.length. lia.
    + simpl. lia.
    + lia.
  - intros He Hd. destruct (digits_steps s Hd) as [Hsteps Hall].
    assert (E : sanitize_for_openstack s = "project_" +:+ s).
    { unfold sanitize_for_openstack. rewrite Hsteps.
      unfold isdigit. destruct s as [|c t]; [done|]. by rewrite Hall. }
    split; [done|]. rewrite E, length_app. simpl. lia.
Qed.

Lemma sanitize_length_bound_witness :
  sanitize_for_openstack "20240117" = "project_20240117"
  /\ String.length (sanitize_for_openstack "20240117") = 16%nat.
Proof.
  apply (proj2 (sanitize_length_bound "20240117")); reflexivity.
Defined.

Lemma before_at_domain l d : Username.before_at (l +:+ String "@" d)
                             = Username.before_at l.
Proof.
  induction l as [|c l IH]; simpl; [done|].
  destruct (Ascii.eqb c "@"); [done|]. by rewrite IH.
Qed.

(** X7. [generate_username] raises exactly when the e-mail address is
    missing or empty; otherwise it returns the sanitized text before the
    first [@], so its second [ValueError] can never be raised and two
    addresses with the same local part get the same user name whatever
    their domains and their users. *)
Theorem generate_username_local_part :
  (forall ou,
      match Username.generate_username ou with
      | Ok username =>
          exists email,
            Backend.attr (Username.user_email ou) = Some email
            /\ username = sanitize_for_openstack (Username.before_at email)
      | Raise e =>
          Backend.attr (Username.user_email ou) = None
          /\ e = ValueError ("No email address provided for user "
                             +:+ Username.uuid ou)
      end)
  /\ (forall l d1 d2 id1 id2,
        Username.generate_username
          {| Username.user_email := Some (l +:+ String "@" d1);
             Username.uuid := id1 |}
        = Username.generate_username
            {| Username.user_email := Some (l +:+ String "@" d2);
               Username.uuid := id2 |}).
Proof.
  split.
  - intros ou. unfold Username.generate_username.
    destruct (Backend.attr (Username.user_email ou)) as [email|]; [|done].
    destruct (sanitize_invariant (Username.before_at email))
      as (_ & _ & _ & ->). eauto.
  - intros l d1 d2 id1 id2. unfold Username.generate_username. simpl.
    assert (Hne : forall d, is_empty (l +:+ String "@" d) = false).
    { intros d. by destruct l. }
    rewrite !Hne, !before_at_domain.
    by destruct (sanitize_invariant (Username.before_at l))
      as (_ & _ & _ & ->).
Qed.

End SanitizeExtra.

(** ** Which exceptions leave which method *)

Module TaxonomyProofs.
Import Py Identity Effects Logic LogicProofs GatewayProofs MembershipProofs.
Import Outcomes.

Section Rules.
Context {A : Type} (P : exn -> bool).

Lemma never_raises_only (m : M A) : never_raises m -> raises_only P m.
Proof. intros H w e w' E. destruct (H w) as (a & w1 & E'). congruence. Qed.

Lemma raises_only_ret (a : A) : raises_only P (ret a).
Proof. by intros w e w'. Qed.

Lemma raises_only_raise e : P e = true -> raises_only P (@raise A e).
Proof. intros He w e' w' [= <- _]. done. Qed.

Lemma raises_only_bind {B} (m : M B) (k : B -> M A) :
  raises_only P m -> (forall b, raises_only P (k b)) ->
  raises_only P (bind m k).
Proof.
  intros Hm Hk w e w'. unfold bind.
  destruct (m w) as [[b|e1] w1] eqn:E.
  - apply Hk.
  - intros [= <- <-]. by eapply Hm.
Qed.

Lemma raises_only_try (m : M A) (h : exn -> M A) :
  (forall e, raises_only P (h e)) -> raises_only P (try_except m h).
Proof.
  intros Hh w e w'. unfold try_except.
  destruct (m w) as [[a|e1] w1]; [done|]. apply Hh.
Qed.

Lemma raises_only_loop (func : M A) n d l :
  raises_only P func ->
  Forall (fun k =>
            forall w, is_ok (Retry.back_off Retry.ints
                               (fun d => time_sleep (inject_Z d)) d 60%Z 2%Z
                               k w).1 = true) l ->
  forall last w e w',
    match last with Some e0 => P e0 = true | None => l <> [] end ->
    Retry.attempts_loop Retry.ints (fun d => time_sleep (inject_Z d)) n d
      60%Z 2%Z Retry.any_exception func l last w
    = (Raise e, w') ->
    P e = true.
Proof.
  intros Hf Hl. induction Hl as [|k l Hk _ IH]; intros last w e w' Hlast;
    simpl.
  - destruct last; [|done]. by intros [= <- _].
  - destruct (func w) as [[v|e1] w1] eqn:E; [done|].
    destruct (k =? n)%Z.
    + intros [= <- _]. by eapply Hf.
    + specialize (Hk w1).
      destruct (Retry.back_off _ _ _ _ _ k w1) as [[[]|e'] w2]; [|done].
      apply IH. by eapply Hf.
Qed.

Lemma raises_only_retry (func : M A) :
  raises_only P func -> raises_only P (retry_on_exception 3 1 func).
Proof.
  intros Hf w e w'. unfold retry_on_exception, Retry.wrapper, Retry.loop_from.
  apply raises_only_loop; [done| |done].
  repeat constructor.
Qed.
End Rules.

Lemma never_raises_retry {A} (func : M A) :
  never_raises func -> forall w, retry_on_exception 3 1 func w = func w.
Proof.
  intros Hf w. destruct (Hf w) as (a & w' & E). rewrite E.
  by apply retry_first_try.
Qed.

Section Keystone.
Variable oracle : nat -> KCall -> option exn.
Variable cfg : Config.OpenStackConfig.

Lemma get_domain_never name :
  never_raises (KeystoneClient.get_domain oracle name).
Proof. intros w. apply get_domain_total. Qed.

Lemma get_project_never name domain :
  never_raises (KeystoneClient.get_project oracle cfg name domain).
Proof. intros w. apply get_project_total. Qed.

Lemma get_user_never name domain :
  never_raises (KeystoneClient.get_user oracle cfg name domain).
Proof. intros w. apply get_user_total. Qed.

Lemma get_role_never name : never_raises (KeystoneClient.get_role oracle name).
Proof. intros w. apply get_role_total. Qed.

Lemma ensure_domain_kce name :
  raises_only is_keystone_client_error
    (KeystoneClient.ensure_domain oracle name).
Proof.
  unfold KeystoneClient.ensure_domain.
  apply raises_only_bind; [apply never_raises_only, get_domain_never|].
  intros [d|]; [apply raises_only_ret|]. apply raises_only_try.
  intros []; try by apply raises_only_raise.
  apply never_raises_only, get_domain_never.
Qed.

Lemma ensure_role_kce name :
  raises_only is_keystone_client_error
    (KeystoneClient.ensure_role oracle name).
Proof.
  unfold KeystoneClient.ensure_role.
  apply raises_only_bind; [apply never_raises_only, get_role_never|].
  intros [d|]; [apply raises_only_ret|]. apply raises_only_try.
  intros []; try by apply raises_only_raise.
  apply never_raises_only, get_role_never.
Qed.

Lemma create_project_except_kce name domain e :
  raises_only is_keystone_client_error
    (KeystoneClient.create_project_except oracle cfg name domain e).
Proof.
  unfold KeystoneClient.create_project_except.
  destruct e; try by apply raises_only_raise.
  apply never_raises_only, get_project_never.
Qed.

Lemma create_project_kce name domain description :
  raises_only is_keystone_client_error
    (KeystoneClient.create_project oracle cfg name domain description).
Proof.
  unfold KeystoneClient.create_project. apply raises_only_retry.
  intros w e w'. unfold KeystoneClient.create_project_func.
  destruct (match domain with
            | Some _ => _
            | None => _
            end) as [[d|e1] w1].
  - destruct (KeystoneClient.projects_create _ _ _ _ _ _) as [[p|e2] w2];
      [done|]. apply create_project_except_kce.
  - apply create_project_except_kce.
Qed.

Lemma ensure_user_except_kce name domain e :
  raises_only is_keystone_client_error
    (KeystoneClient.ensure_user_except oracle cfg name domain e).
Proof.
  unfold KeystoneClient.ensure_user_except.
  destruct e; try by apply raises_only_raise.
  apply never_raises_only, get_user_never.
Qed.

Lemma ensure_user_kce name email domain enabled :
  raises_only is_keystone_client_error
    (KeystoneClient.ensure_user oracle cfg name email domain enabled).
Proof.
  unfold KeystoneClient.ensure_user. apply raises_only_retry.
  unfold KeystoneClient.ensure_user_func.
  apply raises_only_bind; [apply never_raises_only, get_user_never|].
  intros [u|].
  - apply raises_only_bind; [|intros; apply raises_only_ret].
    destruct (KeystoneClient.email_to_sync _ _ _);
      [|apply raises_only_ret].
    apply raises_only_try. intros; apply raises_only_ret.
  - destruct (negb _); [by apply raises_only_raise|].
    intros w e w'.
    destruct (match domain with
              | Some _ => _
              | None => _
              end) as [[d|e1] w1].
    + destruct (KeystoneClient.users_create _ _ _ _ _ _) as [[p|e2] w2];
        [done|]. apply ensure_user_except_kce.
    + apply ensure_user_except_kce.
Qed.

Lemma assign_role_func_never user project role_name :
  never_raises (KeystoneClient.assign_role_func oracle user project role_name).
Proof.
  intros w. unfold KeystoneClient.assign_role_func, try_except.
  destruct (bind _ _ w) as [[b|e] w1]; [by eexists _, _|].
  destruct e; by eexists _, _.
Qed.

Lemma assign_role_never user project role_name :
  never_raises (KeystoneClient.assign_role oracle user project role_name).
Proof.
  intros w. unfold KeystoneClient.assign_role.
  rewrite never_raises_retry by apply assign_role_func_never.
  apply assign_role_func_never.
Qed.

Lemma delete_project_never name domain :
  never_raises (KeystoneClient.delete_project oracle cfg name domain).
Proof.
  intros w. unfold KeystoneClient.delete_project, try_except.
  destruct (bind _ _ w) as [[b|e] w1]; by eexists _, _.
Qed.

Lemma revoke_all_never user project :
  never_raises (KeystoneClient.revoke_all_project_roles oracle user project).
Proof.
  intros w. unfold KeystoneClient.revoke_all_project_roles, try_except.
  destruct (bind _ _ w) as [[b|e] w1]; by eexists _, _.
Qed.
End Keystone.

(** X8. Whatever the service does, the get-or-create operations of the
    gateway ([ensure_domain], [ensure_role], [create_project],
    [ensure_user]) let out no exception other than [KeystoneClientError],
    and [assign_role], [delete_project] and [revoke_all_project_roles] let
    out none at all: they answer with a boolean. *)
Theorem keystone_client_exceptions (oracle : nat -> KCall -> option exn)
    (cfg : Config.OpenStackConfig) :
  (forall name,
      raises_only is_keystone_client_error
        (KeystoneClient.ensure_domain oracle name))
  /\ (forall name,
        raises_only is_keystone_client_error
          (KeystoneClient.ensure_role oracle name))
  /\ (forall name domain description,
        raises_only is_keystone_client_error
          (KeystoneClient.create_project oracle cfg name domain description))
  /\ (forall name email domain enabled,
        raises_only is_keystone_client_error
          (KeystoneClient.ensure_user oracle cfg name email domain enabled))
  /\ (forall user project role_name,
        never_raises
          (KeystoneClient.assign_role oracle user project role_name))
  /\ (forall name domain,
        never_raises (KeystoneClient.delete_project oracle cfg name domain))
  /\ (forall user project,
        never_raises
          (KeystoneClient.revoke_all_project_roles oracle user project)).
Proof.
  split_and!; intros.
  - apply ensure_domain_kce.
  - apply ensure_role_kce.
  - apply create_project_kce.
  - apply ensure_user_kce.
  - apply assign_role_never.
  - apply delete_project_never.
  - apply revoke_all_never.
Qed.

#[export] Instance anything_refl : Reflexive anything.
Proof. by intros s. Qed.

#[export] Instance anything_trans : Transitive anything.
Proof. by intros a b c _ _. Qed.

(** Runs that do not sleep. *)
Section NoSleep.
Context {A : Type}.

Lemma no_sleep_bind {B} (m : M B) (k : B -> M A) :
  (forall w, slept (m w).2 = slept w) ->
  (forall b w, slept (k b w).2 = slept w) ->
  forall w, slept (bind m k w).2 = slept w.
Proof.
  intros Hm Hk w. unfold bind. specialize (Hm w).
  destruct (m w) as [[b|e] w1]; simpl in *; [|done].
  by rewrite Hk.
Qed.

Lemma no_sleep_try (m : M A) (h : exn -> M A) :
  (forall w, slept (m w).2 = slept w) ->
  (forall e w, slept (h e w).2 = slept w) ->
  forall w, slept (try_except m h w).2 = slept w.
Proof.
  intros Hm Hh w. unfold try_except. specialize (Hm w).
  destruct (m w) as [[b|e] w1]; simpl in *; [done|].
  by rewrite Hh.
Qed.

Lemma no_sleep_call oracle c (sem : Service -> outcome A * Service) w :
  slept (call oracle c sem w).2 = slept w.
Proof. unfold call. by destruct (oracle _ _). Qed.
End NoSleep.

Section AssignRole.
Variable oracle : nat -> KCall -> option exn.

Lemma get_role_no_sleep name w :
  slept (KeystoneClient.get_role oracle name w).2 = slept w.
Proof.
  unfold KeystoneClient.get_role. apply no_sleep_try; [|done].
  apply no_sleep_bind; [|done]. intros w1. apply no_sleep_call.
Qed.

Lemma ensure_role_no_sleep name w :
  slept (KeystoneClient.ensure_role oracle name w).2 = slept w.
Proof.
  unfold KeystoneClient.ensure_role.
  apply no_sleep_bind; [apply get_role_no_sleep|].
  intros [r|] w1; [done|]. apply no_sleep_try.
  - apply no_sleep_bind; [|done]. intros w2. apply no_sleep_call.
  - intros [] w2; try done. apply get_role_no_sleep.
Qed.

Lemma ensure_role_no_grant name :
  respects not_grant anything (KeystoneClient.ensure_role oracle name).
Proof.
  assert (Hget : respects not_grant anything
                   (KeystoneClient.get_role oracle name)).
  { unfold KeystoneClient.get_role, KeystoneClient.roles_list.
    apply respects_try; [|intros; apply respects_ret].
    apply respects_bind; [by apply respects_call|intros; apply respects_ret]. }
  unfold KeystoneClient.ensure_role. apply respects_bind; [done|].
  intros [r|]; [apply respects_ret|]. apply respects_try.
  - apply respects_bind; [|intros; apply respects_ret].
    unfold KeystoneClient.roles_create. by apply respects_call.
  - intros []; try apply respects_raise. done.
Qed.

Lemma roles_grant_once role user project w :
  slept (KeystoneClient.roles_grant oracle role user project w).2 = slept w
  /\ exists t,
       trace (KeystoneClient.roles_grant oracle role user project w).2
       = trace w ++ t
       /\ (length t <= 1)%nat.
Proof.
  unfold KeystoneClient.roles_grant.
  destruct user as [u|], project as [p|]; unfold raise; cbn [snd];
    try (split; [done|exists []; rewrite app_nil_r; split; [done|simpl; lia]]).
  unfold call. destruct (oracle _ _); simpl;
    (split; [done|eexists [_]; split; [done|simpl; lia]]).
Qed.

Lemma no_grant_filter t :
  Forall (fun x : KCall * bool => not_grant x.1 = true) t ->
  List.filter (fun x : KCall * bool => is_grant x.1) t = [].
Proof.
  induction 1 as [|[c b] t Hc _ IH]; simpl; [done|].
  unfold not_grant in Hc. simpl in Hc. by destruct (is_grant c).
Qed.

Lemma filter_length_le {B} (f : B -> bool) l :
  (length (List.filter f l) <= length l)%nat.
Proof. induction l as [|x l IH]; simpl; [done|]. destruct (f x); simpl; lia. Qed.
End AssignRole.

(** X9. [assign_role] makes a single attempt: whatever the service does it
    returns a boolean without sleeping, and its calls hold at most one
    grant, so a grant that failed is never tried again by the decorator
    around it. *)
Theorem assign_role_single_attempt (oracle : nat -> KCall -> option exn)
    (user : option User) (project : option Project) (role_name : string)
    (w : World) :
  exists b w' t,
    KeystoneClient.assign_role oracle user project role_name w = (Ok b, w')
    /\ slept w' = slept w
    /\ trace w' = trace w ++ t
    /\ (length (List.filter (fun x : KCall * bool => is_grant x.1) t)
        <= 1)%nat.
Proof.
  unfold KeystoneClient.assign_role.
  rewrite never_raises_retry by apply assign_role_func_never.
  unfold KeystoneClient.assign_role_func, try_except, bind.
  pose proof (ensure_role_no_sleep oracle role_name w) as Hs.
  destruct (ensure_role_no_grant oracle role_name w) as (t1 & Ht1 & Hall & _).
  destruct (KeystoneClient.ensure_role oracle role_name w) as [[role|e] w1];
    simpl in Hs, Ht1.
  - destruct (roles_grant_once oracle role user project w1)
      as (Hs2 & t2 & Ht2 & Hlen).
    assert (Hcount :
      (length (List.filter (fun x : KCall * bool => is_grant x.1) (t1 ++ t2))
       <= 1)%nat).
    { rewrite List.filter_app, (no_grant_filter _ Hall). simpl.
      etransitivity; [apply filter_length_le|done]. }
    destruct (KeystoneClient.roles_grant oracle role user project w1)
      as [[[]|e] w2]; simpl in Hs2, Ht2.
    + exists true, w2, (t1 ++ t2).
      split_and!; [done|congruence|by rewrite Ht2, Ht1, app_assoc|done].
    + exists (match e with Conflict _ _ => true | _ => false end), w2,
        (t1 ++ t2).
      split_and!; [by destruct e|congruence
                  |by rewrite Ht2, Ht1, app_assoc|done].
  - exists (match e with Conflict _ _ => true | _ => false end), w1, t1.
    split_and!; [by destruct e|done|done|].
    rewrite (no_grant_filter _ Hall). simpl. lia.
Qed.

Section Client.
Variable oracle : nat -> KCall -> option exn.
Variable cfg : Config.OpenStackConfig.

Lemma try_never {A} (m : M A) (h : exn -> M A) :
  (forall e, never_raises (h e)) -> never_raises (try_except m h).
Proof.
  intros Hh w. unfold try_except.
  destruct (m w) as [[a|e] w1]; [by eexists _, _|]. apply Hh.
Qed.

Lemma ret_never {A} (a : A) : never_raises (ret a).
Proof. intros w. by eexists _, _. Qed.
End Client.

(** X10. Above the gateway the classes are fixed as well.  The lookups of
    [OpenStackClient] never raise; its mutating methods let out nothing but
    [KeystoneClientError].  [_create_resource_in_backend] and
    [delete_resource] let out nothing but [BackendError]; the two
    membership methods do so too for every identifier of at most 255
    characters, and never raise at all on a blank identifier. *)
Theorem client_and_backend_exceptions (oracle : nat -> KCall -> option exn)
    (cfg : Config.OpenStackConfig) :
  (forall name, never_raises (OpenStackClient.get_resource oracle cfg name))
  /\ (forall name, never_raises (OpenStackClient.get_project oracle cfg name))
  /\ (forall name, never_raises (OpenStackClient.get_domain oracle name))
  /\ (forall name, never_raises (OpenStackClient.get_role oracle name))
  /\ (forall name description,
        raises_only is_keystone_client_error
          (OpenStackClient.create_project oracle cfg name description))
  /\ (forall name,
        raises_only is_keystone_client_error
          (OpenStackClient.delete_resource oracle cfg name))
  /\ (forall username resource_id,
        raises_only is_keystone_client_error
          (OpenStackClient.create_association oracle cfg username resource_id))
  /\ (forall username resource_id,
        raises_only is_keystone_client_error
          (OpenStackClient.delete_association oracle cfg username resource_id))
  /\ (forall r,
        raises_only is_backend_error
          (Backend._create_resource_in_backend oracle cfg r))
  /\ (forall r,
        raises_only is_backend_error (Backend.delete_resource oracle cfg r))
  /\ (forall id users,
        (String.length id <= 255)%nat ->
        raises_only is_backend_error
          (Backend.add_users_to_resource oracle cfg id users)
        /\ raises_only is_backend_error
             (Backend.remove_users_from_resource oracle cfg id users))
  /\ (forall id users,
        Backend.blank id = true ->
        never_raises (Backend.add_users_to_resource oracle cfg id users)
        /\ never_raises
             (Backend.remove_users_from_resource oracle cfg id users)).
Proof.
  split_and!.
  - intros name w. apply get_resource_total.
  - intros name. apply try_never. intros; apply ret_never.
  - intros name. apply try_never. intros; apply ret_never.
  - intros name. apply try_never. intros; apply ret_never.
  - intros. apply raises_only_try. by intros; apply raises_only_raise.
  - intros. apply raises_only_try. by intros; apply raises_only_raise.
  - intros. apply raises_only_try. by intros; apply raises_only_raise.
  - intros. apply raises_only_try. by intros; apply raises_only_raise.
  - intros. apply raises_only_try. intros []; by apply raises_only_raise.
  - intros. apply raises_only_try. by intros; apply raises_only_raise.
  - intros id users Hl.
    unfold Backend.add_users_to_resource, Backend.remove_users_from_resource.
    destruct (Backend.blank id) eqn:Hb;
      [split; apply raises_only_ret|].
    rewrite validate_ok by auto using not_blank_not_empty.
    split; apply raises_only_try; by intros; apply raises_only_raise.
  - intros id users Hb.
    unfold Backend.add_users_to_resource, Backend.remove_users_from_resource.
    rewrite Hb. split; apply ret_never.
Qed.

Lemma client_and_backend_exceptions_witness :
  raises_only is_backend_error
    (Backend.add_users_to_resource Scenario.unreachable Config.default
       "abc-123" ["alice"])
  /\ never_raises
       (Backend.remove_users_from_resource Scenario.unreachable
          Config.default "  " ["alice"]).
Proof.
  pose proof (client_and_backend_exceptions Scenario.unreachable
                Config.default) as (_&_&_&_&_&_&_&_&_&_& Hlen & Hblank).
  split.
  - apply (Hlen "abc-123" ["alice"]). simpl. lia.
  - apply (Hblank "  " ["alice"]). reflexivity.
Defined.

End TaxonomyProofs.

(** ** Users: creation switched off, and the synchronisation of addresses *)

Module UserProofs.
Import Py Identity Effects Logic LogicProofs GatewayProofs MembershipProofs.
Import Outcomes TaxonomyProofs.

Section Users.
Variable oracle : nat -> KCall -> option exn.
Variable cfg : Config.OpenStackConfig.

Lemma get_domain_no_sleep name w :
  slept (KeystoneClient.get_domain oracle name w).2 = slept w.
Proof.
  unfold KeystoneClient.get_domain. apply no_sleep_try; [|done].
  apply no_sleep_bind; [|done]. intros w1. apply no_sleep_call.
Qed.

Lemma configured_domain_no_sleep domain w :
  slept (KeystoneClient.configured_domain oracle cfg domain w).2 = slept w.
Proof.
  unfold KeystoneClient.configured_domain.
  destruct domain; [done|apply get_domain_no_sleep].
Qed.

Lemma get_user_no_sleep name domain w :
  slept (KeystoneClient.get_user oracle cfg name domain w).2 = slept w.
Proof.
  unfold KeystoneClient.get_user. apply no_sleep_try; [|done].
  apply no_sleep_bind; [apply configured_domain_no_sleep|].
  intros d w1. apply no_sleep_bind; [|done]. intros w2. apply no_sleep_call.
Qed.

Lemma get_project_no_sleep name domain w :
  slept (KeystoneClient.get_project oracle cfg name domain w).2 = slept w.
Proof.
  unfold KeystoneClient.get_project. apply no_sleep_try; [|done].
  apply no_sleep_bind; [apply configured_domain_no_sleep|].
  intros d w1. apply no_sleep_bind; [|done]. intros w2. apply no_sleep_call.
Qed.

(** The message of the refusal. *)
Lemma ensure_user_func_refuses username email domain enabled w :
  Config.create_users_if_not_exist cfg = false ->
  no_user_named username (service w) ->
  exists w',
    KeystoneClient.ensure_user_func oracle cfg username email domain enabled w
    = (Raise (KeystoneClientError
                ("User " +:+ username
                 +:+ " not found and auto-creation disabled")), w')
    /\ extends is_lookup eq w w' /\ slept w' = slept w.
Proof.
  intros Hoff Hno. unfold KeystoneClient.ensure_user_func, bind.
  pose proof (get_user_no_sleep username domain w) as Hs.
  destruct (get_user_absent oracle cfg username domain w Hno)
    as (w' & E & Hext).
  rewrite E in Hs |- *. rewrite Hoff. simpl. eauto.
Qed.
End Users.

(** X11. With [create_users_if_not_exist] off and no user of that name in
    the service, [ensure_user] raises [KeystoneClientError] with the
    not-found message, but only after the decorator has run the refusal
    three times and slept 1 and then 2 seconds in between; it makes lookups
    only and leaves the service unchanged. *)
Theorem ensure_user_refusal_is_retried (oracle : nat -> KCall -> option exn)
    (cfg : Config.OpenStackConfig) (username : string)
    (email : option string) (domain : option Domain) (enabled : option bool)
    (w : World) :
  Config.create_users_if_not_exist cfg = false ->
  no_user_named username (service w) ->
  exists w' t,
    KeystoneClient.ensure_user oracle cfg username email domain enabled w
    = (Raise (KeystoneClientError
                ("User " +:+ username
                 +:+ " not found and auto-creation disabled")), w')
    /\ service w' = service w
    /\ slept w' = slept w ++ [1%Q; 2%Q]
    /\ (Retry.total [1%Q; 2%Q] == 3)%Q
    /\ trace w' = trace w ++ t
    /\ Forall (fun x => is_lookup x.1 = true) t.
Proof.
  intros Hoff Hno.
  destruct (ensure_user_func_refuses oracle cfg username email domain enabled
              w Hoff Hno) as (w1 & E1 & X1 & S1).
  set (s1 := time_sleep 1%Q w1).
  assert (Hno1 : no_user_named username (service s1)).
  { subst s1. simpl. by rewrite (extends_service_eq _ _ _ X1). }
  destruct (ensure_user_func_refuses oracle cfg username email domain enabled
              s1 Hoff Hno1) as (w2 & E2 & X2 & S2).
  set (s2 := time_sleep 2%Q w2).
  assert (Hno2 : no_user_named username (service s2)).
  { subst s2. simpl. by rewrite (extends_service_eq _ _ _ X2). }
  destruct (ensure_user_func_refuses oracle cfg username email domain enabled
              s2 Hoff Hno2) as (w3 & E3 & X3 & S3).
  assert (Hext : extends is_lookup eq w w3).
  { eapply extends_trans; [exact X1|].
    eapply extends_trans; [apply (extends_sleep 1%Q)|].
    eapply extends_trans; [exact X2|].
    eapply extends_trans; [apply (extends_sleep 2%Q)|].
    exact X3. }
  destruct Hext as (t & Ht & Hall & Hs).
  exists w3, t. split_and!; [|done| |done|done|done].
  - unfold KeystoneClient.ensure_user, retry_on_exception, Retry.wrapper.
    rewrite (RetryProofs.loop_retry _ _ _ _ _ _ _ _ 1%Z None w _ w1 s1)
      by done.
    rewrite (RetryProofs.loop_retry _ _ _ _ _ _ _ _ 2%Z _ s1 _ w2 s2)
      by done.
    change (2 + 1)%Z with 3%Z.
    by apply RetryProofs.loop_last.
  - rewrite S3. subst s2. simpl. rewrite S2. subst s1. simpl. rewrite S1.
    by rewrite <- app_assoc.
Qed.

Lemma ensure_user_refusal_is_retried_witness :
  exists w' t,
    KeystoneClient.ensure_user Scenario.quiet ScenarioExtra.no_auto_create
      "dave" None None None (Scenario.world_of Scenario.populated)
    = (Raise (KeystoneClientError
                "User dave not found and auto-creation disabled"), w')
    /\ service w' = Scenario.populated
    /\ slept w' = [] ++ [1%Q; 2%Q]
    /\ (Retry.total [1%Q; 2%Q] == 3)%Q
    /\ trace w' = [] ++ t
    /\ Forall (fun x => is_lookup x.1 = true) t.
Proof.
  apply (ensure_user_refusal_is_retried Scenario.quiet
           ScenarioExtra.no_auto_create "dave" None None None
           (Scenario.world_of Scenario.populated)).
  - reflexivity.
  - apply RemovalProofs.populated_no_dave.
Defined.

(** X12. When the lookup finds the user, [ensure_user] returns that user at
    the first attempt and without sleeping, also when the update of the
    stored address fails: the failure is swallowed. *)
Theorem ensure_user_returns_found_user (oracle : nat -> KCall -> option exn)
    (cfg : Config.OpenStackConfig) (username : string)
    (email : option string) (domain : option Domain) (enabled : option bool)
    (w : World) (u : User) (w1 : World) :
  KeystoneClient.get_user oracle cfg username domain w = (Ok (Some u), w1) ->
  exists w2,
    KeystoneClient.ensure_user oracle cfg username email domain enabled w
    = (Ok (Some u), w2)
    /\ slept w2 = slept w
    /\ (KeystoneClient.email_to_sync cfg u email = None -> w2 = w1).
Proof.
  intros Hget.
  pose proof (get_user_no_sleep oracle cfg username domain w) as Hs.
  rewrite Hget in Hs. simpl in Hs.
  unfold KeystoneClient.ensure_user.
  destruct (KeystoneClient.email_to_sync cfg u email) as [e|] eqn:Esync.
  - destruct (KeystoneClient.users_update oracle u e w1) as [r w2] eqn:Eup.
    exists w2. split_and!; [| |done].
    + apply retry_first_try.
      unfold KeystoneClient.ensure_user_func, bind. rewrite Hget, Esync.
      unfold try_except. rewrite Eup. by destruct r.
    + pose proof (no_sleep_call oracle (CUsersUpdate (user_id u) e)
                    (users_update_sem (user_id u) e) w1) as Hc.
      unfold KeystoneClient.users_update in Eup. rewrite Eup in Hc.
      simpl in Hc. congruence.
  - exists w1. split_and!; [|done|done].
    apply retry_first_try.
    unfold KeystoneClient.ensure_user_func, bind. by rewrite Hget, Esync.
Qed.

Lemma ensure_user_returns_found_user_witness :
  exists w2,
    KeystoneClient.ensure_user ScenarioExtra.update_fails Config.default
      "erin" (Some "erin@new.example") None None
      (Scenario.world_of ScenarioExtra.mailing)
    = (Ok (Some ScenarioExtra.erin), w2)
    /\ slept w2 = []
    /\ service w2 = ScenarioExtra.mailing.
Proof.
  edestruct (ensure_user_returns_found_user ScenarioExtra.update_fails
               Config.default "erin" (Some "erin@new.example") None None
               (Scenario.world_of ScenarioExtra.mailing))
    as (w2 & Hrun & Hs & _); [vm_compute; reflexivity|].
  exists w2. split_and!; [exact Hrun|exact Hs|].
  assert (E : w2 = (KeystoneClient.ensure_user ScenarioExtra.update_fails
                      Config.default "erin" (Some "erin@new.example") None
                      None (Scenario.world_of ScenarioExtra.mailing)).2)
    by (by rewrite Hrun).
  rewrite E. vm_compute. reflexivity.
Defined.

End UserProofs.

(** ** Deleting a resource, and reading its metadata *)

Module DeletionProofs.
Import Py Identity Effects Logic LogicProofs GatewayProofs MembershipProofs.
Import Sanitize Backend Outcomes TaxonomyProofs CreationProofs.

Lemma head_filter_in {A} (f : A -> bool) l x :
  head (List.filter f l) = Some x -> In x l /\ f x = true.
Proof.
  intros H. assert (Hin : In x (List.filter f l)).
  { destruct (List.filter f l); [done|]. injection H as ->. by left. }
  by apply List.filter_In in Hin.
Qed.

Section Deletion.
Variable oracle : nat -> KCall -> option exn.
Variable cfg : Config.OpenStackConfig.

(** A project that [get_project] returns is a project of the service and
    carries the name asked for. *)
Lemma get_project_found name domain w p w1 :
  KeystoneClient.get_project oracle cfg name domain w = (Ok (Some p), w1) ->
  In p (projects (service w)) /\ project_name p = name
  /\ service w1 = service w.
Proof.
  intros Hget.
  pose proof (get_project_lookup oracle cfg name domain w) as Hext.
  rewrite Hget in Hext. apply extends_service_eq in Hext.
  revert Hget. unfold KeystoneClient.get_project, try_except, bind.
  pose proof (configured_domain_lookup oracle cfg domain w) as Hd.
  destruct (configured_domain_total oracle cfg domain w) as (d & w0 & E).
  rewrite E in Hd |- *. simpl in Hd. apply extends_service_eq in Hd.
  unfold KeystoneClient.projects_list, call.
  destruct (oracle _ _); simpl; [done|].
  intros [= Hhead _]. rewrite Hd in Hhead.
  apply head_filter_in in Hhead as [Hin Hm]. split_and!; [done| |done].
  unfold project_matches in Hm. apply andb_true_iff in Hm as [Hn _].
  by apply String.eqb_eq.
Qed.

Lemma delete_project_effect name domain w :
  exists b w',
    KeystoneClient.delete_project oracle cfg name domain w = (Ok b, w')
    /\ (service w' = service w
        \/ exists p, In p (projects (service w)) /\ project_name p = name
                     /\ projects_delete_sem (project_id p) (service w)
                        = (Ok tt, service w')).
Proof.
  unfold KeystoneClient.delete_project, try_except, bind.
  destruct (get_project_total oracle cfg name domain w) as ([p|] & w1 & E);
    rewrite E.
  - destruct (get_project_found name domain w p w1 E) as (Hin & Hn & Hs).
    unfold KeystoneClient.projects_delete, call.
    destruct (oracle _ _); simpl; [eexists _, _; split; [done|by left]|].
    destruct (projects_delete_sem (project_id p) (service w1))
      as [[[]|e] s'] eqn:Es; simpl.
    + eexists _, _. split; [done|]. right. exists p. simpl.
      rewrite Hs in Es. done.
    + eexists _, _. split; [done|]. left. simpl.
      unfold projects_delete_sem in Es.
      destruct (existsb _ _); [discriminate|]. injection Es as _ <-.
      exact Hs.
  - pose proof (get_project_lookup oracle cfg name domain w) as Hext.
    rewrite E in Hext. apply extends_service_eq in Hext.
    eexists _, _. split; [done|by left].
Qed.
End Deletion.

(** X13. For a resource whose identifier is blank or has at most 255
    characters [delete_resource] never raises, whatever the service does:
    a project that is absent, a lookup that fails and a deletion that fails
    all end in a normal return.  The service is then either unchanged or
    has lost exactly one project, one that carried the sanitized name. *)
Theorem delete_resource_always_returns (oracle : nat -> KCall -> option exn)
    (cfg : Config.OpenStackConfig) (r : WaldurResource) (w : World) :
  blank (_extract_backend_id r) = true
  \/ (String.length (_extract_backend_id r) <= 255)%nat ->
  exists w',
    delete_resource oracle cfg r w = (Ok tt, w')
    /\ (service w' = service w
        \/ exists p,
             In p (projects (service w))
             /\ project_name p
                = sanitize_for_openstack (_extract_backend_id r)
             /\ projects_delete_sem (project_id p) (service w)
                = (Ok tt, service w')).
Proof.
  intros Hid. unfold delete_resource, try_except, bind, lift.
  destruct (blank (_extract_backend_id r)) eqn:Hb.
  { exists w. split; [done|by left]. }
  destruct Hid as [?|Hl]; [done|].
  rewrite validate_ok by auto using not_blank_not_empty.
  unfold OpenStackClient.delete_resource, try_except, bind.
  destruct (delete_project_effect oracle cfg
              (sanitize_for_openstack (_extract_backend_id r)) None w)
    as (b & w' & -> & Heff).
  exists w'. by destruct b.
Qed.

Lemma delete_resource_always_returns_witness :
  let w := Scenario.world_of Scenario.populated in
  exists w',
    delete_resource ScenarioExtra.delete_fails Config.default
      (Scenario.stored_resource "abc-123") w = (Ok tt, w')
    /\ (service w' = service w
        \/ exists p,
             In p (projects (service w))
             /\ project_name p = "abc-123"
             /\ projects_delete_sem (project_id p) (service w)
                = (Ok tt, service w')).
Proof.
  intros w.
  apply (delete_resource_always_returns ScenarioExtra.delete_fails
           Config.default (Scenario.stored_resource "abc-123") w).
  right. simpl. lia.
Defined.

(** A deletion that failed is reported like one that worked: here the
    service refuses every deletion, [delete_resource] returns normally and
    the project is still there. *)
Example delete_resource_hides_failure :
  let w := Scenario.world_of Scenario.populated in
  let run := delete_resource ScenarioExtra.delete_fails Config.default
               (Scenario.stored_resource "abc-123") w in
  run.1 = Ok tt /\ service run.2 = Scenario.populated.
Proof. split; vm_compute; reflexivity. Qed.

Lemma filter_filter_comm {A} (f g : A -> bool) l :
  List.filter f (List.filter g l) = List.filter g (List.filter f l).
Proof.
  induction l as [|x l IH]; simpl; [done|].
  destruct (f x) eqn:Ef, (g x) eqn:Eg; simpl; rewrite ?Ef, ?Eg, IH; done.
Qed.

Section QuietDeletion.
Variable oracle : nat -> KCall -> option exn.
Variable cfg : Config.OpenStackConfig.
Hypothesis quiet : forall n c, oracle n c = None.

Lemma get_project_metadata_quiet name w d :
  configured cfg (service w) = Some d ->
  (ClientExtra.get_project_metadata oracle cfg name w).1
  = Ok (match head (projects_named name (domain_id d) (service w)) with
        | Some p => ClientExtra.project_metadata p
        | None => ∅
        end).
Proof.
  intros Hd. unfold ClientExtra.get_project_metadata, try_except, bind.
  rewrite (get_project_quiet oracle cfg quiet name w d Hd).
  by destruct (head _).
Qed.

Lemma delete_resource_quiet r w d p :
  blank (_extract_backend_id r) = false ->
  (String.length (_extract_backend_id r) <= 255)%nat ->
  configured cfg (service w) = Some d ->
  projects_named (sanitize_for_openstack (_extract_backend_id r))
    (domain_id d) (service w) = [p] ->
  exists w',
    delete_resource oracle cfg r w = (Ok tt, w')
    /\ configured cfg (service w') = Some d
    /\ projects_named (sanitize_for_openstack (_extract_backend_id r))
         (domain_id d) (service w') = []
    /\ (forall q, In q (projects (service w')) -> In q (projects (service w))).
Proof.
  intros Hb Hl Hd Hone.
  unfold delete_resource, try_except, bind, lift. rewrite Hb.
  rewrite validate_ok by auto using not_blank_not_empty.
  unfold OpenStackClient.delete_resource, try_except, bind,
    KeystoneClient.delete_project, try_except, bind.
  rewrite (get_project_quiet oracle cfg quiet _ w d Hd), Hone. cbn [head].
  unfold KeystoneClient.projects_delete. rewrite call_quiet by done.
  cbn [service trace slept]. unfold projects_delete_sem.
  assert (Hin : In p (projects (service w))
                /\ project_matches
                     (sanitize_for_openstack (_extract_backend_id r))
                     (Some (domain_id d)) p = true).
  { apply (head_filter_in _ (projects (service w)) p).
    unfold projects_named in Hone. by rewrite Hone. }
  destruct Hin as [Hin Hm].
  assert (Hex : existsb (fun q => (project_id q =? project_id p)%N)
                  (projects (service w)) = true).
  { apply existsb_exists. exists p. split; [done|apply N.eqb_refl]. }
  rewrite Hex. cbn [fst snd is_ok]. unfold ret. eexists. split; [done|].
  cbn [service]. split_and!.
  - exact Hd.
  - unfold projects_named in *. cbn [projects].
    rewrite filter_filter_comm, Hone. simpl. by rewrite N.eqb_refl.
  - cbn [projects]. intros q Hq. by apply List.filter_In in Hq as [? _].
Qed.
End QuietDeletion.

(** X14. For a resource whose identifier is not blank and has at most 255
    characters, on a service that answers every call and holds exactly one
    project of the sanitized name in the configured domain, the metadata of
    the resource is the metadata of that project; after [delete_resource]
    no project of that name is left in the domain, the metadata of the
    resource is the empty dictionary and deleting once more returns
    normally and changes nothing. *)
Theorem delete_then_metadata_is_empty (oracle : nat -> KCall -> option exn)
    (cfg : Config.OpenStackConfig) (r : WaldurResource) (w : World)
    (d : Domain) (p : Project) :
  (forall n c, oracle n c = None) ->
  blank (_extract_backend_id r) = false ->
  (String.length (_extract_backend_id r) <= 255)%nat ->
  configured cfg (service w) = Some d ->
  projects_named (sanitize_for_openstack (_extract_backend_id r))
    (domain_id d) (service w) = [p] ->
  (ClientExtra.get_resource_metadata oracle cfg (_extract_backend_id r) w).1
  = Ok (ClientExtra.project_metadata p)
  /\ exists w',
       delete_resource oracle cfg r w = (Ok tt, w')
       /\ projects_named (sanitize_for_openstack (_extract_backend_id r))
            (domain_id d) (service w') = []
       /\ (ClientExtra.get_resource_metadata oracle cfg
             (_extract_backend_id r) w').1 = Ok ∅
       /\ exists w'',
            delete_resource oracle cfg r w' = (Ok tt, w'')
            /\ service w'' = service w'.
Proof.
  intros Hq Hb Hl Hd Hone. split.
  - unfold ClientExtra.get_resource_metadata.
    by rewrite (get_project_metadata_quiet oracle cfg Hq _ w d Hd), Hone.
  - destruct (delete_resource_quiet oracle cfg Hq r w d p Hb Hl Hd Hone)
      as (w' & Hrun & Hd' & Hnone & _).
    exists w'. split_and!; [done|done| |].
    + unfold ClientExtra.get_resource_metadata.
      by rewrite (get_project_metadata_quiet oracle cfg Hq _ w' d Hd'), Hnone.
    + unfold delete_resource, try_except, bind, lift. rewrite Hb.
      rewrite validate_ok by auto using not_blank_not_empty.
      unfold OpenStackClient.delete_resource, try_except, bind,
        KeystoneClient.delete_project, try_except, bind.
      rewrite (get_project_quiet oracle cfg Hq _ w' d Hd'), Hnone.
      cbn [head]. unfold ret. by eexists.
Qed.

Lemma delete_then_metadata_is_empty_witness :
  let r := Scenario.stored_resource "abc-123" in
  let w := Scenario.world_of Scenario.populated in
  (ClientExtra.get_resource_metadata Scenario.quiet Config.default
     "abc-123" w).1
  = Ok (ClientExtra.project_metadata (Scenario.mk_project 10 "abc-123" 1))
  /\ exists w',
       delete_resource Scenario.quiet Config.default r w = (Ok tt, w')
       /\ projects_named "abc-123" 1 (service w') = []
       /\ (ClientExtra.get_resource_metadata Scenario.quiet Config.default
             "abc-123" w').1 = Ok ∅
       /\ exists w'',
            delete_resource Scenario.quiet Config.default r w' = (Ok tt, w'')
            /\ service w'' = service w'.
Proof.
  intros r w.
  apply (delete_then_metadata_is_empty Scenario.quiet Config.default r w
           Scenario.default_dom (Scenario.mk_project 10 "abc-123" 1));
    [reflexivity|reflexivity|simpl; lia|reflexivity|reflexivity].
Defined.

(** X15. [get_resource_metadata] never raises.  It is the empty dictionary
    when no project carries the sanitized name, whatever the service does;
    when the lookup finds a project it is the dictionary of that project,
    whose keys are the five documented ones and whose [project_name] is the
    sanitized identifier. *)
Theorem resource_metadata_shape (oracle : nat -> KCall -> option exn)
    (cfg : Config.OpenStackConfig) (id : string) (w : World) :
  (exists m w', ClientExtra.get_resource_metadata oracle cfg id w = (Ok m, w'))
  /\ (no_project_named (sanitize_for_openstack id) (service w) ->
      (ClientExtra.get_resource_metadata oracle cfg id w).1 = Ok ∅)
  /\ (forall p w1,
        KeystoneClient.get_project oracle cfg (sanitize_for_openstack id)
          None w = (Ok (Some p), w1) ->
        ClientExtra.get_resource_metadata oracle cfg id w
        = (Ok (ClientExtra.project_metadata p), w1)
        /\ dom (ClientExtra.project_metadata p)
           = {["project_id"; "project_name"; "domain"; "enabled";
               "description"]}
        /\ ClientExtra.project_metadata p !! "project_name"
           = Some (ClientExtra.MStr (sanitize_for_openstack id))).
Proof.
  unfold ClientExtra.get_resource_metadata, ClientExtra.get_project_metadata,
    try_except, bind.
  split_and!.
  - destruct (get_project_total oracle cfg (sanitize_for_openstack id) None w)
      as ([p|] & w1 & ->); by eexists _, _.
  - intros Hno.
    by destruct (get_project_absent oracle cfg _ None w Hno) as (w' & -> & _).
  - intros p w1 Hget. rewrite Hget.
    destruct (get_project_found oracle cfg _ None w p w1 Hget)
      as (_ & Hn & _).
    split_and!; [done| |].
    + unfold ClientExtra.project_metadata. rewrite dom_list_to_map_L.
      vm_compute. reflexivity.
    + rewrite <- Hn. reflexivity.
Qed.

Lemma resource_metadata_shape_witness :
  let w := Scenario.world_of Scenario.populated in
  (ClientExtra.get_resource_metadata Scenario.unreachable Config.default
     "xyz-789" w).1 = Ok ∅
  /\ ClientExtra.get_resource_metadata Scenario.quiet Config.default
       "abc-123" w
     = (Ok (ClientExtra.project_metadata (Scenario.mk_project 10 "abc-123" 1)),
        (KeystoneClient.get_project Scenario.quiet Config.default "abc-123"
           None w).2).
Proof.
  intros w. split.
  - apply (proj1 (proj2 (resource_metadata_shape Scenario.unreachable
                           Config.default "xyz-789" w))).
    intros p [<-|[]]. discriminate.
  - apply (proj2 (proj2 (resource_metadata_shape Scenario.quiet
                           Config.default "abc-123" w))).
    vm_compute. reflexivity.
Defined.

End DeletionProofs.

(** ** Adding members on a service that answers every call *)

Module ReliableProofs.
Import Py Identity Effects Logic LogicProofs GatewayProofs MembershipProofs.
Import Sanitize Backend Outcomes TaxonomyProofs CreationProofs Membership.

#[export] Instance grows_refl : Reflexive grows.
Proof.
  intros s. split_and!; [done|done|..|done]; exists []; by rewrite app_nil_r.
Qed.

#[export] Instance grows_trans : Transitive grows.
Proof.
  intros a b c (D1 & P1 & [u1 U1] & [r1 R1] & [l1 L1] & N1)
    (D2 & P2 & [u2 U2] & [r2 R2] & [l2 L2] & N2).
  split_and!; [congruence|congruence|..].
  - exists (u1 ++ u2). by rewrite U2, U1, app_assoc.
  - exists (r1 ++ r2). by rewrite R2, R1, app_assoc.
  - exists (l1 ++ l2). by rewrite L2, L1, app_assoc.
  - auto.
Qed.

Lemma head_filter_app {A} (f : A -> bool) l l' x :
  head (List.filter f l) = Some x -> head (List.filter f (l ++ l')) = Some x.
Proof.
  intros H. rewrite List.filter_app. by destruct (List.filter f l).
Qed.

Lemma existsb_app_l {A} (f : A -> bool) l l' :
  existsb f l = true -> existsb f (l ++ l') = true.
Proof. intros H. by rewrite existsb_app, H. Qed.

Lemma configured_grows cfg s s' d :
  grows s s' -> configured cfg s = Some d -> configured cfg s' = Some d.
Proof. intros (D & _). unfold configured. by rewrite D. Qed.

Lemma projects_named_grows name d s s' :
  grows s s' -> projects_named name d s' = projects_named name d s.
Proof. intros (_ & P & _). unfold projects_named. by rewrite P. Qed.

Lemma users_head_grows name d s s' u :
  grows s s' -> head (users_named name d s) = Some u ->
  head (users_named name d s') = Some u.
Proof.
  intros (_ & _ & [us U] & _) H. unfold users_named in *. rewrite U.
  by apply head_filter_app.
Qed.

Lemma roles_head_grows name s s' r :
  grows s s' -> head (roles_named name s) = Some r ->
  head (roles_named name s') = Some r.
Proof.
  intros (_ & _ & _ & [rs R] & _) H. unfold roles_named in *. rewrite R.
  by apply head_filter_app.
Qed.

Lemma settled_grows cfg u pn d s s' :
  grows s s' -> settled cfg u pn d s -> settled cfg u pn d s'.
Proof.
  intros G (p & usr & r & Hp & Hu & Hr & Ha). exists p, usr, r.
  split_and!.
  - by rewrite (projects_named_grows _ _ _ _ G).
  - by eapply users_head_grows.
  - by eapply roles_head_grows.
  - destruct G as (_ & _ & _ & _ & [l L] & _). rewrite L.
    by apply existsb_app_l.
Qed.

Section Quiet.
Variable oracle : nat -> KCall -> option exn.
Variable cfg : Config.OpenStackConfig.
Hypothesis quiet : forall n c, oracle n c = None.

Lemma get_domain_q name w :
  exists w',
    KeystoneClient.get_domain oracle name w
    = (Ok (head (List.filter (fun d => String.eqb (domain_name d) name)
                   (domains (service w)))), w')
    /\ service w' = service w.
Proof. rewrite get_domain_quiet by done. by eexists. Qed.

Lemma get_project_q name w d :
  configured cfg (service w) = Some d ->
  exists w',
    KeystoneClient.get_project oracle cfg name None w
    = (Ok (head (projects_named name (domain_id d) (service w))), w')
    /\ service w' = service w.
Proof. intros Hd. rewrite (get_project_quiet _ _ quiet _ _ _ Hd). by eexists. Qed.

Lemma get_user_q name w d :
  configured cfg (service w) = Some d ->
  exists w',
    KeystoneClient.get_user oracle cfg name None w
    = (Ok (head (users_named name (domain_id d) (service w))), w')
    /\ service w' = service w.
Proof.
  intros Hd. unfold configured in Hd.
  unfold KeystoneClient.get_user, try_except, bind,
    KeystoneClient.configured_domain, KeystoneClient.users_list.
  rewrite get_domain_quiet, Hd, call_quiet by done. simpl. by eexists.
Qed.

Lemma get_role_q name w :
  exists w',
    KeystoneClient.get_role oracle name w
    = (Ok (head (roles_named name (service w))), w')
    /\ service w' = service w.
Proof.
  unfold KeystoneClient.get_role, try_except, bind, KeystoneClient.roles_list.
  rewrite call_quiet by done. simpl. by eexists.
Qed.

Lemma ensure_domain_q w d :
  configured cfg (service w) = Some d ->
  exists w',
    KeystoneClient.ensure_domain oracle (Config.domain_name cfg) w
    = (Ok (Some d), w')
    /\ service w' = service w.
Proof.
  intros Hd. unfold configured in Hd.
  unfold KeystoneClient.ensure_domain, bind.
  rewrite get_domain_quiet, Hd by done. by eexists.
Qed.

Lemma ensure_user_q name w d :
  configured cfg (service w) = Some d ->
  Config.create_users_if_not_exist cfg = true ->
  exists u w',
    KeystoneClient.ensure_user oracle cfg name None None None w
    = (Ok (Some u), w')
    /\ grows (service w) (service w')
    /\ head (users_named name (domain_id d) (service w')) = Some u.
Proof.
  intros Hd Hon.
  destruct (get_user_q name w d Hd) as (w1 & Hget & Hs1).
  destruct (head (users_named name (domain_id d) (service w)))
    as [u|] eqn:Hhead.
  - exists u, w1. split_and!.
    + apply retry_first_try.
      unfold KeystoneClient.ensure_user_func, bind. by rewrite Hget.
    + by rewrite Hs1.
    + by rewrite Hs1.
  - assert (Hd1 : configured cfg (service w1) = Some d) by by rewrite Hs1.
    destruct (ensure_domain_q w1 d Hd1) as (w2 & Hens & Hs2).
    assert (Hnil : users_named name (domain_id d) (service w) = []).
    { by destruct (users_named name (domain_id d) (service w)). }
    eexists _, _. split_and!.
    + apply retry_first_try.
      unfold KeystoneClient.ensure_user_func, bind.
      rewrite Hget, Hon. cbn [negb]. rewrite Hens.
      unfold KeystoneClient.users_create. rewrite call_quiet by done.
      cbn [fmap option_fmap option_map].
      unfold users_create_sem. cbn [domain_or_default].
      rewrite Hs2, Hs1.
      unfold users_named in Hnil. rewrite (filter_nil_existsb _ _ Hnil).
      cbn [fst snd is_ok]. reflexivity.
    + cbn [service]. split_and!; [done|done|by eexists
                                 |exists []; by rewrite app_nil_r
                                 |exists []; by rewrite app_nil_r|done].
    + cbn [service]. unfold users_named in *. cbn [users].
      rewrite List.filter_app, Hnil. simpl.
      unfold user_matches. simpl.
      by rewrite String.eqb_refl, N.eqb_refl.
Qed.

Lemma ensure_role_q name w :
  exists r w',
    KeystoneClient.ensure_role oracle name w = (Ok (Some r), w')
    /\ grows (service w) (service w')
    /\ head (roles_named name (service w')) = Some r.
Proof.
  destruct (get_role_q name w) as (w1 & Hget & Hs1).
  unfold KeystoneClient.ensure_role, bind. rewrite Hget.
  destruct (head (roles_named name (service w))) as [r|] eqn:Hhead.
  - exists r, w1. split_and!; [done|by rewrite Hs1|by rewrite Hs1].
  - assert (Hnil : roles_named name (service w) = []).
    { by destruct (roles_named name (service w)). }
    unfold try_except, bind, KeystoneClient.roles_create.
    rewrite call_quiet by done. unfold roles_create_sem. rewrite Hs1.
    unfold roles_named in Hnil. rewrite (filter_nil_existsb _ _ Hnil).
    cbn [fst snd is_ok]. unfold ret. eexists _, _. split_and!; [done| |].
    + cbn [service]. split_and!; [done|done|exists []; by rewrite app_nil_r
                                 |by eexists
                                 |exists []; by rewrite app_nil_r|done].
    + cbn [service]. unfold roles_named in *. cbn [roles].
      rewrite List.filter_app, Hnil. simpl. by rewrite String.eqb_refl.
Qed.

Lemma assign_role_q u p name w :
  exists r w',
    KeystoneClient.assign_role oracle (Some u) (Some p) name w = (Ok true, w')
    /\ grows (service w) (service w')
    /\ head (roles_named name (service w')) = Some r
    /\ existsb (same_assignment (role_id r) (user_id u) (project_id p))
         (assignments (service w')) = true.
Proof.
  destruct (ensure_role_q name w) as (r & w1 & Hens & G1 & Hr).
  unfold KeystoneClient.assign_role.
  destruct (existsb (same_assignment (role_id r) (user_id u) (project_id p))
              (assignments (service w1))) eqn:Hex.
  - eexists r, _. split_and!.
    + apply retry_first_try.
      unfold KeystoneClient.assign_role_func, try_except, bind.
      rewrite Hens. unfold KeystoneClient.roles_grant.
      rewrite call_quiet by done. cbn [fmap option_fmap option_map].
      unfold roles_grant_sem. rewrite Hex. reflexivity.
    + done.
    + done.
    + done.
  - eexists r, _. split_and!.
    + apply retry_first_try.
      unfold KeystoneClient.assign_role_func, try_except, bind.
      rewrite Hens. unfold KeystoneClient.roles_grant.
      rewrite call_quiet by done. cbn [fmap option_fmap option_map].
      unfold roles_grant_sem. rewrite Hex. reflexivity.
    + cbn [service snd]. etransitivity; [exact G1|].
      split_and!; [done|done|exists []; by rewrite app_nil_r
                  |exists []; by rewrite app_nil_r|by eexists|].
      cbn [assignments]. intros Hnd. apply NoDup_ListNoDup.
      apply NoDup_ListNoDup in Hnd. apply NoDup_app. split_and!.
      * done.
      * intros a Ha Hin. apply list_elem_of_singleton in Hin as ->.
        apply list_elem_of_In in Ha.
        assert (Hc : existsb (same_assignment (role_id r) (user_id u)
                                (project_id p)) (assignments (service w1))
                     = true).
        { apply existsb_exists. eexists. split; [exact Ha|].
          unfold same_assignment. simpl. by rewrite !N.eqb_refl. }
        congruence.
      * apply NoDup_singleton.
    + cbn [service snd]. unfold roles_named in *. exact Hr.
    + cbn [service assignments snd]. rewrite existsb_app. simpl.
      unfold same_assignment at 2. simpl.
      rewrite !N.eqb_refl. simpl. by rewrite orb_true_r.
Qed.

Lemma create_association_q u pn w d p :
  configured cfg (service w) = Some d ->
  Config.create_users_if_not_exist cfg = true ->
  head (projects_named pn (domain_id d) (service w)) = Some p ->
  exists msg w',
    OpenStackClient.create_association oracle cfg u pn w = (Ok msg, w')
    /\ grows (service w) (service w')
    /\ settled cfg u pn d (service w').
Proof.
  intros Hd Hon Hp.
  destruct (get_project_q pn w d Hd) as (w1 & Hget & Hs1).
  assert (Hd1 : configured cfg (service w1) = Some d) by by rewrite Hs1.
  destruct (ensure_user_q u w1 d Hd1 Hon) as (usr & w2 & Hens & G2 & Hu).
  destruct (assign_role_q usr p (Config.default_role cfg) w2)
    as (r & w3 & Hass & G3 & Hr & Ha).
  eexists _, w3. split_and!.
  - unfold OpenStackClient.create_association, try_except, bind.
    rewrite Hget, Hp. unfold ret. rewrite Hens, Hass. reflexivity.
  - rewrite <- Hs1. by etransitivity.
  - exists p, usr, r. split_and!; [|by eapply users_head_grows|done|done].
    rewrite (projects_named_grows _ _ _ _ G3),
      (projects_named_grows _ _ _ _ G2), Hs1. done.
Qed.

Lemma create_association_settled u pn w d :
  configured cfg (service w) = Some d ->
  settled cfg u pn d (service w) ->
  exists msg w',
    OpenStackClient.create_association oracle cfg u pn w = (Ok msg, w')
    /\ service w' = service w.
Proof.
  intros Hd (p & usr & r & Hp & Hu & Hr & Ha).
  destruct (get_project_q pn w d Hd) as (w1 & Hget & Hs1).
  assert (Hd1 : configured cfg (service w1) = Some d) by by rewrite Hs1.
  destruct (get_user_q u w1 d Hd1) as (w2 & Hgu & Hs2).
  destruct (get_role_q (Config.default_role cfg) w2) as (w3 & Hgr & Hs3).
  assert (Hens : KeystoneClient.ensure_user oracle cfg u None None None w1
                 = (Ok (Some usr), w2)).
  { apply retry_first_try. unfold KeystoneClient.ensure_user_func, bind.
    rewrite Hgu, Hs1, Hu. reflexivity. }
  assert (Hass : exists w4,
             KeystoneClient.assign_role oracle (Some usr) (Some p)
               (Config.default_role cfg) w2 = (Ok true, w4)
             /\ service w4 = service w3).
  { eexists. split.
    - apply retry_first_try.
      unfold KeystoneClient.assign_role_func, try_except, bind,
        KeystoneClient.ensure_role, bind.
      rewrite Hgr, Hs2, Hs1, Hr. unfold ret, KeystoneClient.roles_grant.
      rewrite call_quiet by done. cbn [fmap option_fmap option_map].
      unfold roles_grant_sem. rewrite Hs3, Hs2, Hs1, Ha. reflexivity.
    - cbn [service snd]. rewrite Hs3, Hs2, Hs1. by destruct (service w). }
  destruct Hass as (w4 & Hass & Hs4).
  eexists _, w4. split.
  - unfold OpenStackClient.create_association, try_except, bind.
    rewrite Hget, Hp. unfold ret. rewrite Hens, Hass. reflexivity.
  - by rewrite Hs4, Hs3, Hs2, Hs1.
Qed.

Lemma get_resource_q pn w d p :
  configured cfg (service w) = Some d ->
  head (projects_named pn (domain_id d) (service w)) = Some p ->
  exists r w',
    OpenStackClient.get_resource oracle cfg pn w = (Ok (Some r), w')
    /\ service w' = service w.
Proof.
  intros Hd Hp.
  destruct (get_project_q pn w d Hd) as (w1 & Hget & Hs1).
  destruct (get_domain_q (Config.domain_name cfg) w1) as (w2 & Hdom & Hs2).
  unfold OpenStackClient.get_resource, try_except, bind.
  rewrite Hget, Hp, Hdom. unfold ret. eexists _, _. split; [done|].
  by rewrite Hs2.
Qed.

Lemma add_each_q pn d p us :
  Config.create_users_if_not_exist cfg = true ->
  forall acc w,
    configured cfg (service w) = Some d ->
    head (projects_named pn (domain_id d) (service w)) = Some p ->
    exists w',
      add_each oracle cfg pn us acc w = (Ok (list_to_set us ∪ acc), w')
      /\ grows (service w) (service w')
      /\ forall u, In u us -> settled cfg u pn d (service w').
Proof.
  intros Hon. induction us as [|u us IH]; intros acc w Hd Hp.
  - exists w. simpl. unfold ret. rewrite (left_id_L ∅ (∪)).
    split_and!; [done|done|by intros ? []].
  - destruct (create_association_q u pn w d p Hd Hon Hp)
      as (msg & w1 & Hrun & G1 & Hset).
    destruct (IH ({[u]} ∪ acc) w1) as (w2 & Hrest & G2 & Hall).
    { by eapply configured_grows. }
    { by rewrite (projects_named_grows _ _ _ _ G1). }
    exists w2. split_and!.
    + cbn [add_each]. unfold try_except, bind. rewrite Hrun. unfold ret.
      rewrite Hrest. f_equal. f_equal. cbn [list_to_set].
      by rewrite (comm_L (∪) {[u]} (list_to_set us)), <- (assoc_L (∪)).
    + by etransitivity.
    + intros x [<-|Hx]; [by eapply settled_grows|by apply Hall].
Qed.

Lemma add_each_settled pn d us :
  forall acc w,
    configured cfg (service w) = Some d ->
    (forall u, In u us -> settled cfg u pn d (service w)) ->
    exists w',
      add_each oracle cfg pn us acc w = (Ok (list_to_set us ∪ acc), w')
      /\ service w' = service w.
Proof.
  induction us as [|u us IH]; intros acc w Hd Hall.
  - exists w. simpl. unfold ret. by rewrite (left_id_L ∅ (∪)).
  - destruct (create_association_settled u pn w d Hd) as (msg & w1 & Hrun & Hs1).
    { apply Hall. by left. }
    destruct (IH ({[u]} ∪ acc) w1) as (w2 & Hrest & Hs2).
    { by rewrite Hs1. }
    { intros x Hx. rewrite Hs1. apply Hall. by right. }
    exists w2. split.
    + cbn [add_each]. unfold try_except, bind. rewrite Hrun. unfold ret.
      rewrite Hrest. f_equal. f_equal. cbn [list_to_set].
      by rewrite (comm_L (∪) {[u]} (list_to_set us)), <- (assoc_L (∪)).
    + by rewrite Hs2.
Qed.

Lemma add_users_run id us w r w1 :
  blank id = false -> (String.length id <= 255)%nat ->
  OpenStackClient.get_resource oracle cfg (sanitize_for_openstack id) w
  = (Ok (Some r), w1) ->
  add_users_to_resource oracle cfg id us w
  = try_except (add_each oracle cfg (sanitize_for_openstack id) us ∅)
      (add_users_except (Some (sanitize_for_openstack id))) w1.
Proof.
  intros Hb Hlen Hres. unfold add_users_to_resource.
  rewrite Hb, (validate_ok _ _ (not_blank_not_empty _ Hb) Hlen).
  unfold try_except at 1, bind. rewrite Hres.
  unfold try_except. reflexivity.
Qed.

Lemma assignments_of_nonempty r u p s :
  existsb (same_assignment r u p) (assignments s) = true ->
  exists a l, assignments_of u p s = a :: l.
Proof.
  intros H. apply existsb_exists in H as (a & Hin & Hsame).
  unfold same_assignment in Hsame.
  apply andb_true_iff in Hsame as (Hsame & Hp).
  apply andb_true_iff in Hsame as (_ & Hu).
  assert (Hm : In a (assignments_of u p s)).
  { unfold assignments_of. apply filter_In. split; [done|].
    by rewrite Hu, Hp. }
  destruct (assignments_of u p s) as [|a' l]; [done|by eexists _, _].
Qed.

Lemma get_association_settled u pn w d :
  configured cfg (service w) = Some d ->
  settled cfg u pn d (service w) ->
  exists n w',
    ClientExtra.get_association oracle cfg u pn w
    = (Ok (Some {| ClientExtra.account := pn; ClientExtra.user := u;
                   ClientExtra.value := S n |}), w').
Proof.
  intros Hd (p & usr & r & Hp & Hu & Hr & Ha).
  destruct (get_project_q pn w d Hd) as (w1 & Hget & Hs1).
  assert (Hd1 : configured cfg (service w1) = Some d) by by rewrite Hs1.
  destruct (get_user_q u w1 d Hd1) as (w2 & Hgu & Hs2).
  destruct (assignments_of_nonempty _ _ _ _ Ha) as (a & l & Hl).
  unfold ClientExtra.get_association, try_except, bind.
  rewrite Hget, Hp, Hgu, Hs1, Hu.
  unfold KeystoneClient.role_assignments_list. rewrite call_quiet by done.
  unfold assignments_list_sem. cbn [fst snd]. rewrite Hs2, Hs1.
  fold (assignments_of (user_id usr) (project_id p) (service w)).
  rewrite Hl. unfold ret. by eexists _, _.
Qed.
End Quiet.

(** X16. For an identifier that is not blank and has at most 255
    characters, on a service that answers every call, with the creation of
    missing users switched on and the project of the resource present in
    the configured domain, [add_users_to_resource] reports every requested
    name, creates no project and no domain (the service only gains users,
    roles and assignments), and a second identical call reports every name
    again and leaves the service exactly as the first call left it. *)
Theorem add_users_reliable_idempotent (oracle : nat -> KCall -> option exn)
    (cfg : Config.OpenStackConfig) (id : string) (us : list string)
    (w : World) (d : Domain) (p : Project) :
  (forall n c, oracle n c = None) ->
  blank id = false -> (String.length id <= 255)%nat ->
  Config.create_users_if_not_exist cfg = true ->
  configured cfg (service w) = Some d ->
  head (projects_named (sanitize_for_openstack id) (domain_id d) (service w))
  = Some p ->
  exists w1,
    add_users_to_resource oracle cfg id us w = (Ok (list_to_set us), w1)
    /\ grows (service w) (service w1)
    /\ exists w2,
        add_users_to_resource oracle cfg id us w1 = (Ok (list_to_set us), w2)
        /\ service w2 = service w1.
Proof.
  intros quiet Hb Hlen Hon Hd Hp.
  destruct (get_resource_q oracle cfg quiet _ w d p Hd Hp)
    as (r & wa & Hres & Hsa).
  destruct (add_each_q oracle cfg quiet (sanitize_for_openstack id) d p us
              Hon ∅ wa) as (w1 & Hrun & G & Hall).
  { by rewrite Hsa. }
  { by rewrite Hsa. }
  rewrite (right_id_L ∅ (∪)) in Hrun. rewrite Hsa in G.
  assert (Hd1 : configured cfg (service w1) = Some d)
    by by eapply configured_grows.
  assert (Hp1 : head (projects_named (sanitize_for_openstack id)
                        (domain_id d) (service w1)) = Some p)
    by by rewrite (projects_named_grows _ _ _ _ G).
  destruct (get_resource_q oracle cfg quiet _ w1 d p Hd1 Hp1)
    as (r' & wb & Hres' & Hsb).
  destruct (add_each_settled oracle cfg quiet (sanitize_for_openstack id) d
              us ∅ wb) as (w2 & Hrun2 & Hs2).
  { by rewrite Hsb. }
  { intros u Hu. rewrite Hsb. by apply Hall. }
  rewrite (right_id_L ∅ (∪)) in Hrun2.
  exists w1. split_and!.
  - rewrite (add_users_run oracle cfg id us w r wa Hb Hlen Hres).
    unfold try_except. by rewrite Hrun.
  - done.
  - exists w2. split.
    + rewrite (add_users_run oracle cfg id us w1 r' wb Hb Hlen Hres').
      unfold try_except. by rewrite Hrun2.
    + by rewrite Hs2.
Qed.

Lemma add_users_reliable_idempotent_witness :
  let w := Scenario.world_of Scenario.populated in
  exists w1,
    add_users_to_resource Scenario.quiet Config.default "abc-123"
      ["bob"; "dave"] w = (Ok (list_to_set ["bob"; "dave"]), w1)
    /\ grows (service w) (service w1)
    /\ exists w2,
        add_users_to_resource Scenario.quiet Config.default "abc-123"
          ["bob"; "dave"] w1 = (Ok (list_to_set ["bob"; "dave"]), w2)
        /\ service w2 = service w1.
Proof.
  intros w.
  apply (add_users_reliable_idempotent Scenario.quiet Config.default
           "abc-123" ["bob"; "dave"] w Scenario.default_dom
           (Scenario.mk_project 10 "abc-123" 1));
    [reflexivity|reflexivity|simpl; lia|reflexivity|reflexivity
    |reflexivity].
Defined.

(** X17. For an identifier that is not blank and has at most 255
    characters, on a service that answers every call, with the creation of
    missing users switched on and the project present in the configured
    domain, every name handed to [add_users_to_resource] is afterwards
    reported by [get_association] as a member of the project, with at least
    one role assignment. *)
Theorem add_then_get_association (oracle : nat -> KCall -> option exn)
    (cfg : Config.OpenStackConfig) (id : string) (us : list string)
    (w : World) (d : Domain) (p : Project) :
  (forall n c, oracle n c = None) ->
  blank id = false -> (String.length id <= 255)%nat ->
  Config.create_users_if_not_exist cfg = true ->
  configured cfg (service w) = Some d ->
  head (projects_named (sanitize_for_openstack id) (domain_id d) (service w))
  = Some p ->
  exists w1,
    add_users_to_resource oracle cfg id us w = (Ok (list_to_set us), w1)
    /\ forall u, In u us ->
        exists n w2,
          ClientExtra.get_association oracle cfg u
            (sanitize_for_openstack id) w1
          = (Ok (Some {| ClientExtra.account := sanitize_for_openstack id;
                         ClientExtra.user := u;
                         ClientExtra.value := S n |}), w2).
Proof.
  intros quiet Hb Hlen Hon Hd Hp.
  destruct (get_resource_q oracle cfg quiet _ w d p Hd Hp)
    as (r & wa & Hres & Hsa).
  destruct (add_each_q oracle cfg quiet (sanitize_for_openstack id) d p us
              Hon ∅ wa) as (w1 & Hrun & G & Hall).
  { by rewrite Hsa. }
  { by rewrite Hsa. }
  rewrite (right_id_L ∅ (∪)) in Hrun. rewrite Hsa in G.
  exists w1. split.
  - rewrite (add_users_run oracle cfg id us w r wa Hb Hlen Hres).
    unfold try_except. by rewrite Hrun.
  - intros u Hu. apply (get_association_settled oracle cfg quiet u _ w1 d).
    + by eapply configured_grows.
    + by apply Hall.
Qed.

Lemma add_then_get_association_witness :
  let w := Scenario.world_of Scenario.populated in
  exists w1,
    add_users_to_resource Scenario.quiet Config.default "abc-123"
      ["bob"; "dave"] w = (Ok (list_to_set ["bob"; "dave"]), w1)
    /\ forall u, In u ["bob"; "dave"] ->
        exists n w2,
          ClientExtra.get_association Scenario.quiet Config.default u
            (sanitize_for_openstack "abc-123") w1
          = (Ok (Some {| ClientExtra.account :=
                           sanitize_for_openstack "abc-123";
                         ClientExtra.user := u;
                         ClientExtra.value := S n |}), w2).
Proof.
  intros w.
  apply (add_then_get_association Scenario.quiet Config.default
           "abc-123" ["bob"; "dave"] w Scenario.default_dom
           (Scenario.mk_project 10 "abc-123" 1));
    [reflexivity|reflexivity|simpl; lia|reflexivity|reflexivity
    |reflexivity].
Defined.

End ReliableProofs.

(** ** Grants that fail for some of the users *)

Module IsolationProofs.
Import Py Identity Effects Logic LogicProofs GatewayProofs MembershipProofs.
Import Sanitize Backend Outcomes TaxonomyProofs CreationProofs Membership.
Import AdditionProofs ReliableProofs.

Lemma grant_calls_refl w : grant_calls 0 w w.
Proof. exists []. by rewrite app_nil_r. Qed.

Lemma grant_calls_trans a b w w1 w2 :
  grant_calls a w w1 -> grant_calls b w1 w2 -> grant_calls (a + b) w w2.
Proof.
  intros (t1 & E1 & L1) (t2 & E2 & L2). exists (t1 ++ t2). split.
  - by rewrite E2, E1, app_assoc.
  - rewrite List.filter_app, length_app. lia.
Qed.

Lemma advances_refl w : advances 0 w w.
Proof. split; [reflexivity|apply grant_calls_refl]. Qed.

Lemma advances_trans a b w w1 w2 :
  advances a w w1 -> advances b w1 w2 -> advances (a + b) w w2.
Proof.
  intros [G1 C1] [G2 C2]. split; [by etransitivity|].
  by eapply grant_calls_trans.
Qed.

Lemma lookups_no_grant t :
  Forall (fun x : KCall * bool => is_lookup x.1 = true) t ->
  length (List.filter (fun x : KCall * bool => is_grant x.1) t) = 0%nat.
Proof.
  induction 1 as [|[c b] t Hc _ IH]; simpl; [done|].
  simpl in Hc. destruct c; try discriminate; exact IH.
Qed.

(** A run that only looks things up. *)
Lemma lookup_advances {A} (m : M A) w a w' :
  respects is_lookup eq m -> m w = (a, w') ->
  service w' = service w /\ advances 0 w w'.
Proof.
  intros Hm Hrun. specialize (Hm w). rewrite Hrun in Hm.
  destruct Hm as (t & Ht & Hall & Hs). simpl in *. split; [done|]. split.
  - rewrite <- Hs. reflexivity.
  - exists t. split; [done|]. by apply lookups_no_grant.
Qed.

Section Selective.
Variable oracle : nat -> KCall -> option exn.
Variable cfg : Config.OpenStackConfig.
Variable bad : N -> bool.
Variable e : exn.
Hypothesis answered : forall n c, is_grant c = false -> oracle n c = None.
Hypothesis selective :
  forall n r i j,
    oracle n (CRolesGrant r i j) = if bad i then Some e else None.
Hypothesis not_conflict : forall m d, e <> Conflict m d.

Lemma call_answered {A} c (sem : Service -> outcome A * Service) w :
  is_grant c = false ->
  call oracle c sem w
  = ((sem (service w)).1,
     {| service := (sem (service w)).2;
        trace := trace w ++ [(c, is_ok (sem (service w)).1)];
        slept := slept w |}).
Proof. intros Hc. unfold call. by rewrite answered. Qed.

Lemma call_advances {A} c (sem : Service -> outcome A * Service) w :
  is_grant c = false ->
  grows (service w) (sem (service w)).2 ->
  advances 0 w (call oracle c sem w).2.
Proof.
  intros Hc Hg. rewrite call_answered by done. split; [exact Hg|].
  exists [(c, is_ok (sem (service w)).1)]. split; [done|].
  simpl. by rewrite Hc.
Qed.

Lemma get_domain_a name w :
  exists w',
    KeystoneClient.get_domain oracle name w
    = (Ok (head (List.filter (fun d => String.eqb (domain_name d) name)
                   (domains (service w)))), w')
    /\ service w' = service w /\ advances 0 w w'.
Proof.
  eexists. split.
  - unfold KeystoneClient.get_domain, try_except, bind,
      KeystoneClient.domains_list.
    rewrite call_answered by done. reflexivity.
  - split; [done|]. split; [reflexivity|]. eexists [_]. by split.
Qed.

Lemma get_project_a name w d :
  configured cfg (service w) = Some d ->
  exists w',
    KeystoneClient.get_project oracle cfg name None w
    = (Ok (head (projects_named name (domain_id d) (service w))), w')
    /\ service w' = service w /\ advances 0 w w'.
Proof.
  intros Hd. unfold configured in Hd.
  assert (Hrun : exists w',
             KeystoneClient.get_project oracle cfg name None w
             = (Ok (head (projects_named name (domain_id d) (service w))),
                w')).
  { destruct (get_domain_a (Config.domain_name cfg) w) as (w1 & Hdom & Hs1 & _).
    eexists.
    unfold KeystoneClient.get_project, try_except, bind,
      KeystoneClient.configured_domain, KeystoneClient.projects_list.
    rewrite Hdom, Hd. rewrite call_answered by done.
    cbn [fmap option_fmap option_map projects_list_sem fst snd].
    rewrite Hs1. reflexivity. }
  destruct Hrun as (w' & Hrun). exists w'. split; [done|].
  by eapply lookup_advances; [apply get_project_lookup|].
Qed.

Lemma get_user_a name w d :
  configured cfg (service w) = Some d ->
  exists w',
    KeystoneClient.get_user oracle cfg name None w
    = (Ok (head (users_named name (domain_id d) (service w))), w')
    /\ service w' = service w /\ advances 0 w w'.
Proof.
  intros Hd. unfold configured in Hd.
  assert (Hrun : exists w',
             KeystoneClient.get_user oracle cfg name None w
             = (Ok (head (users_named name (domain_id d) (service w))), w')).
  { destruct (get_domain_a (Config.domain_name cfg) w) as (w1 & Hdom & Hs1 & _).
    eexists.
    unfold KeystoneClient.get_user, try_except, bind,
      KeystoneClient.configured_domain, KeystoneClient.users_list.
    rewrite Hdom, Hd. rewrite call_answered by done.
    cbn [fmap option_fmap option_map users_list_sem fst snd].
    rewrite Hs1. reflexivity. }
  destruct Hrun as (w' & Hrun). exists w'. split; [done|].
  by eapply lookup_advances; [apply get_user_lookup|].
Qed.

Lemma get_role_a name w :
  exists w',
    KeystoneClient.get_role oracle name w
    = (Ok (head (roles_named name (service w))), w')
    /\ service w' = service w /\ advances 0 w w'.
Proof.
  assert (Hrun : exists w',
             KeystoneClient.get_role oracle name w
             = (Ok (head (roles_named name (service w))), w')).
  { eexists.
    unfold KeystoneClient.get_role, try_except, bind,
      KeystoneClient.roles_list.
    rewrite call_answered by done. reflexivity. }
  destruct Hrun as (w' & Hrun). exists w'. split; [done|].
  by eapply lookup_advances; [apply get_role_lookup|].
Qed.

Lemma get_resource_a pn w d p :
  configured cfg (service w) = Some d ->
  head (projects_named pn (domain_id d) (service w)) = Some p ->
  exists r w',
    OpenStackClient.get_resource oracle cfg pn w = (Ok (Some r), w')
    /\ service w' = service w /\ advances 0 w w'.
Proof.
  intros Hd Hp.
  destruct (get_project_a pn w d Hd) as (w1 & Hget & Hs1 & _).
  destruct (get_domain_a (Config.domain_name cfg) w1) as (w2 & Hdom & _).
  assert (Hrun : exists r w',
             OpenStackClient.get_resource oracle cfg pn w
             = (Ok (Some r), w')).
  { unfold OpenStackClient.get_resource, try_except, bind.
    rewrite Hget, Hp, Hdom. unfold ret. by eexists _, _. }
  destruct Hrun as (r & w' & Hrun). exists r, w'. split; [done|].
  by eapply lookup_advances; [apply get_resource_lookup|].
Qed.

Lemma ensure_domain_a w d :
  configured cfg (service w) = Some d ->
  exists w',
    KeystoneClient.ensure_domain oracle (Config.domain_name cfg) w
    = (Ok (Some d), w')
    /\ service w' = service w /\ advances 0 w w'.
Proof.
  intros Hd. unfold configured in Hd.
  destruct (get_domain_a (Config.domain_name cfg) w) as (w1 & Hget & Hs & Ha).
  exists w1. split; [|done].
  unfold KeystoneClient.ensure_domain, bind. by rewrite Hget, Hd.
Qed.

Lemma ensure_user_a name w d :
  configured cfg (service w) = Some d ->
  Config.create_users_if_not_exist cfg = true ->
  exists u w',
    KeystoneClient.ensure_user oracle cfg name None None None w
    = (Ok (Some u), w')
    /\ advances 0 w w'
    /\ head (users_named name (domain_id d) (service w')) = Some u.
Proof.
  intros Hd Hon.
  destruct (get_user_a name w d Hd) as (w1 & Hget & Hs1 & A1).
  destruct (head (users_named name (domain_id d) (service w)))
    as [u|] eqn:Hhead.
  - exists u, w1. split_and!; [|done|by rewrite Hs1].
    apply retry_first_try.
    unfold KeystoneClient.ensure_user_func, bind. by rewrite Hget.
  - assert (Hd1 : configured cfg (service w1) = Some d) by by rewrite Hs1.
    destruct (ensure_domain_a w1 d Hd1) as (w2 & Hens & Hs2 & A2).
    assert (Hnil : users_named name (domain_id d) (service w) = []).
    { by destruct (users_named name (domain_id d) (service w)). }
    set (u := {| user_id := next_id (service w); user_name := name;
                 user_domain_id := domain_id d; user_email := None;
                 user_enabled := Config.user_enabled_by_default cfg |}).
    set (s3 := {| domains := domains (service w);
                  projects := projects (service w);
                  users := users (service w) ++ [u];
                  roles := roles (service w);
                  assignments := assignments (service w);
                  next_id := N.succ (next_id (service w));
                  default_domain := default_domain (service w) |}).
    assert (Hsem : users_create_sem name None (Some (domain_id d))
                     (Config.user_enabled_by_default cfg) (service w2)
                   = (Ok u, s3)).
    { unfold users_create_sem. cbn [domain_or_default]. rewrite Hs2, Hs1.
      unfold users_named in Hnil. by rewrite (filter_nil_existsb _ _ Hnil). }
    exists u, (KeystoneClient.users_create oracle name None (Some d)
                 (Config.user_enabled_by_default cfg) w2).2.
    split_and!.
    + apply retry_first_try.
      unfold KeystoneClient.ensure_user_func, bind.
      rewrite Hget, Hon. cbn [negb]. rewrite Hens.
      unfold KeystoneClient.users_create. rewrite call_answered by done.
      cbn [fmap option_fmap option_map]. by rewrite Hsem.
    + replace 0%nat with (0 + (0 + 0))%nat by done.
      eapply advances_trans; [exact A1|].
      eapply advances_trans; [exact A2|].
      unfold KeystoneClient.users_create. apply call_advances; [done|].
      cbn [fmap option_fmap option_map]. rewrite Hsem. cbn [snd].
      rewrite Hs2, Hs1.
      split_and!; [done|done|by eexists|exists []; by rewrite app_nil_r
                  |exists []; by rewrite app_nil_r|done].
    + unfold KeystoneClient.users_create. rewrite call_answered by done.
      cbn [fmap option_fmap option_map snd service]. rewrite Hsem.
      cbn [snd]. unfold users_named in *. cbn [users s3].
      rewrite List.filter_app, Hnil. simpl.
      unfold user_matches. simpl.
      by rewrite String.eqb_refl, N.eqb_refl.
Qed.

Lemma ensure_role_a name w :
  exists r w',
    KeystoneClient.ensure_role oracle name w = (Ok (Some r), w')
    /\ advances 0 w w'
    /\ head (roles_named name (service w')) = Some r.
Proof.
  destruct (get_role_a name w) as (w1 & Hget & Hs1 & A1).
  destruct (head (roles_named name (service w))) as [r|] eqn:Hhead.
  - exists r, w1. split_and!; [|done|by rewrite Hs1].
    unfold KeystoneClient.ensure_role, bind. by rewrite Hget.
  - assert (Hnil : roles_named name (service w) = []).
    { by destruct (roles_named name (service w)). }
    set (r := {| role_id := next_id (service w); role_name := name |}).
    set (s2 := {| domains := domains (service w);
                  projects := projects (service w);
                  users := users (service w);
                  roles := roles (service w) ++ [r];
                  assignments := assignments (service w);
                  next_id := N.succ (next_id (service w));
                  default_domain := default_domain (service w) |}).
    assert (Hsem : roles_create_sem name (service w1) = (Ok r, s2)).
    { unfold roles_create_sem. rewrite Hs1. unfold roles_named in Hnil.
      by rewrite (filter_nil_existsb _ _ Hnil). }
    exists r, (KeystoneClient.roles_create oracle name w1).2. split_and!.
    + unfold KeystoneClient.ensure_role, bind, try_except.
      rewrite Hget. unfold KeystoneClient.roles_create.
      rewrite call_answered by done. by rewrite Hsem.
    + replace 0%nat with (0 + 0)%nat by done.
      eapply advances_trans; [exact A1|].
      unfold KeystoneClient.roles_create. apply call_advances; [done|].
      rewrite Hsem. cbn [snd]. rewrite Hs1.
      split_and!; [done|done|exists []; by rewrite app_nil_r|by eexists
                  |exists []; by rewrite app_nil_r|done].
    + unfold KeystoneClient.roles_create. rewrite call_answered by done.
      rewrite Hsem. cbn [snd service]. unfold roles_named in *.
      cbn [roles s2]. rewrite List.filter_app, Hnil. simpl.
      by rewrite String.eqb_refl.
Qed.

(** The grant: refused by the oracle for a [bad] user, made otherwise. *)
Lemma assign_role_a u p name w :
  exists w',
    advances 1 w w'
    /\ KeystoneClient.assign_role oracle (Some u) (Some p) name w
       = (Ok (negb (bad (user_id u))), w')
    /\ (bad (user_id u) = false ->
        exists r,
          head (roles_named name (service w')) = Some r
          /\ existsb (same_assignment (role_id r) (user_id u)
                        (project_id p)) (assignments (service w')) = true).
Proof.
  destruct (ensure_role_a name w) as (r & w1 & Hens & A1 & Hr).
  pose proof (selective (length (trace w1)) (Some (role_id r)) (user_id u)
                (project_id p)) as Hsel.
  destruct (bad (user_id u)) eqn:Hbad.
  - assert (Hgrant : KeystoneClient.roles_grant oracle (Some r) (Some u)
                       (Some p) w1
                     = (Raise e,
                        {| service := service w1;
                           trace := trace w1
                                    ++ [(CRolesGrant (Some (role_id r))
                                           (user_id u) (project_id p),
                                         false)];
                           slept := slept w1 |})).
    { unfold KeystoneClient.roles_grant, call.
      cbn [fmap option_fmap option_map]. by rewrite Hsel. }
    eexists. split_and!; [|exact (assign_role_grant_fails oracle _ _ _ _ _ _
                                    _ _ Hens Hgrant not_conflict)|done].
    replace 1%nat with (0 + 1)%nat by done.
    eapply advances_trans; [exact A1|]. split; [reflexivity|].
    eexists [_]. by split.
  - set (c := CRolesGrant (Some (role_id r)) (user_id u) (project_id p)).
    set (sem := roles_grant_sem (Some (role_id r)) (user_id u)
                  (project_id p)).
    assert (Hok : (sem (service w1)).1 = Ok tt).
    { unfold sem, roles_grant_sem. by destruct (existsb _ _). }
    assert (Hgrant : KeystoneClient.roles_grant oracle (Some r) (Some u)
                       (Some p) w1
                     = (Ok tt,
                        {| service := (sem (service w1)).2;
                           trace := trace w1 ++ [(c, true)];
                           slept := slept w1 |})).
    { unfold KeystoneClient.roles_grant, call.
      cbn [fmap option_fmap option_map]. rewrite Hsel. fold sem.
      by rewrite Hok. }
    eexists. split_and!.
    + replace 1%nat with (0 + 1)%nat by done.
      eapply advances_trans; [exact A1|].
      instantiate (1 := {| service := (sem (service w1)).2;
                           trace := trace w1 ++ [(c, true)];
                           slept := slept w1 |}).
      split; [|eexists [_]; by split]. cbn [service].
      unfold sem, roles_grant_sem.
      destruct (existsb _ _) eqn:Hex; cbn [snd]; [reflexivity|].
      split_and!; [done|done|exists []; by rewrite app_nil_r
                  |exists []; by rewrite app_nil_r|by eexists|].
      cbn [assignments]. intros Hnd. apply NoDup_ListNoDup.
      apply NoDup_ListNoDup in Hnd. apply NoDup_app. split_and!.
      * done.
      * intros x Hx Hin. apply list_elem_of_singleton in Hin as ->.
        apply list_elem_of_In in Hx.
        assert (Hc : existsb (same_assignment (role_id r) (user_id u)
                                (project_id p))
                       (assignments (service w1)) = true).
        { apply existsb_exists. eexists. split; [exact Hx|].
          unfold same_assignment. simpl. by rewrite !N.eqb_refl. }
        congruence.
      * apply NoDup_singleton.
    + apply retry_first_try.
      unfold KeystoneClient.assign_role_func, try_except, bind.
      rewrite Hens, Hgrant. reflexivity.
    + intros _. exists r. cbn [service]. unfold sem, roles_grant_sem.
      destruct (existsb _ _) eqn:Hex; cbn [snd]; [by split|].
      split; [exact Hr|].
      cbn [assignments]. rewrite existsb_app. simpl.
      unfold same_assignment at 2. simpl.
      rewrite !N.eqb_refl. simpl. by rewrite orb_true_r.
Qed.

Lemma grant_refused_stable u d s s' usr :
  grows s s' -> head (users_named u (domain_id d) s) = Some usr ->
  grant_refused bad u d s' = bad (user_id usr).
Proof.
  intros G Hs. unfold grant_refused.
  by rewrite (users_head_grows _ _ _ _ _ G Hs).
Qed.

Lemma create_association_a u pn w d p :
  configured cfg (service w) = Some d ->
  Config.create_users_if_not_exist cfg = true ->
  head (projects_named pn (domain_id d) (service w)) = Some p ->
  exists r w' usr,
    OpenStackClient.create_association oracle cfg u pn w = (r, w')
    /\ advances 1 w w'
    /\ head (users_named u (domain_id d) (service w')) = Some usr
    /\ is_ok r = negb (bad (user_id usr))
    /\ (is_ok r = true -> settled cfg u pn d (service w')).
Proof.
  intros Hd Hon Hp.
  destruct (get_project_a pn w d Hd) as (w1 & Hget & Hs1 & A1).
  assert (Hd1 : configured cfg (service w1) = Some d) by by rewrite Hs1.
  destruct (ensure_user_a u w1 d Hd1 Hon) as (usr & w2 & Hens & A2 & Hu).
  destruct (assign_role_a usr p (Config.default_role cfg) w2)
    as (w3 & A3 & Hass & Hgood).
  assert (A : advances 1 w w3).
  { replace 1%nat with (0 + (0 + 1))%nat by done.
    eapply advances_trans; [exact A1|].
    eapply advances_trans; [exact A2|exact A3]. }
  assert (Hu3 : head (users_named u (domain_id d) (service w3)) = Some usr).
  { destruct A3 as [G _]. by eapply users_head_grows. }
  destruct (bad (user_id usr)) eqn:Hb.
  - eexists _, w3, usr. split_and!; [|exact A|exact Hu3| |].
    + unfold OpenStackClient.create_association, try_except, bind.
      rewrite Hget, Hp. unfold ret. rewrite Hens, Hass. cbn [negb].
      reflexivity.
    + by rewrite Hb.
    + done.
  - destruct (Hgood eq_refl) as (r & Hr & Ha).
    eexists _, w3, usr. split_and!; [|exact A|exact Hu3| |].
    + unfold OpenStackClient.create_association, try_except, bind.
      rewrite Hget, Hp. unfold ret. rewrite Hens, Hass. cbn [negb].
      reflexivity.
    + by rewrite Hb.
    + intros _. exists p, usr, r. split_and!; [|done|done|done].
      destruct A as [G _]. by rewrite (projects_named_grows _ _ _ _ G).
Qed.

Lemma add_each_a pn d p us :
  Config.create_users_if_not_exist cfg = true ->
  forall acc w,
    configured cfg (service w) = Some d ->
    head (projects_named pn (domain_id d) (service w)) = Some p ->
    exists w',
      add_each oracle cfg pn us acc w
      = (Ok (list_to_set
               (List.filter
                  (fun u => negb (grant_refused bad u d (service w'))) us)
             ∪ acc), w')
      /\ advances (length us) w w'
      /\ forall u, In u us -> grant_refused bad u d (service w') = false ->
                   settled cfg u pn d (service w').
Proof.
  intros Hon. induction us as [|u us IH]; intros acc w Hd Hp.
  - exists w. simpl. unfold ret. rewrite (left_id_L ∅ (∪)).
    split_and!; [done|apply advances_refl|by intros ? []].
  - destruct (create_association_a u pn w d p Hd Hon Hp)
      as (r & w1 & usr & Hrun & A1 & Hu & Hok & Hset).
    pose proof A1 as [G1 _].
    destruct (IH (if is_ok r then {[u]} ∪ acc else acc) w1)
      as (w2 & Hrest & A2 & Hall).
    { by eapply configured_grows. }
    { by rewrite (projects_named_grows _ _ _ _ G1). }
    pose proof A2 as [G2 _].
    assert (Hend : grant_refused bad u d (service w2) = bad (user_id usr))
      by by eapply grant_refused_stable.
    exists w2. split_and!.
    + rewrite add_each_step, Hrun. cbn [fst snd]. rewrite Hrest.
      do 2 f_equal. cbn [List.filter]. rewrite Hend, <- Hok.
      destruct (is_ok r); cbn [list_to_set]; [|done].
      by rewrite (comm_L (∪) {[u]} (list_to_set _)), <- (assoc_L (∪)).
    + cbn [length]. replace (S (length us)) with (1 + length us)%nat by done.
      by eapply advances_trans.
    + intros x [<-|Hx] Hgood; [|by apply Hall].
      eapply settled_grows; [exact G2|].
      apply Hset. by rewrite Hok, <- Hend, Hgood.
Qed.

Lemma add_users_a id us w d p :
  blank id = false -> (String.length id <= 255)%nat ->
  Config.create_users_if_not_exist cfg = true ->
  configured cfg (service w) = Some d ->
  head (projects_named (sanitize_for_openstack id) (domain_id d) (service w))
  = Some p ->
  exists w',
    add_users_to_resource oracle cfg id us w
    = (Ok (list_to_set
             (List.filter
                (fun u => negb (grant_refused bad u d (service w'))) us)), w')
    /\ advances (length us) w w'
    /\ forall u, In u us -> grant_refused bad u d (service w') = false ->
                 settled cfg u (sanitize_for_openstack id) d (service w').
Proof.
  intros Hb Hlen Hon Hd Hp.
  destruct (get_resource_a (sanitize_for_openstack id) w d p Hd Hp)
    as (r & wa & Hres & Hsa & Aa).
  destruct (add_each_a (sanitize_for_openstack id) d p us Hon ∅ wa)
    as (w' & Hrun & A & Hall).
  { by rewrite Hsa. }
  { by rewrite Hsa. }
  rewrite (right_id_L ∅ (∪)) in Hrun.
  exists w'. split_and!; [| |done].
  - rewrite (add_users_run oracle cfg id us w r wa Hb Hlen Hres).
    unfold try_except. by rewrite Hrun.
  - replace (length us) with (0 + length us)%nat by done.
    by eapply advances_trans.
Qed.
End Selective.

(** C5. The loop of [add_users_to_resource] never raises: after handling a
    name it goes on with the remaining names, having added the name to the
    success set exactly when [create_association] returned for it; a grant
    that fails for a name leaves the success set as it was and the loop goes
    on with the names after it.  Once the project is found the method
    returns a subset of the requested names; of three distinct names whose
    second association fails, exactly the first and the third are returned,
    two names, and no exception reaches the caller.  When the service
    refuses the grants to some of its users, for any reason but a conflict,
    and answers every other call, the method makes one grant call for each
    requested name, returns exactly the names whose grant was not refused,
    and every returned name then holds the default role in the project: the
    grants for the other names were made and took effect. *)
Theorem add_users_isolates_failures (oracle : nat -> KCall -> option exn)
    (cfg : Config.OpenStackConfig) :
  (forall pn u rest added w,
      add_each oracle cfg pn (u :: rest) added w
      = add_each oracle cfg pn rest
          (if is_ok (OpenStackClient.create_association oracle cfg u pn w).1
           then {[u]} ∪ added else added)
          (OpenStackClient.create_association oracle cfg u pn w).2)
  /\ (forall pn u rest added w p w1 user w2 role w3 e w4,
        KeystoneClient.get_project oracle cfg pn None w = (Ok (Some p), w1) ->
        KeystoneClient.ensure_user oracle cfg u None None None w1
        = (Ok user, w2) ->
        KeystoneClient.ensure_role oracle (Config.default_role cfg) w2
        = (Ok role, w3) ->
        KeystoneClient.roles_grant oracle role user (Some p) w3
        = (Raise e, w4) ->
        (forall m d, e <> Conflict m d) ->
        add_each oracle cfg pn (u :: rest) added w
        = add_each oracle cfg pn rest added w4)
  /\ (forall id user_ids w r w1,
        blank id = false -> (String.length id <= 255)%nat ->
        OpenStackClient.get_resource oracle cfg (sanitize_for_openstack id) w
        = (Ok (Some r), w1) ->
        exists added w',
          add_users_to_resource oracle cfg id user_ids w = (Ok added, w')
          /\ added ⊆ list_to_set user_ids)
  /\ (forall id a b c w r w1 ra w2 e w3 rc w4,
        blank id = false -> (String.length id <= 255)%nat ->
        a <> b -> b <> c -> a <> c ->
        let pn := sanitize_for_openstack id in
        OpenStackClient.get_resource oracle cfg pn w = (Ok (Some r), w1) ->
        OpenStackClient.create_association oracle cfg a pn w1 = (Ok ra, w2) ->
        OpenStackClient.create_association oracle cfg b pn w2 = (Raise e, w3) ->
        OpenStackClient.create_association oracle cfg c pn w3 = (Ok rc, w4) ->
        add_users_to_resource oracle cfg id [a; b; c] w = (Ok {[a; c]}, w4)
        /\ size ({[a; c]} : gset string) = 2%nat
        /\ b ∉ ({[a; c]} : gset string))
  /\ (forall (bad : N -> bool) (e : exn) id us w d p,
        (forall n c, is_grant c = false -> oracle n c = None) ->
        (forall n r i j,
            oracle n (CRolesGrant r i j) = if bad i then Some e else None) ->
        (forall m dd, e <> Conflict m dd) ->
        blank id = false -> (String.length id <= 255)%nat ->
        Config.create_users_if_not_exist cfg = true ->
        configured cfg (service w) = Some d ->
        head (projects_named (sanitize_for_openstack id) (domain_id d)
                (service w)) = Some p ->
        exists w',
          add_users_to_resource oracle cfg id us w
          = (Ok (list_to_set
                   (List.filter
                      (fun u => negb (grant_refused bad u d (service w')))
                      us)), w')
          /\ grant_calls (length us) w w'
          /\ (forall u, In u us ->
                grant_refused bad u d (service w') = false ->
                settled cfg u (sanitize_for_openstack id) d (service w'))
          /\ projects (service w') = projects (service w)
          /\ (forall u usr,
                head (users_named u (domain_id d) (service w)) = Some usr ->
                grant_refused bad u d (service w') = bad (user_id usr))
          /\ (forall a b c,
                us = [a; b; c] -> a <> c ->
                grant_refused bad a d (service w') = false ->
                grant_refused bad b d (service w') = true ->
                grant_refused bad c d (service w') = false ->
                add_users_to_resource oracle cfg id us w
                = (Ok {[a; c]}, w')
                /\ size ({[a; c]} : gset string) = 2%nat
                /\ b ∉ ({[a; c]} : gset string))).
Proof.
  split_and!.
  - apply add_each_step.
  - intros pn u rest added w p w1 user w2 role w3 e w4 Hp Hu Hrole Hgrant Hne.
    destruct (create_association_grant_fails oracle cfg u pn w p w1 user w2
                role w3 e w4 Hp Hu Hrole Hgrant Hne) as [msg Hrun].
    by rewrite add_each_step, Hrun.
  - intros id user_ids w r w1 Hb Hl Hres. unfold add_users_to_resource.
    rewrite Hb, validate_ok by auto using not_blank_not_empty.
    unfold try_except, bind. rewrite Hres.
    destruct (add_each_total oracle cfg (sanitize_for_openstack id) user_ids
                ∅ w1) as (added & w' & -> & _ & Hsup).
    exists added, w'. split; [done|]. by rewrite (left_id_L ∅ (∪)) in Hsup.
  - intros id a b c w r w1 ra w2 e w3 rc w4 Hb Hl Hab Hbc Hac pn
      Hres Ha Hfail Hc.
    split_and!.
    + unfold add_users_to_resource.
      rewrite Hb, validate_ok by auto using not_blank_not_empty.
      unfold try_except, bind. fold pn. rewrite Hres.
      rewrite add_each_step, Ha. cbn [fst snd is_ok].
      rewrite add_each_step, Hfail. cbn [fst snd is_ok].
      rewrite add_each_step, Hc. cbn [fst snd is_ok add_each].
      unfold ret. do 2 f_equal.
      rewrite (right_id_L ∅ (∪)). apply (comm_L (∪)).
    + rewrite size_union, !size_singleton; [done|].
      by apply disjoint_singleton_l, not_elem_of_singleton.
    + rewrite elem_of_union, !elem_of_singleton. intros [?|?]; congruence.
  - intros bad e id us w d p Hans Hsel Hnc Hb Hlen Hon Hd Hp.
    destruct (add_users_a oracle cfg bad e Hans Hsel Hnc id us w d p Hb Hlen
                Hon Hd Hp) as (w' & Hrun & [G C] & Hset).
    exists w'. split_and!; [done|done|done| | |].
    + by destruct G as (_ & -> & _).
    + intros u usr Hu. by eapply grant_refused_stable.
    + intros a b c -> Hac Ha Hbad Hc. split_and!.
      * rewrite Hrun. cbn [List.filter]. rewrite Ha, Hbad, Hc.
        cbn [negb list_to_set]. do 2 f_equal.
        by rewrite (right_id_L ∅ (∪)).
      * rewrite size_union, !size_singleton; [done|].
        by apply disjoint_singleton_l, not_elem_of_singleton.
      * rewrite elem_of_union, !elem_of_singleton.
        intros [?|?]; subst; simpl in *; congruence.
Qed.

Lemma add_users_isolates_failures_witness :
  (exists w4,
     add_users_to_resource (Scenario.grant_fails_for 21) Config.default
       "abc-123" ["alice"; "bob"; "carol"]
       (Scenario.world_of Scenario.populated)
     = (Ok {["alice"; "carol"]}, w4)
     /\ size ({["alice"; "carol"]} : gset string) = 2%nat
     /\ "bob" ∉ ({["alice"; "carol"]} : gset string))
  /\ (exists w4,
        add_each (Scenario.grant_fails_for 21) Config.default "abc-123"
          ["bob"; "carol"] {["alice"]} (Scenario.world_of Scenario.populated)
        = add_each (Scenario.grant_fails_for 21) Config.default "abc-123"
            ["carol"] {["alice"]} w4)
  /\ (exists added w',
        add_users_to_resource (Scenario.grant_fails_for 21) Config.default
          "abc-123" ["bob"] (Scenario.world_of Scenario.populated)
        = (Ok added, w')
        /\ added ⊆ list_to_set ["bob"])
  /\ (exists w',
        add_users_to_resource (Scenario.grant_fails_for 21) Config.default
          "abc-123" ["alice"; "bob"; "carol"]
          (Scenario.world_of Scenario.populated)
        = (Ok {["alice"; "carol"]}, w')
        /\ grant_calls 3 (Scenario.world_of Scenario.populated) w'
        /\ settled Config.default "alice" "abc-123" Scenario.default_dom
             (service w')
        /\ settled Config.default "carol" "abc-123" Scenario.default_dom
             (service w')
        /\ projects (service w') = projects Scenario.populated).
Proof.
  pose proof (add_users_isolates_failures (Scenario.grant_fails_for 21)
                Config.default) as (_ & Hgrant & Hsub & H & Hsel).
  split_and!.
  - specialize (H "abc-123" "alice" "bob" "carol"
                  (Scenario.world_of Scenario.populated)).
    cbv zeta in H.
    edestruct H as (H1 & H2 & H3);
      [reflexivity|simpl; lia|discriminate|discriminate|discriminate
      |vm_compute; reflexivity|vm_compute; reflexivity
      |vm_compute; reflexivity|vm_compute; reflexivity|].
    eexists. split_and!; [exact H1|exact H2|exact H3].
  - eexists.
    eapply (Hgrant "abc-123" "bob" ["carol"] {["alice"]}
              (Scenario.world_of Scenario.populated));
      [vm_compute; reflexivity|vm_compute; reflexivity
      |vm_compute; reflexivity|vm_compute; reflexivity
      |intros m d; discriminate].
  - eapply (Hsub "abc-123" ["bob"] (Scenario.world_of Scenario.populated));
      [reflexivity|simpl; lia|vm_compute; reflexivity].
  - destruct (Hsel (fun i => (i =? 21)%N)
                (ServiceError "forbidden" (Some 403%N) None) "abc-123"
                ["alice"; "bob"; "carol"]
                (Scenario.world_of Scenario.populated) Scenario.default_dom
                (Scenario.mk_project 10 "abc-123" 1))
      as (w' & _ & Hcalls & Hset & Hproj & Hfound & Hthree).
    + intros n c Hc. by destruct c.
    + intros n r i j. reflexivity.
    + intros m dd. discriminate.
    + reflexivity.
    + simpl. lia.
    + reflexivity.
    + reflexivity.
    + reflexivity.
    + assert (Ha := Hfound "alice" (Scenario.mk_user 20 "alice") eq_refl).
      assert (Hb := Hfound "bob" (Scenario.mk_user 21 "bob") eq_refl).
      assert (Hc := Hfound "carol" (Scenario.mk_user 22 "carol") eq_refl).
      destruct (Hthree "alice" "bob" "carol" eq_refl) as (Hrun & _);
        [discriminate|exact Ha|exact Hb|exact Hc|].
      exists w'. split_and!; [exact Hrun|exact Hcalls| | |exact Hproj].
      * apply Hset; [by left|exact Ha].
      * apply Hset; [right; right; by left|exact Hc].
Defined.

End IsolationProofs.

(** ** Removing members on a service that answers every call *)

Module RevocationProofs.
Import Py Identity Effects Logic LogicProofs GatewayProofs MembershipProofs.
Import Sanitize Backend Outcomes TaxonomyProofs CreationProofs Membership.
Import DeletionProofs ReliableProofs.

#[export] Instance shrinks_refl : Reflexive shrinks.
Proof.
  intros s. split_and!; [done..|]. exists (fun _ => true).
  induction (assignments s) as [|a l IH]; simpl; congruence.
Qed.

Lemma filter_filter_and {A} (f g : A -> bool) l :
  List.filter f (List.filter g l) = List.filter (fun x => g x && f x) l.
Proof.
  induction l as [|x l IH]; simpl; [done|].
  destruct (g x); simpl; [destruct (f x)|]; by rewrite IH.
Qed.

#[export] Instance shrinks_trans : Transitive shrinks.
Proof.
  intros a b c (D1 & P1 & U1 & R1 & [f F1]) (D2 & P2 & U2 & R2 & [g F2]).
  split_and!; [congruence..|].
  exists (fun x => f x && g x). by rewrite F2, F1, filter_filter_and.
Qed.

Lemma shrinks_in s s' a :
  shrinks s s' -> In a (assignments s') -> In a (assignments s).
Proof.
  intros (_ & _ & _ & _ & [f F]) H. rewrite F in H.
  by apply filter_In in H as [H _].
Qed.

Lemma shrinks_nodup s s' :
  shrinks s s' -> List.NoDup (assignments s) -> List.NoDup (assignments s').
Proof.
  intros (_ & _ & _ & _ & [f F]) H. rewrite F. by apply List.NoDup_filter.
Qed.

Lemma shrinks_configured cfg s s' d :
  shrinks s s' -> configured cfg s = Some d -> configured cfg s' = Some d.
Proof. intros (D & _). unfold configured. by rewrite D. Qed.

Lemma shrinks_projects name d s s' :
  shrinks s s' -> projects_named name d s' = projects_named name d s.
Proof. intros (_ & P & _). unfold projects_named. by rewrite P. Qed.

Lemma shrinks_users name d s s' :
  shrinks s s' -> users_named name d s' = users_named name d s.
Proof. intros (_ & _ & U & _). unfold users_named. by rewrite U. Qed.

Lemma shrinks_assignments_of u p s s' :
  shrinks s s' -> assignments_of u p s = [] -> assignments_of u p s' = [].
Proof.
  intros (_ & _ & _ & _ & [f F]) H. unfold assignments_of in *.
  by rewrite F, filter_filter_comm, H.
Qed.

Lemma same_assignment_self a :
  same_assignment (assignment_role a) (assignment_user a)
    (assignment_project a) a = true.
Proof. unfold same_assignment. by rewrite !N.eqb_refl. Qed.

Lemma same_assignment_eq a b :
  same_assignment (assignment_role a) (assignment_user a)
    (assignment_project a) b = true -> b = a.
Proof.
  unfold same_assignment. intros H.
  apply andb_true_iff in H as (H & Hp). apply andb_true_iff in H as (Hr & Hu).
  apply N.eqb_eq in Hp, Hr, Hu. destruct a, b; simpl in *. congruence.
Qed.

Section QuietRemoval.
Variable oracle : nat -> KCall -> option exn.
Variable cfg : Config.OpenStackConfig.
Hypothesis quiet : forall n c, oracle n c = None.

Lemma revoke_each_q usr p l :
  forall b w,
    List.NoDup l ->
    (forall a, In a l ->
       In a (assignments (service w))
       /\ assignment_user a = user_id usr
       /\ assignment_project a = project_id p) ->
    exists w',
      KeystoneClient.revoke_each oracle usr p l b w = (Ok b, w')
      /\ shrinks (service w) (service w')
      /\ forall a, In a (assignments (service w')) -> ~ In a l.
Proof.
  induction l as [|a l IH]; intros b w Hnd Hall.
  - exists w. simpl. unfold ret. split_and!; [done|done|by intros ? ? []].
  - destruct (Hall a (or_introl eq_refl)) as (Hin & Hu & Hp).
    apply List.NoDup_cons_iff in Hnd as [Hnotin Hnd].
    assert (Hex : existsb (same_assignment (assignment_role a) (user_id usr)
                             (project_id p)) (assignments (service w)) = true).
    { apply existsb_exists. exists a. split; [done|].
      rewrite <- Hu, <- Hp. apply same_assignment_self. }
    set (s1 := {| domains := domains (service w);
                  projects := projects (service w);
                  users := users (service w); roles := roles (service w);
                  assignments :=
                    List.filter
                      (fun x => negb (same_assignment (assignment_role a)
                                        (user_id usr) (project_id p) x))
                      (assignments (service w));
                  next_id := next_id (service w);
                  default_domain := default_domain (service w) |}).
    set (w1 := {| service := s1;
                  trace := trace w
                           ++ [(CRolesRevoke (assignment_role a) (user_id usr)
                                  (project_id p), true)];
                  slept := slept w |}).
    assert (G1 : shrinks (service w) s1).
    { split_and!; [done..|]. by eexists. }
    destruct (IH b w1 Hnd) as (w2 & Hrun & G2 & Hgone).
    { intros x Hx. destruct (Hall x (or_intror Hx)) as (Hxin & Hxu & Hxp).
      split_and!; [|done|done]. cbn [w1 service s1 assignments].
      apply filter_In. split; [done|]. apply negb_true_iff.
      destruct (same_assignment _ _ _ x) eqn:E; [|done].
      rewrite <- Hu, <- Hp in E. apply same_assignment_eq in E. by subst. }
    exists w2. split_and!.
    + cbn [KeystoneClient.revoke_each]. unfold try_except, bind.
      unfold KeystoneClient.roles_revoke. rewrite call_quiet by done.
      unfold roles_revoke_sem. rewrite Hex. cbn [fst snd is_ok].
      unfold ret. exact Hrun.
    + by etransitivity.
    + intros x Hx [<-|Hxl]; [|by apply (Hgone x)].
      apply (shrinks_in _ _ _ G2) in Hx. cbn [w1 service s1 assignments] in Hx.
      apply filter_In in Hx as [_ Hx]. apply negb_true_iff in Hx.
      rewrite <- Hu, <- Hp, same_assignment_self in Hx. done.
Qed.

Lemma revoke_all_q usr p w :
  List.NoDup (assignments (service w)) ->
  exists w',
    KeystoneClient.revoke_all_project_roles oracle usr p w = (Ok true, w')
    /\ shrinks (service w) (service w')
    /\ assignments_of (user_id usr) (project_id p) (service w') = [].
Proof.
  intros Hnd.
  unfold KeystoneClient.revoke_all_project_roles, try_except, bind,
    KeystoneClient.role_assignments_list.
  rewrite call_quiet by done. unfold assignments_list_sem. cbn [fst snd].
  fold (assignments_of (user_id usr) (project_id p) (service w)).
  destruct (assignments_of (user_id usr) (project_id p) (service w))
    as [|a l] eqn:El.
  - unfold ret. eexists. split_and!; [done|done|]. cbn [service]. exact El.
  - set (w1 := {| service := service w; trace := _; slept := slept w |}).
    destruct (revoke_each_q usr p (a :: l) true w1) as (w2 & Hrun & G & Hgone).
    { rewrite <- El. unfold assignments_of. by apply List.NoDup_filter. }
    { intros x Hx. rewrite <- El in Hx. unfold assignments_of in Hx.
      apply filter_In in Hx as [Hx Hm].
      apply andb_true_iff in Hm as [Hu Hp]. apply N.eqb_eq in Hu, Hp.
      done. }
    rewrite Hrun. exists w2. split_and!; [done|exact G|].
    destruct (assignments_of (user_id usr) (project_id p) (service w2))
      as [|x l'] eqn:E2; [done|].
    assert (Hx : In x (assignments_of (user_id usr) (project_id p)
                         (service w2))) by (rewrite E2; by left).
    unfold assignments_of in Hx. apply filter_In in Hx as [Hx Hm].
    exfalso. apply (Hgone x Hx). rewrite <- El. unfold assignments_of.
    apply filter_In. split; [|done]. by apply (shrinks_in _ _ _ G).
Qed.

Lemma delete_association_q u pn w d p :
  configured cfg (service w) = Some d ->
  head (projects_named pn (domain_id d) (service w)) = Some p ->
  List.NoDup (assignments (service w)) ->
  exists msg w',
    OpenStackClient.delete_association oracle cfg u pn w = (Ok msg, w')
    /\ shrinks (service w) (service w')
    /\ forall usr,
         head (users_named u (domain_id d) (service w')) = Some usr ->
         assignments_of (user_id usr) (project_id p) (service w') = [].
Proof.
  intros Hd Hp Hnd.
  destruct (get_project_q oracle cfg quiet pn w d Hd) as (w1 & Hget & Hs1).
  assert (Hd1 : configured cfg (service w1) = Some d) by by rewrite Hs1.
  destruct (get_user_q oracle cfg quiet u w1 d Hd1) as (w2 & Hgu & Hs2).
  unfold OpenStackClient.delete_association, try_except, bind.
  rewrite Hget, Hp, Hgu, Hs1.
  destruct (head (users_named u (domain_id d) (service w))) as [usr|] eqn:Hu.
  - destruct (revoke_all_q usr p w2) as (w3 & Hrev & G & Hnone).
    { by rewrite Hs2, Hs1. }
    rewrite Hrev. unfold ret. eexists _, w3. split_and!; [done| |].
    + by rewrite <- Hs1, <- Hs2.
    + intros usr'. rewrite (shrinks_users _ _ _ _ G), Hs2, Hs1, Hu.
      by intros [= <-].
  - unfold ret. eexists _, w2. split_and!; [done| |].
    + by rewrite Hs2, Hs1.
    + intros usr'. by rewrite Hs2, Hs1, Hu.
Qed.

Lemma get_association_none u pn w d p :
  configured cfg (service w) = Some d ->
  head (projects_named pn (domain_id d) (service w)) = Some p ->
  (forall usr,
     head (users_named u (domain_id d) (service w)) = Some usr ->
     assignments_of (user_id usr) (project_id p) (service w) = []) ->
  exists w', ClientExtra.get_association oracle cfg u pn w = (Ok None, w').
Proof.
  intros Hd Hp Hnone.
  destruct (get_project_q oracle cfg quiet pn w d Hd) as (w1 & Hget & Hs1).
  assert (Hd1 : configured cfg (service w1) = Some d) by by rewrite Hs1.
  destruct (get_user_q oracle cfg quiet u w1 d Hd1) as (w2 & Hgu & Hs2).
  unfold ClientExtra.get_association, try_except, bind.
  rewrite Hget, Hp, Hgu, Hs1.
  destruct (head (users_named u (domain_id d) (service w))) as [usr|] eqn:Hu;
    [|by eexists].
  unfold KeystoneClient.role_assignments_list. rewrite call_quiet by done.
  unfold assignments_list_sem. cbn [fst snd]. rewrite Hs2, Hs1.
  fold (assignments_of (user_id usr) (project_id p) (service w)).
  rewrite (Hnone usr eq_refl). by eexists.
Qed.

Lemma remove_each_q pn d p us :
  forall acc w,
    configured cfg (service w) = Some d ->
    head (projects_named pn (domain_id d) (service w)) = Some p ->
    List.NoDup (assignments (service w)) ->
    exists w',
      remove_each oracle cfg pn us acc w = (Ok (acc ++ us), w')
      /\ shrinks (service w) (service w')
      /\ forall u usr,
           In u us ->
           head (users_named u (domain_id d) (service w')) = Some usr ->
           assignments_of (user_id usr) (project_id p) (service w') = [].
Proof.
  induction us as [|u us IH]; intros acc w Hd Hp Hnd.
  - exists w. simpl. unfold ret. rewrite app_nil_r.
    split_and!; [done|done|by intros ? ? []].
  - destruct (delete_association_q u pn w d p Hd Hp Hnd)
      as (msg & w1 & Hrun & G1 & Hnone).
    destruct (IH (acc ++ [u]) w1) as (w2 & Hrest & G2 & Hall).
    { by eapply shrinks_configured. }
    { by rewrite (shrinks_projects _ _ _ _ G1). }
    { by eapply shrinks_nodup. }
    exists w2. split_and!.
    + cbn [remove_each]. unfold try_except, bind. rewrite Hrun. unfold ret.
      rewrite Hrest. by rewrite <- app_assoc.
    + by etransitivity.
    + intros x usr [<-|Hx] Hhead; [|by eapply Hall].
      apply (shrinks_assignments_of _ _ _ _ G2). apply Hnone.
      by rewrite <- (shrinks_users _ _ _ _ G2).
Qed.
End QuietRemoval.

(** X18. For an identifier that is not blank and has at most 255
    characters, on a service that answers every call and lists no assignment
    twice, with the project of the resource present in the configured
    domain, [remove_users_from_resource] reports every requested name in the
    order given, removes assignments only (domains, projects, users and
    roles stay), and afterwards [get_association] finds no membership of the
    project for any of the names. *)
Theorem remove_then_get_association (oracle : nat -> KCall -> option exn)
    (cfg : Config.OpenStackConfig) (id : string) (us : list string)
    (w : World) (d : Domain) (p : Project) :
  (forall n c, oracle n c = None) ->
  blank id = false -> (String.length id <= 255)%nat ->
  configured cfg (service w) = Some d ->
  head (projects_named (sanitize_for_openstack id) (domain_id d) (service w))
  = Some p ->
  List.NoDup (assignments (service w)) ->
  exists w1,
    remove_users_from_resource oracle cfg id us w = (Ok us, w1)
    /\ shrinks (service w) (service w1)
    /\ forall u, In u us ->
        exists w2,
          ClientExtra.get_association oracle cfg u
            (sanitize_for_openstack id) w1 = (Ok None, w2).
Proof.
  intros quiet Hb Hlen Hd Hp Hnd.
  destruct (get_resource_q oracle cfg quiet _ w d p Hd Hp)
    as (r & wa & Hres & Hsa).
  destruct (remove_each_q oracle cfg quiet (sanitize_for_openstack id) d p us
              [] wa) as (w1 & Hrun & G & Hall).
  { by rewrite Hsa. }
  { by rewrite Hsa. }
  { by rewrite Hsa. }
  rewrite Hsa in G. exists w1. split_and!.
  - unfold remove_users_from_resource.
    rewrite Hb, (validate_ok _ _ (not_blank_not_empty _ Hb) Hlen).
    unfold try_except, bind. rewrite Hres, Hrun. reflexivity.
  - done.
  - intros u Hu.
    apply (get_association_none oracle cfg quiet u _ w1 d p).
    + by eapply shrinks_configured.
    + by rewrite (shrinks_projects _ _ _ _ G).
    + intros usr. by apply Hall.
Qed.

Lemma remove_then_get_association_witness :
  let w := Scenario.world_of Scenario.populated in
  exists w1,
    remove_users_from_resource Scenario.quiet Config.default "abc-123"
      ["alice"; "dave"] w = (Ok ["alice"; "dave"], w1)
    /\ shrinks (service w) (service w1)
    /\ forall u, In u ["alice"; "dave"] ->
        exists w2,
          ClientExtra.get_association Scenario.quiet Config.default u
            (sanitize_for_openstack "abc-123") w1 = (Ok None, w2).
Proof.
  intros w.
  apply (remove_then_get_association Scenario.quiet Config.default
           "abc-123" ["alice"; "dave"] w Scenario.default_dom
           (Scenario.mk_project 10 "abc-123" 1));
    [reflexivity|reflexivity|simpl; lia|reflexivity|reflexivity|].
  repeat constructor; simpl; intuition discriminate.
Defined.

End RevocationProofs.

(** ** The usage report *)

Module UsageProofs.
Import ClientExtra.

Lemma fill_usage_report_lookup ids :
  forall report k,
    fill_usage_report ids report !! k
    = if decide (k ∈ ids) then Some empty_usage else report !! k.
Proof.
  induction ids as [|i ids IH]; intros report k; simpl.
  - destruct (decide (k ∈ [])) as [H|_]; [|done]. by apply elem_of_nil in H.
  - rewrite IH. destruct (decide (k ∈ ids)) as [Hin|Hout].
    + rewrite decide_True; [done|]. by right.
    + destruct (decide (k = i)) as [->|Hne].
      * rewrite lookup_insert_eq, decide_True; [done|]. by left.
      * rewrite lookup_insert_ne by done. rewrite decide_False; [done|].
        intros H. apply elem_of_cons in H as [?|?]; done.
Qed.

(** X19. The usage report holds an entry exactly for the identifiers
    requested, one per distinct identifier however often it is repeated, and
    every entry is the empty usage: three empty dictionaries under [users],
    [total] and [components]. *)
Theorem usage_report_is_empty (ids : list string) :
  (forall k,
      _get_usage_report ids !! k
      = if decide (k ∈ ids) then Some empty_usage else None)
  /\ dom (_get_usage_report ids) = list_to_set ids
  /\ (forall k usage section figures,
        _get_usage_report ids !! k = Some usage ->
        usage !! section = Some figures ->
        figures = ∅ /\ section ∈ ["users"; "total"; "components"]).
Proof.
  assert (Hlook : forall k,
             _get_usage_report ids !! k
             = if decide (k ∈ ids) then Some empty_usage else None).
  { intros k. unfold _get_usage_report.
    by rewrite fill_usage_report_lookup, lookup_empty. }
  split_and!; [exact Hlook| |].
  - apply set_eq. intros k. rewrite elem_of_dom, elem_of_list_to_set, Hlook.
    destruct (decide (k ∈ ids)); split; try done; by intros [? ?].
  - intros k usage section figures Hk Hs. rewrite Hlook in Hk.
    destruct (decide (k ∈ ids)); [|done]. injection Hk as <-.
    unfold empty_usage in Hs. simpl in Hs.
    destruct (decide (section = "users")) as [->|N1].
    { rewrite lookup_insert_eq in Hs. injection Hs as <-.
      split; [done|]. by left. }
    rewrite lookup_insert_ne in Hs by done.
    destruct (decide (section = "total")) as [->|N2].
    { rewrite lookup_insert_eq in Hs. injection Hs as <-.
      split; [done|]. right. by left. }
    rewrite lookup_insert_ne in Hs by done.
    destruct (decide (section = "components")) as [->|N3].
    { rewrite lookup_insert_eq in Hs. injection Hs as <-.
      split; [done|]. right. right. by left. }
    rewrite lookup_insert_ne in Hs by done. by rewrite lookup_empty in Hs.
Qed.

Lemma usage_report_is_empty_witness :
  _get_usage_report ["a"; "b"; "a"] !! "a" = Some empty_usage
  /\ empty_usage !! "total" = Some (∅ : gmap string Z)
  /\ (∅ : gmap string Z) = ∅
  /\ "total" ∈ ["users"; "total"; "components"].
Proof.
  split; [vm_compute; reflexivity|].
  split; [vm_compute; reflexivity|].
  apply (proj2 (proj2 (usage_report_is_empty ["a"; "b"; "a"])) "a"
           empty_usage "total" ∅); vm_compute; reflexivity.
Defined.

End UsageProofs.

(** ** From creation to the removal of the members *)

Module LifecycleProofs.
Import Py Identity Effects Logic LogicProofs GatewayProofs MembershipProofs.
Import Sanitize Backend Outcomes TaxonomyProofs CreationProofs Membership.
Import DeletionProofs ReliableProofs RevocationProofs.

Section QuietLifecycle.
Variable oracle : nat -> KCall -> option exn.
Variable cfg : Config.OpenStackConfig.
Hypothesis quiet : forall n c, oracle n c = None.

Lemma create_q r x w :
  attr (uuid r) = Some x -> (String.length x <= 255)%nat ->
  configured cfg (service w) <> None
  \/ listed cfg (sanitize_for_openstack x) (service w) = [] ->
  exists d p w1,
    _create_resource_in_backend oracle cfg r w = (Ok x, w1)
    /\ configured cfg (service w1) = Some d
    /\ head (projects_named (sanitize_for_openstack x) (domain_id d)
               (service w1)) = Some p
    /\ assignments (service w1) = assignments (service w).
Proof.
  intros Hu Hl Hpre.
  destruct (configured cfg (service w)) as [d|] eqn:Hd.
  - destruct (projects_named (sanitize_for_openstack x) (domain_id d)
                (service w)) as [|p l] eqn:Hnamed.
    + destruct (create_fresh oracle cfg quiet r x w d Hu Hl Hd Hnamed)
        as (p & t & Hn & Hdom & _ & Hrun).
      eexists d, p, _. split_and!; [exact Hrun|done| |done].
      cbn [service].
      by rewrite (projects_named_added _ _ _ _ Hn Hdom), Hnamed.
    + destruct (create_found oracle cfg quiet r x w d p l Hu Hl Hd Hnamed)
        as (t & _ & Hrun).
      eexists d, p, _. split_and!; [exact Hrun|done| |done].
      cbn [service]. by rewrite Hnamed.
  - destruct Hpre as [?|Hnone]; [done|].
    destruct (create_fresh_unconfigured oracle cfg quiet r x w Hu Hl Hd
                Hnone) as (d & p & w1 & t & Hrun & _ & _ & Hd1 & Hp & Ha).
    exists d, p, w1. split_and!; [done|done|by rewrite Hp|done].
Qed.

Lemma add_users_q id us w d p :
  blank id = false -> (String.length id <= 255)%nat ->
  Config.create_users_if_not_exist cfg = true ->
  configured cfg (service w) = Some d ->
  head (projects_named (sanitize_for_openstack id) (domain_id d) (service w))
  = Some p ->
  exists w1,
    add_users_to_resource oracle cfg id us w = (Ok (list_to_set us), w1)
    /\ grows (service w) (service w1)
    /\ forall u, In u us ->
         settled cfg u (sanitize_for_openstack id) d (service w1).
Proof.
  intros Hb Hlen Hon Hd Hp.
  destruct (get_resource_q oracle cfg quiet _ w d p Hd Hp)
    as (r & wa & Hres & Hsa).
  destruct (add_each_q oracle cfg quiet (sanitize_for_openstack id) d p us
              Hon ∅ wa) as (w1 & Hrun & G & Hall).
  { by rewrite Hsa. }
  { by rewrite Hsa. }
  rewrite (right_id_L ∅ (∪)) in Hrun. rewrite Hsa in G.
  exists w1. split_and!; [|done|done].
  rewrite (add_users_run oracle cfg id us w r wa Hb Hlen Hres).
  unfold try_except. by rewrite Hrun.
Qed.

Lemma remove_users_q id us w d p :
  blank id = false -> (String.length id <= 255)%nat ->
  configured cfg (service w) = Some d ->
  head (projects_named (sanitize_for_openstack id) (domain_id d) (service w))
  = Some p ->
  List.NoDup (assignments (service w)) ->
  exists w1,
    remove_users_from_resource oracle cfg id us w = (Ok us, w1)
    /\ shrinks (service w) (service w1)
    /\ forall u usr,
         In u us ->
         head (users_named u (domain_id d) (service w1)) = Some usr ->
         assignments_of (user_id usr) (project_id p) (service w1) = [].
Proof.
  intros Hb Hlen Hd Hp Hnd.
  destruct (get_resource_q oracle cfg quiet _ w d p Hd Hp)
    as (r & wa & Hres & Hsa).
  destruct (remove_each_q oracle cfg quiet (sanitize_for_openstack id) d p us
              [] wa) as (w1 & Hrun & G & Hall).
  { by rewrite Hsa. }
  { by rewrite Hsa. }
  { by rewrite Hsa. }
  rewrite Hsa in G. exists w1. split_and!; [|done|done].
  unfold remove_users_from_resource.
  rewrite Hb, (validate_ok _ _ (not_blank_not_empty _ Hb) Hlen).
  unfold try_except, bind. rewrite Hres, Hrun. reflexivity.
Qed.
End QuietLifecycle.

(** X20. The life cycle of a resource on a service that answers every call
    and lists no assignment twice, for a resource whose identifier is not
    blank and has at most 255 characters, with the creation of missing users
    switched on, where the configured domain exists or, failing that, no
    project of the sanitized name exists in any domain (the first call then
    creates the domain): [_create_resource_in_backend] returns the
    identifier;
    [add_users_to_resource] on that identifier then reports every requested
    name and [get_association] finds each of them in the project;
    [remove_users_from_resource] then reports every name and
    [get_association] finds none of them; the projects are the same after
    the members came and went. *)
Theorem membership_life_cycle (oracle : nat -> KCall -> option exn)
    (cfg : Config.OpenStackConfig) (r : WaldurResource) (x : string)
    (us : list string) (w : World) :
  (forall n c, oracle n c = None) ->
  attr (uuid r) = Some x -> blank x = false ->
  (String.length x <= 255)%nat ->
  Config.create_users_if_not_exist cfg = true ->
  configured cfg (service w) <> None
  \/ listed cfg (sanitize_for_openstack x) (service w) = [] ->
  List.NoDup (assignments (service w)) ->
  exists w1 w2 w3,
    _create_resource_in_backend oracle cfg r w = (Ok x, w1)
    /\ add_users_to_resource oracle cfg x us w1 = (Ok (list_to_set us), w2)
    /\ (forall u, In u us ->
          exists n w',
            ClientExtra.get_association oracle cfg u
              (sanitize_for_openstack x) w2
            = (Ok (Some {| ClientExtra.account := sanitize_for_openstack x;
                           ClientExtra.user := u;
                           ClientExtra.value := S n |}), w'))
    /\ remove_users_from_resource oracle cfg x us w2 = (Ok us, w3)
    /\ (forall u, In u us ->
          exists w',
            ClientExtra.get_association oracle cfg u
              (sanitize_for_openstack x) w3 = (Ok None, w'))
    /\ projects (service w3) = projects (service w1).
Proof.
  intros quiet Hu Hb Hlen Hon Hpre Hnd.
  destruct (create_q oracle cfg quiet r x w Hu Hlen Hpre)
    as (d & p & w1 & Hcreate & Hd1 & Hp1 & Ha1).
  destruct (add_users_q oracle cfg quiet x us w1 d p Hb Hlen Hon Hd1 Hp1)
    as (w2 & Hadd & G & Hset).
  assert (Hd2 : configured cfg (service w2) = Some d)
    by by eapply configured_grows.
  assert (Hp2 : head (projects_named (sanitize_for_openstack x) (domain_id d)
                        (service w2)) = Some p)
    by by rewrite (projects_named_grows _ _ _ _ G).
  assert (Hnd2 : List.NoDup (assignments (service w2))).
  { destruct G as (_ & _ & _ & _ & _ & N). apply N. by rewrite Ha1. }
  destruct (remove_users_q oracle cfg quiet x us w2 d p Hb Hlen Hd2 Hp2 Hnd2)
    as (w3 & Hrem & Sh & Hnone).
  exists w1, w2, w3. split_and!; [done|done| |done| |].
  - intros u Hin.
    by apply (get_association_settled oracle cfg quiet u _ w2 d); [|apply Hset].
  - intros u Hin.
    apply (get_association_none oracle cfg quiet u _ w3 d p).
    + by eapply shrinks_configured.
    + by rewrite (shrinks_projects _ _ _ _ Sh).
    + intros usr. by apply Hnone.
  - destruct Sh as (_ & -> & _). by destruct G as (_ & -> & _).
Qed.

Lemma membership_life_cycle_witness :
  let r := Scenario.resource_of "abc-123" in
  let w := Scenario.world_of ScenarioExtra.bare in
  let us := ["alice"; "bob"] in
  exists w1 w2 w3,
    _create_resource_in_backend Scenario.quiet Config.default r w
    = (Ok "abc-123", w1)
    /\ add_users_to_resource Scenario.quiet Config.default "abc-123" us w1
       = (Ok (list_to_set us), w2)
    /\ (forall u, In u us ->
          exists n w',
            ClientExtra.get_association Scenario.quiet Config.default u
              (sanitize_for_openstack "abc-123") w2
            = (Ok (Some {| ClientExtra.account :=
                             sanitize_for_openstack "abc-123";
                           ClientExtra.user := u;
                           ClientExtra.value := S n |}), w'))
    /\ remove_users_from_resource Scenario.quiet Config.default "abc-123" us
         w2 = (Ok us, w3)
    /\ (forall u, In u us ->
          exists w',
            ClientExtra.get_association Scenario.quiet Config.default u
              (sanitize_for_openstack "abc-123") w3 = (Ok None, w'))
    /\ projects (service w3) = projects (service w1).
Proof.
  intros r w us.
  apply (membership_life_cycle Scenario.quiet Config.default r "abc-123" us
           w);
    [reflexivity|reflexivity|reflexivity|simpl; lia|reflexivity
    |right; reflexivity|].
  constructor.
Defined.

End LifecycleProofs.
